(** * InStock: calendar-aware scheduling, per-run caches, strategy
      predicates and forward-return scoring

    A shallow embedding of the Python sources under [instock/] and the
    properties of its specification.

    Conventions of the embedding.
    - A Python call either returns a value or raises: [result A].
    - A [while True] loop is run with fuel: [option (result A)], where
      [None] means the loop was still running when the fuel ran out.
    - A [datetime.date] is its proleptic Gregorian ordinal
      ([date.toordinal()]), an integer between 1 and 3652059; adding a
      [timedelta] that leaves this range raises [OverflowError], as
      [datetime] does.
    - The fields of a bar are finite floats, given by their exact
      rational values.  The predicates compare exact values.  The
      forward returns of the scorer are computed as numpy computes
      them, in binary64: every operation is the exact one followed by
      rounding to the nearest double (module [B64]). *)

From Stdlib Require Import ZArith QArith Qround Qabs Qpower Lia Lqa List Bool String.
From stdpp Require Import base option list gmap sets strings pretty.

Local Open Scope Z_scope.

(* ------------------------------------------------------------------ *)
(** * Python results                                                    *)
(* ------------------------------------------------------------------ *)

Inductive exn : Type :=
  | AttributeError
  | OverflowError
  | IndexError
  | NameError
  | TypeError
  | ValueError
  | ZeroDivisionError
  | FetchError.

Inductive result (A : Type) : Type :=
  | Ok (a : A)
  | Raise (e : exn).
Arguments Ok {A} a.
Arguments Raise {A} e.

Definition rbind {A B} (r : result A) (k : A -> result B) : result B :=
  match r with
  | Ok a => k a
  | Raise e => Raise e
  end.

(** Loops under fuel: [None] is "not finished yet". *)
Definition fbind {A B} (r : option (result A)) (k : A -> option (result B))
  : option (result B) :=
  match r with
  | None => None
  | Some (Raise e) => Some (Raise e)
  | Some (Ok a) => k a
  end.

Declare Scope py_scope.
Delimit Scope py_scope with py.
Notation "'do' x <- r ; k" := (rbind r (fun x => k))
  (at level 10, x name, r at level 100, k at level 200) : py_scope.
Notation "'run' x <- r ; k" := (fbind r (fun x => k))
  (at level 10, x name, r at level 100, k at level 200) : py_scope.
Local Open Scope py_scope.

(* ------------------------------------------------------------------ *)
(** * datetime.date                                                     *)
(* ------------------------------------------------------------------ *)

Module Date.

(** [date.min.toordinal()] and [date.max.toordinal()]. *)
Definition MINORD : Z := 1.
Definition MAXORD : Z := 3652059.

Definition valid (d : Z) : Prop := MINORD <= d <= MAXORD.

(** [d + datetime.timedelta(days=k)] *)
Definition add_days (d k : Z) : result Z :=
  let d' := d + k in
  if (MINORD <=? d') && (d' <=? MAXORD) then Ok d' else Raise OverflowError.

End Date.

(* ------------------------------------------------------------------ *)
(** * lib/singleton_type.py                                             *)
(* ------------------------------------------------------------------ *)

(** An instance of a class whose [__init__] assigns [self.data] inside a
    [try]: when the fetch raised, the attribute was never set. *)
Record instance (D : Type) : Type := Instance { attr_data : option D }.
Arguments Instance {D} attr_data.
Arguments attr_data {D} i.

(** [return self.data] *)
Definition get_data {D} (i : instance D) : result D :=
  match attr_data i with
  | Some d => Ok d
  | None => Raise AttributeError
  end.

(** [singleton_type.__call__] for one class.  [W] is the state of the
    process; [get_slot] and [set_slot] read and write the class
    attribute [_instance]; [init] is the call of [super().__call__], that
    is the class's [__init__] applied to the arguments of this call.  When
    [__init__] raises, [_instance] stays unset and the exception
    propagates. *)
Definition singleton_call {W I : Type}
    (get_slot : W -> option I) (set_slot : I -> W -> W)
    (init : W -> result I * W) (w : W) : result I * W :=
  match get_slot w with
  | Some i => (Ok i, w)
  | None =>
      let '(r, w') := init w in
      match r with
      | Ok i => (Ok i, set_slot i w')
      | Raise e => (Raise e, w')
      end
  end.

(* ------------------------------------------------------------------ *)
(** * core/singleton_trade_date.py                                      *)
(* ------------------------------------------------------------------ *)

(** What [stf.fetch_stocks_trade_date()] gave: it raised, it returned
    [None], or it returned the set of trading dates. *)
Definition calendar_source : Type := result (option (gset Z)).

Definition trade_calendar : Type := instance (option (gset Z)).

(** [stock_trade_date.__init__]: the assignment sits inside the [try];
    the handler only logs. *)
Definition stock_trade_date_init (src : calendar_source) : trade_calendar :=
  match src with
  | Ok v => Instance (Some v)
  | Raise _ => Instance None
  end.

(** [stock_trade_date()] through the metaclass. *)
Definition stock_trade_date (src : calendar_source)
    (slot : option trade_calendar) : result trade_calendar * option trade_calendar :=
  singleton_call (fun slot => slot) (fun i _ => Some i)
    (fun slot => (Ok (stock_trade_date_init src), slot)) slot.

(* ------------------------------------------------------------------ *)
(** * lib/trade_time.py                                                 *)
(* ------------------------------------------------------------------ *)

(** The functions below read [stock_trade_date().get_data()]; [cal] is
    the instance that call designates. *)

Definition is_trade_date (cal : trade_calendar) (date : Z) : result bool :=
  do trade_date <- get_data cal;
  match trade_date with
  | None => Ok false
  | Some s => if bool_decide (date ∈ s) then Ok true else Ok false
  end.

(** The loop shared by [get_one_previous_trade_date] (step -1) and
    [get_next_trade_date] (step 1):
    [while True: tmp_date += timedelta(days=step);
                 if tmp_date in trade_date: break]. *)
Fixpoint walk_trade_date (step : Z) (s : gset Z) (fuel : nat) (tmp_date : Z)
  : option (result Z) :=
  match fuel with
  | O => None
  | S fuel' =>
      match Date.add_days tmp_date step with
      | Raise e => Some (Raise e)
      | Ok tmp_date' =>
          if bool_decide (tmp_date' ∈ s) then Some (Ok tmp_date')
          else walk_trade_date step s fuel' tmp_date'
      end
  end.

Definition get_one_previous_trade_date (cal : trade_calendar) (fuel : nat)
    (date : Z) : option (result Z) :=
  match get_data cal with
  | Raise e => Some (Raise e)
  | Ok None => Some (Ok date)
  | Ok (Some s) => walk_trade_date (-1) s fuel date
  end.

Definition get_next_trade_date (cal : trade_calendar) (fuel : nat)
    (date : Z) : option (result Z) :=
  match get_data cal with
  | Raise e => Some (Raise e)
  | Ok None => Some (Ok date)
  | Ok (Some s) => walk_trade_date 1 s fuel date
  end.

(** [while True: date = get_one_previous_trade_date(date); count -= 1;
                 if count == 0: break]. *)
Fixpoint get_previous_trade_date (cal : trade_calendar) (fuel : nat)
    (date : Z) (count : Z) : option (result Z) :=
  match fuel with
  | O => None
  | S fuel' =>
      run date' <- get_one_previous_trade_date cal fuel date;
      let count' := count - 1 in
      if count' =? 0 then Some (Ok date')
      else get_previous_trade_date cal fuel' date' count'
  end.

(** A [datetime.datetime]: the date's ordinal and the time of day in
    microseconds since midnight. *)
Record datetime : Type := DateTime { dt_date : Z; dt_time : Z }.

Definition time_of (h m sec : Z) : Z := ((h * 60 + m) * 60 + sec) * 1000000.

Definition CLOSE_TIME : list Z := [time_of 15 0 0].

(** [is_close]: [for close in CLOSE_TIME: if now >= close: return True]. *)
Definition is_close (now_time : datetime) : bool :=
  existsb (fun close => close <=? dt_time now_time) CLOSE_TIME.

(** [is_open]: [now >= datetime.time(9, 30, 0)]. *)
Definition is_open (now_time : datetime) : bool :=
  time_of 9 30 0 <=? dt_time now_time.

(** [get_trade_date_last], with [now_time = datetime.datetime.now()]. *)
Definition get_trade_date_last (cal : trade_calendar) (fuel : nat)
    (now_time : datetime) : option (result (Z * Z)) :=
  let run_date := dt_date now_time in
  let run_date_nph := run_date in
  match is_trade_date cal run_date with
  | Raise e => Some (Raise e)
  | Ok true =>
      if negb (is_close now_time) then
        run run_date' <- get_previous_trade_date cal fuel run_date 1;
        if negb (is_open now_time) then Some (Ok (run_date', run_date'))
        else Some (Ok (run_date', run_date_nph))
      else Some (Ok (run_date, run_date_nph))
  | Ok false =>
      run run_date' <- get_previous_trade_date cal fuel run_date 1;
      Some (Ok (run_date', run_date'))
  end.

(** [get_trade_hist_interval], the date string already split and
    converted ([date_end]); [now_time] is the clock read inside. *)
Definition get_trade_hist_interval (cal : trade_calendar) (now_time : datetime)
    (date_end : Z) : result (Z * bool) :=
  do date_start <- Date.add_days date_end (- (365 * 3));
  let now_date := dt_date now_time in
  do between <-
    (if date_end =? now_date then
       do t <- is_trade_date cal now_date;
       Ok (t && (is_open now_time && negb (is_close now_time)))
     else Ok false);
  Ok (date_start, negb between).

(* ------------------------------------------------------------------ *)
(** * lib/run_template.py                                               *)
(* ------------------------------------------------------------------ *)

(** The extra arguments a job function is called with: the caller's
    [*args], or the literal [False] of the [save_nph] branch. *)
Inductive call_args : Type :=
  | StarArgs
  | JustFalse.

(** What [run_with_args] does to the outside, in order. *)
Inductive event : Type :=
  | Submit (run_date : Z)                 (* executor.submit(run_fun, run_date, *args) *)
  | Sleep (seconds : Z)                   (* time.sleep(2) *)
  | Call (run_date : Z) (a : call_args)   (* run_fun(...) in the calling thread *)
  | LogError (e : exn).                   (* logging.error in the handler *)

(** A job function: its [__name__] and what calling it does. *)
Record job : Type := Job {
  job_name : string;
  job_call : Z -> call_args -> result unit
}.

(** [sys.argv] after the script name: two dates, one comma-separated
    list (each piece already converted, or the exception its conversion
    raised), or anything else. *)
Inductive argv : Type :=
  | ArgvRange (start_date end_date : Z)
  | ArgvList (dates : list (result Z))
  | ArgvOther.

(** Range mode, the body of the [try]:
    [while run_date <= end_date:
         if trd.is_trade_date(run_date): submit; sleep(2)
         run_date += timedelta(days=1)];
    an exception leaves the loop and is logged by the handler. *)
Fixpoint range_loop (cal : trade_calendar) (fuel : nat) (run_date end_date : Z)
  : option (list event) :=
  match fuel with
  | O => None
  | S fuel' =>
      if run_date <=? end_date then
        match is_trade_date cal run_date with
        | Raise e => Some [LogError e]
        | Ok b =>
            let evs := if b then [Submit run_date; Sleep 2] else [] in
            match Date.add_days run_date 1 with
            | Raise e => Some (evs ++ [LogError e])
            | Ok run_date' =>
                option_map (app evs) (range_loop cal fuel' run_date' end_date)
            end
        end
      else Some []
  end.

(** List mode, the body of the [try]. *)
Fixpoint list_loop (cal : trade_calendar) (dates : list (result Z)) : list event :=
  match dates with
  | [] => []
  | Raise e :: _ => [LogError e]
  | Ok run_date :: rest =>
      match is_trade_date cal run_date with
      | Raise e => [LogError e]
      | Ok b =>
          (if b then [Submit run_date; Sleep 2] else []) ++ list_loop cal rest
      end
  end.

(** [str.startswith] *)
Definition startswith (s p : string) : bool := String.prefix p s.

(** Current mode, the body of the [try]. *)
Definition current_mode (cal : trade_calendar) (fuel : nat) (now_time : datetime)
    (run_fun : job) : option (list event) :=
  match get_trade_date_last cal fuel now_time with
  | None => None
  | Some (Raise e) => Some [LogError e]
  | Some (Ok (run_date, run_date_nph)) =>
      let call d a :=
        Call d a :: match job_call run_fun d a with
                    | Ok _ => []
                    | Raise e => [LogError e]
                    end in
      if startswith (job_name run_fun) "save_nph" then
        Some (call run_date_nph JustFalse)
      else if startswith (job_name run_fun) "save_after_close" then
        Some (call run_date StarArgs)
      else Some (call run_date_nph StarArgs)
  end.

Definition run_with_args (cal : trade_calendar) (fuel : nat) (now_time : datetime)
    (args : argv) (run_fun : job) : option (list event) :=
  match args with
  | ArgvRange start_date end_date => range_loop cal fuel start_date end_date
  | ArgvList dates => Some (list_loop cal dates)
  | ArgvOther => current_mode cal fuel now_time run_fun
  end.

(** The dates handed to the worker pool, in submission order. *)
Definition submitted (evs : list event) : list Z :=
  omap (fun ev => match ev with Submit d => Some d | _ => None end) evs.

(** The dates the job function was called with directly. *)
Definition called_with (evs : list event) : list Z :=
  omap (fun ev => match ev with Call d _ => Some d | _ => None end) evs.

(* ------------------------------------------------------------------ *)
(** * Floating-point values                                             *)
(* ------------------------------------------------------------------ *)

(** A numpy float: a finite value (an exact rational here), an infinity
    or NaN.  The sign of zero is not modelled: a zero divisor counts as
    +0.0. *)
Inductive fnum : Type :=
  | Fin (q : Q)
  | PInf
  | NInf
  | NaN.

Module NP.

Definition sgn (q : Q) : Z := Z.sgn (Qnum q).

Definition neg (x : fnum) : fnum :=
  match x with
  | Fin a => Fin (- a)
  | PInf => NInf
  | NInf => PInf
  | NaN => NaN
  end.

Definition add (x y : fnum) : fnum :=
  match x, y with
  | NaN, _ | _, NaN => NaN
  | Fin a, Fin b => Fin (a + b)
  | PInf, NInf | NInf, PInf => NaN
  | PInf, _ | _, PInf => PInf
  | NInf, _ | _, NInf => NInf
  end.

Definition sub (x y : fnum) : fnum := add x (neg y).

(** The infinity of the given sign; a zero sign is the invalid
    operation (0 * inf). *)
Definition inf_of (s : Z) : fnum :=
  match s with
  | Z0 => NaN
  | Zpos _ => PInf
  | Zneg _ => NInf
  end.

Definition sign_of (x : fnum) : Z :=
  match x with
  | Fin a => sgn a
  | PInf => 1
  | NInf => -1
  | NaN => 0
  end.

Definition mul (x y : fnum) : fnum :=
  match x, y with
  | NaN, _ | _, NaN => NaN
  | Fin a, Fin b => Fin (a * b)
  | _, _ => inf_of (sign_of x * sign_of y)
  end.

(** numpy division: dividing by zero gives an infinity (or NaN for
    0/0) and a warning, not an exception. *)
Definition div (x y : fnum) : fnum :=
  match x, y with
  | NaN, _ | _, NaN => NaN
  | Fin a, Fin b =>
      if Qeq_bool b 0 then inf_of (sgn a) else Fin (a / b)
  | Fin _, _ => Fin 0
  | _, Fin b => if Qeq_bool b 0 then x else inf_of (sign_of x * sgn b)
  | _, _ => NaN
  end.

(** Comparisons; each is false as soon as an operand is NaN. *)
Definition lt (x y : fnum) : bool :=
  match x, y with
  | NaN, _ | _, NaN => false
  | Fin a, Fin b => negb (Qle_bool b a)
  | NInf, NInf | PInf, _ | _, NInf => false
  | _, _ => true
  end.

Definition le (x y : fnum) : bool :=
  match x, y with
  | NaN, _ | _, NaN => false
  | Fin a, Fin b => Qle_bool a b
  | NInf, _ | _, PInf => true
  | _, _ => false
  end.

Definition gt (x y : fnum) : bool := lt y x.
Definition ge (x y : fnum) : bool := le y x.

(** [np.rint]: to the nearest integer, ties to the even one. *)
Definition rint (q : Q) : Z :=
  let f := Qfloor q in
  match (q - inject_Z f ?= 1 # 2)%Q with
  | Lt => f
  | Gt => f + 1
  | Eq => if Z.even f then f else f + 1
  end.

End NP.

(** Binary64 arithmetic (IEEE 754 doubles, as numpy's [float64]): an
    operation gives the double nearest to the exact result, ties to the
    even significand.  Zeros carry no sign. *)
Module B64.

(** [floor(log2 |q|)] for [q <> 0]. *)
Definition ilog2 (q : Q) : Z :=
  let n := Z.abs (Qnum q) in
  let d := Z.pos (Qden q) in
  let k := Z.log2 n - Z.log2 d in
  if (if 0 <=? k then d * 2 ^ k <=? n else d <=? n * 2 ^ (- k)) then k else k - 1.

(** The double nearest to [q]: a significand of 53 bits down to the
    exponent -1022, a multiple of 2^-1074 below; an infinity when the
    rounded value passes the largest double. *)
Definition round (q : Q) : fnum :=
  if Qeq_bool q 0 then Fin 0
  else
    let k := Z.max (ilog2 q - 52) (-1074) in
    let r := (inject_Z (NP.rint (q / 2 ^ k)) * 2 ^ k)%Q in
    if Qle_bool (2 ^ 1024) (Qabs r) then NP.inf_of (NP.sgn q) else Fin (Qred r).

Definition lift (x : fnum) : fnum :=
  match x with
  | Fin q => round q
  | _ => x
  end.

Definition sub (x y : fnum) : fnum := lift (NP.sub x y).
Definition mul (x y : fnum) : fnum := lift (NP.mul x y).
Definition div (x y : fnum) : fnum := lift (NP.div x y).

(** [np.rint] of a double: the nearest integer, itself a double. *)
Definition rint (x : fnum) : fnum :=
  match x with
  | Fin q => Fin (inject_Z (NP.rint q))
  | _ => x
  end.

(** [np.around(x, decimals=2)] on [float64]: numpy multiplies by 100.0,
    takes [rint] and divides by 100.0. *)
Definition around2 (x : fnum) : fnum :=
  div (rint (mul x (Fin 100))) (Fin 100).

End B64.

(** Comparisons of two finite values. *)
Definition Qltb (a b : Q) : bool := negb (Qle_bool b a).
Definition Qleb (a b : Q) : bool := Qle_bool a b.

(* ------------------------------------------------------------------ *)
(** * Series: the rows of a K-line DataFrame                            *)
(* ------------------------------------------------------------------ *)

(** One bar.  The [date] column holds ISO strings ("YYYY-MM-DD"), which
    compare as the dates they denote; a bar carries the ordinal. *)
Record bar : Type := Bar {
  bar_date : Z;
  bar_open : Q;
  bar_high : Q;
  bar_low : Q;
  bar_close : Q;
  bar_volume : Q;
  bar_p_change : Q
}.

Module DF.

(** [df.head(n)] = [df.iloc[:n]]: a negative [n] drops the last [-n]
    rows. *)
Definition head {A} (n : Z) (l : list A) : list A :=
  if 0 <=? n then take (Z.to_nat n) l
  else take (length l - Z.to_nat (- n))%nat l.

(** [df.tail(n)]: nothing for [n = 0], else [df.iloc[-n:]]; a negative
    [n] drops the first [-n] rows. *)
Definition tail {A} (n : Z) (l : list A) : list A :=
  if n =? 0 then []
  else if 0 <? n then drop (length l - Z.to_nat n)%nat l
  else drop (Z.to_nat (- n)) l.

(** [df.iloc[i]] for a Python index, negative ones counting from the
    end. *)
Definition iloc {A} (i : Z) (l : list A) : result A :=
  let n := Z.of_nat (length l) in
  let j := if i <? 0 then i + n else i in
  if (0 <=? j) && (j <? n) then
    match l !! Z.to_nat j with
    | Some a => Ok a
    | None => Raise IndexError
    end
  else Raise IndexError.

Definition len {A} (l : list A) : Z := Z.of_nat (length l).

End DF.

(** The key of an instrument: [(date, code, name)]. *)
Definition stock : Type := Z * string * string.

Definition stock_date (k : stock) : Z := k.1.1.
Definition stock_code (k : stock) : string := k.1.2.

(** The opening lines of every predicate: [end_date] is [code_name[0]]
    when [date is None], else [date.strftime("%Y-%m-%d")]; the rows
    kept are those with [data['date'] <= end_date].  ([code_name[0]] is
    a date string, so [end_date] is never [None].) *)
Definition mask_end_date (code_name : stock) (date : option Z)
    (data : list bar) : list bar :=
  let end_date := match date with None => stock_date code_name | Some d => d end in
  filter (fun b => bar_date b <=? end_date) data.

(** TA-Lib's [MA(values, timeperiod)] with the default simple average,
    after [values[np.isnan(values)] = 0.0]: position [i] holds the mean
    of the [timeperiod] values ending at [i], and 0 where fewer are
    available. *)
Definition ma_at (values : list Q) (timeperiod : nat) (i : nat) : Q :=
  if (timeperiod <=? S i)%nat then
    (foldr Qplus 0 (take timeperiod (drop (S i - timeperiod) values))
       / inject_Z (Z.of_nat timeperiod))%Q
  else 0%Q.

Definition MA (values : list Q) (timeperiod : nat) : list Q :=
  imap (fun i _ => ma_at values timeperiod i) values.

(* ------------------------------------------------------------------ *)
(** * core/backtest/rate_stats.py                                       *)
(* ------------------------------------------------------------------ *)

(** A value of the returned [pd.Series]. *)
Inductive cell : Type :=
  | CDate (d : Z)
  | CCode (c : string)
  | CRate (x : fnum)
  | CNone.

(** [pd.Series(values, index=index)]: the lengths must agree. *)
Definition pd_Series (values : list cell) (index : list string)
  : result (list (string * cell)) :=
  if (length values =? length index)%nat then Ok (zip index values)
  else Raise ValueError.

(** [100 * (x - close1) / close1] on [float64] values: the difference,
    its product by 100 and the quotient by [close1] are each rounded to
    a double. *)
Definition pct_change (close1 x : fnum) : fnum :=
  B64.div (B64.mul (Fin 100) (B64.sub x close1)) close1.

(** [np.around(100 * (x - close1) / close1, decimals=2)].  The [close]
    column is [float64]: a close given by a rational that is not a
    double stands for the double nearest to it, as parsing its decimal
    gives; a double is left as it is. *)
Definition sum_pct_change (close1 x : Q) : fnum :=
  B64.around2 (pct_change (B64.round close1) (B64.round x)).

(** The specification's formula before rounding, in exact
    arithmetic: [100*(close_i - close_0)/close_0]. *)
Definition spec_percent_return (close_0 close_i : Q) : Q :=
  (100 * (close_i - close_0) / close_0)%Q.

(** The double a close stands for. *)
Definition double_of (q : Q) : Q :=
  match B64.round q with
  | Fin r => r
  | _ => 0%Q
  end.

Definition get_rates (code_name : stock) (data : option (list bar))
    (stock_column : list string) (threshold : Z)
  : result (option (list (string * cell))) :=
  match data with
  | None => Ok None
  | Some data =>
      let start_date := stock_date code_name in
      let code := stock_code code_name in
      let stock_data_list := [CDate start_date; CCode code] in
      let data := filter (fun b => start_date <=? bar_date b) data in
      let data := DF.head threshold data in
      if DF.len data <=? 1 then Ok None
      else
        let filled :=
          match DF.iloc 0 data with
          | Raise _ => stock_data_list     (* logged by the handler *)
          | Ok first =>
              let close1 := bar_close first in
              let column := map (fun b => sum_pct_change close1 (bar_close b)) data in
              let stock_data_list :=
                stock_data_list ++ map CRate (drop 1 column) in
              let _l := (length stock_column - length stock_data_list)%nat in
              stock_data_list ++ replicate _l CNone
          end in
        do series <- pd_Series filled stock_column;
        Ok (Some series)
  end.

(* ------------------------------------------------------------------ *)
(** * core/strategy                                                     *)
(* ------------------------------------------------------------------ *)

Module turtle_trade.

Definition check_enter (code_name : stock) (data : list bar)
    (date : option Z) (threshold : Z) : result bool :=
  let data := mask_end_date code_name date data in
  if DF.len data <? threshold then Ok false
  else
    let data := DF.tail threshold data in
    let max_price :=
      fold_left (fun max_price _close =>
                   if Qltb max_price _close then _close else max_price)
                (map bar_close data) 0%Q in
    do last <- DF.iloc (-1) data;
    let last_close := bar_close last in
    if Qleb max_price last_close then Ok true else Ok false.

End turtle_trade.

(** The body shared, line for line, by [enter.check_volume] and
    [climax_limitdown.check] once the last bar's change has passed the
    first test: the 5-bar average of the volume, the amount floor, and
    the ratio of the last volume to the average one bar earlier. *)
Definition volume_ratio_check (data : list bar) (threshold : Z) (min_ratio : Q)
  : result bool :=
  let data := zip data (MA (map bar_volume data) 5) in
  let data := DF.tail (threshold + 1) data in
  if DF.len data <? threshold + 1 then Ok false
  else
    do last <- DF.iloc (-1) data;
    let last_close := bar_close last.1 in
    let last_vol := bar_volume last.1 in
    let amount := (last_close * last_vol)%Q in
    if Qltb amount 200000000 then Ok false
    else
      let data := DF.head threshold data in
      do prev <- DF.iloc (-1) data;
      let mean_vol := prev.2 in
      let vol_ratio := NP.div (Fin last_vol) (Fin mean_vol) in
      if NP.ge vol_ratio (Fin min_ratio) then Ok true else Ok false.

Module enter.

Definition check_volume (code_name : stock) (data : list bar)
    (date : option Z) (threshold : Z) : result bool :=
  let data := mask_end_date code_name date data in
  if DF.len data <? threshold then Ok false
  else
    do last <- DF.iloc (-1) data;
    let p_change := bar_p_change last in
    if Qltb p_change 2 || Qltb (bar_close last) (bar_open last) then Ok false
    else volume_ratio_check data threshold 2.

End enter.

Module climax_limitdown.

Definition check (code_name : stock) (data : list bar)
    (date : option Z) (threshold : Z) : result bool :=
  let data := mask_end_date code_name date data in
  if DF.len data <? threshold then Ok false
  else
    do last <- DF.iloc (-1) data;
    let p_change := bar_p_change last in
    if Qltb (- (95 # 10)) p_change then Ok false
    else volume_ratio_check data threshold 4.

End climax_limitdown.

Module keep_increasing.

Definition check (code_name : stock) (data : list bar)
    (date : option Z) (threshold : Z) : result bool :=
  let data := mask_end_date code_name date data in
  if DF.len data <? threshold then Ok false
  else
    let data := zip data (MA (map bar_close data) 30) in
    let data := DF.tail threshold data in
    let step1 := NP.rint (inject_Z threshold / 3) in
    let step2 := NP.rint (inject_Z threshold * 2 / 3) in
    do r0 <- DF.iloc 0 data;
    do r1 <- DF.iloc step1 data;
    if negb (Qltb r0.2 r1.2) then Ok false
    else
      do r2 <- DF.iloc step2 data;
      if negb (Qltb r1.2 r2.2) then Ok false
      else
        do r3 <- DF.iloc (-1) data;
        if negb (Qltb r2.2 r3.2) then Ok false
        else
          do r3' <- DF.iloc (-1) data;
          do r0' <- DF.iloc 0 data;
          if Qltb ((12 # 10) * r0'.2) r3'.2 then Ok true else Ok false.

End keep_increasing.

Module low_atr.

(** The running values of the loop: [total_change], [highest_row],
    [lowest_row].  ([inc_days] and [dec_days] are counted but never
    read.) *)
Definition scan (data : list bar) : Q * Q * Q :=
  fold_left
    (fun '(total_change, highest_row, lowest_row) b =>
       let _p_change := bar_p_change b in
       let _close := bar_close b in
       let total_change :=
         if Qltb 0 _p_change then (total_change + Qabs _p_change)%Q
         else if Qltb _p_change 0 then (total_change + Qabs _p_change)%Q
         else total_change in
       if Qltb highest_row _close then (total_change, _close, lowest_row)
       else if Qltb _close lowest_row then (total_change, highest_row, _close)
       else (total_change, highest_row, lowest_row))
    data (0%Q, 0%Q, 1000000%Q).

Definition check_low_increase (code_name : stock) (data : list bar)
    (date : option Z) (ma_short ma_long threshold : Z) : result bool :=
  let data := mask_end_date code_name date data in
  if DF.len data <? ma_long then Ok false
  else
    let data := DF.tail threshold data in
    let days_count := DF.len data in
    if days_count <? threshold then Ok false
    else
      let '(total_change, highest_row, lowest_row) := scan data in
      (* with no row the operands are a Python float and an int *)
      if days_count =? 0 then Raise ZeroDivisionError
      else
        let atr := (total_change / inject_Z days_count)%Q in
        if Qltb 10 atr then Ok false
        else
          let ratio :=
            NP.div (Fin (highest_row - lowest_row)) (Fin lowest_row) in
          if NP.gt ratio (Fin (11 # 10)) then Ok true else Ok false.

End low_atr.

Module low_backtrace_increase.

(** The loop over the window: [false] is the [return False] inside
    it, [true] is falling out of it. *)
Fixpoint scan (previous_p_change previous_open : Q) (rows : list bar) : bool :=
  match rows with
  | [] => true
  | b :: rest =>
      let _p_change := bar_p_change b in
      let _close := bar_close b in
      let _open := bar_open b in
      if Qltb _p_change (-7)
         || NP.lt (NP.mul (NP.div (Fin (_close - _open)) (Fin _open)) (Fin 100))
                  (Fin (-7))
         || Qltb (previous_p_change + _p_change) (-10)
         || NP.lt (NP.mul (NP.div (Fin (_close - previous_open)) (Fin previous_open))
                          (Fin 100))
                  (Fin (-10))
      then false
      else scan _p_change _open rest
  end.

Definition check (code_name : stock) (data : list bar)
    (date : option Z) (threshold : Z) : result bool :=
  let data := mask_end_date code_name date data in
  if DF.len data <? threshold then Ok false
  else
    let data := DF.tail threshold data in
    do last <- DF.iloc (-1) data;
    do first <- DF.iloc 0 data;
    do first' <- DF.iloc 0 data;
    let ratio_increase :=
      NP.div (Fin (bar_close last - bar_close first)) (Fin (bar_close first')) in
    if NP.lt ratio_increase (Fin (6 # 10)) then Ok false
    else Ok (scan 100 (-1000000) data).

End low_backtrace_increase.

Module high_tight_flag.

(** [data['low'].values.min()]: numpy refuses an empty array. *)
Definition values_min (values : list Q) : result Q :=
  match values with
  | [] => Raise ValueError
  | v :: rest => Ok (fold_left (fun m x => if Qltb x m then x else m) rest v)
  end.

Fixpoint scan (previous_p_change : Q) (p_changes : list Q) : bool :=
  match p_changes with
  | [] => false
  | _p_change :: rest =>
      if Qleb (95 # 10) _p_change then
        if Qleb (95 # 10) previous_p_change then true
        else scan _p_change rest
      else scan 0 rest
  end.

Definition check_high_tight (code_name : stock) (data : list bar)
    (date : option Z) (threshold : Z) (istop : bool) : result bool :=
  if negb istop then Ok false
  else
    let data := mask_end_date code_name date data in
    if DF.len data <? threshold then Ok false
    else
      let data := DF.tail threshold data in
      let data := DF.tail 24 data in
      let data := DF.head 14 data in
      do low <- values_min (map bar_low data);
      do last <- DF.iloc (-1) data;
      let ratio_increase := NP.div (Fin (bar_high last)) (Fin low) in
      if NP.lt ratio_increase (Fin (19 # 10)) then Ok false
      else Ok (scan 0 (map bar_p_change data)).

End high_tight_flag.

(** [a < x < b] on numpy floats. *)
Definition between (a : Q) (x : fnum) (b : Q) : bool :=
  NP.lt (Fin a) x && NP.lt x (Fin b).

Module parking_apron.

(** [datetime.date(datetime.strptime(_date, '%Y-%m-%d'))], with
    [datetime] the class imported from the module of that name: the
    date the ISO string of the bar denotes. *)
Definition date_argument (_date : Z) : result Z := Ok _date.

Definition check_internal (data : list bar) (limitup_row : Q * Z) : bool :=
  let limitup_price := limitup_row.1 in
  let limitup_end := filter (fun b => limitup_row.2 <? bar_date b) data in
  let limitup_end := DF.head 3 limitup_end in
  if DF.len limitup_end <? 3 then false
  else
    match limitup_end with
    | [] => false
    | consolidation_day1 :: _ =>
        let consolidation_day23 := DF.tail 2 limitup_end in
        if negb (Qltb limitup_price (bar_close consolidation_day1)
                 && Qltb limitup_price (bar_open consolidation_day1)
                 && between (97 # 100)
                      (NP.div (Fin (bar_close consolidation_day1))
                              (Fin (bar_open consolidation_day1)))
                      (103 # 100))
        then false
        else
          forallb
            (fun b =>
               between (97 # 100)
                 (NP.div (Fin (bar_close b)) (Fin (bar_open b))) (103 # 100)
               && (Qltb (-5) (bar_p_change b) && Qltb (bar_p_change b) 5)
               && Qltb limitup_price (bar_close b)
               && Qltb limitup_price (bar_open b))
            consolidation_day23
    end.

Fixpoint scan (code_name : stock) (origin_data data : list bar)
    (threshold : Z) (rows : list bar) : result bool :=
  match rows with
  | [] => Ok false
  | b :: rest =>
      if Qltb (95 # 10) (bar_p_change b) then
        do d <- date_argument (bar_date b);
        do entered <- turtle_trade.check_enter code_name origin_data (Some d) threshold;
        if entered then
          if check_internal data (bar_close b, bar_date b) then Ok true
          else scan code_name origin_data data threshold rest
        else scan code_name origin_data data threshold rest
      else scan code_name origin_data data threshold rest
  end.

Definition check (code_name : stock) (data : list bar)
    (date : option Z) (threshold : Z) : result bool :=
  let origin_data := data in
  let data := mask_end_date code_name date data in
  if DF.len data <? threshold then Ok false
  else
    let data := DF.tail threshold data in
    scan code_name origin_data data threshold data.

End parking_apron.

Module breakthrough_platform.

(** As in [parking_apron]: the date the ISO string of the bar
    denotes. *)
Definition date_argument (_date : Z) : result Z := Ok _date.

(** The search for the breakthrough bar: [None] when the loop ends
    without a [break]. *)
Fixpoint find_breakthrough (code_name : stock) (origin_data : list bar)
    (threshold : Z) (rows : list (bar * Q)) : result (option Z) :=
  match rows with
  | [] => Ok None
  | (b, _ma60) :: rest =>
      if Qltb (bar_open b) _ma60 && Qleb _ma60 (bar_close b) then
        do d <- date_argument (bar_date b);
        do v <- enter.check_volume code_name origin_data (Some d) threshold;
        if v then Ok (Some (bar_date b))
        else find_breakthrough code_name origin_data threshold rest
      else find_breakthrough code_name origin_data threshold rest
  end.

Definition check (code_name : stock) (data : list bar)
    (date : option Z) (threshold : Z) : result bool :=
  let origin_data := data in
  let data := mask_end_date code_name date data in
  if DF.len data <? threshold then Ok false
  else
    let data := zip data (MA (map bar_close data) 60) in
    let data := DF.tail threshold data in
    do breakthrough_row <- find_breakthrough code_name origin_data threshold data;
    match breakthrough_row with
    | None => Ok false
    | Some breakthrough_row =>
        let data_front :=
          filter (fun r => (bar_date r.1 <? breakthrough_row) && Qltb 0 r.2) data in
        Ok (forallb
              (fun r =>
                 between (- (5 # 100))
                   (NP.div (Fin (r.2 - bar_close r.1)) (Fin r.2)) (2 # 10))
              data_front)
    end.

End breakthrough_platform.

Module backtrace_ma250.

(** A row of the bookkeeping lists [[close, volume, date]]; the date
    is [None] while it is still the empty string. *)
Definition row : Type := Q * Q * option Z.

(** The first loop: [(highest_row, lowest_row)]. *)
Definition extremes (data : list (bar * Q)) : row * row :=
  fold_left
    (fun '(highest_row, lowest_row) r =>
       let b := r.1 in
       if Qltb highest_row.1.1 (bar_close b) then
         ((bar_close b, bar_volume b, Some (bar_date b)), lowest_row)
       else if Qltb (bar_close b) lowest_row.1.1 then
         (highest_row, (bar_close b, bar_volume b, Some (bar_date b)))
       else (highest_row, lowest_row))
    data ((0%Q, 0%Q, None), (1000000%Q, 0%Q, None)).

(** The loop over [data_end]: [None] is the [return False] inside
    it. *)
Fixpoint recent_low (recent_lowest_row : row) (rows : list (bar * Q))
  : option row :=
  match rows with
  | [] => Some recent_lowest_row
  | (b, _ma250) :: rest =>
      if Qltb (bar_close b) _ma250 then None
      else if Qltb (bar_close b) recent_lowest_row.1.1 then
        recent_low (bar_close b, bar_volume b, Some (bar_date b)) rest
      else recent_low recent_lowest_row rest
  end.

(** [datetime.date(datetime.strptime(s, '%Y-%m-%d'))]; the empty
    string does not match the format. *)
Definition parse_date (s : option Z) : result Z :=
  match s with
  | Some d => Ok d
  | None => Raise ValueError
  end.

Definition check (code_name : stock) (data : list bar)
    (date : option Z) (threshold : Z) : result bool :=
  let data := mask_end_date code_name date data in
  if DF.len data <? 250 then Ok false
  else
    let data := zip data (MA (map bar_close data) 250) in
    let data := DF.tail threshold data in
    let '(highest_row, lowest_row) := extremes data in
    if Qeq_bool lowest_row.1.2 0 || Qeq_bool highest_row.1.2 0 then Ok false
    else
      let high_date := default 0 highest_row.2 in
      let data_front := filter (fun r => bar_date r.1 <? high_date) data in
      let data_end := filter (fun r => high_date <=? bar_date r.1) data in
      match data_front with
      | [] => Ok false
      | _ =>
          do f0 <- DF.iloc 0 data_front;
          do f1 <- DF.iloc (-1) data_front;
          if negb (Qltb (bar_close f0.1) f0.2 && Qltb f1.2 (bar_close f1.1))
          then Ok false
          else
            match recent_low (1000000%Q, 0%Q, None) data_end with
            | None => Ok false
            | Some recent_lowest_row =>
                do d_low <- parse_date recent_lowest_row.2;
                do d_high <- parse_date highest_row.2;
                let date_diff := d_low - d_high in
                if negb ((10 <=? date_diff) && (date_diff <=? 50)) then Ok false
                else
                  let vol_ratio :=
                    NP.div (Fin highest_row.1.2) (Fin recent_lowest_row.1.2) in
                  let back_ratio :=
                    NP.div (Fin recent_lowest_row.1.1) (Fin highest_row.1.1) in
                  if negb (NP.gt vol_ratio (Fin 2)
                           && NP.lt back_ratio (Fin (8 # 10)))
                  then Ok false
                  else Ok true
            end
      end.

End backtrace_ma250.

(** Modelled from the spec: the table [TABLE_CN_STOCK_STRATEGIES] of
    [tablestructure.py], which registers the predicates, is not among
    the sources; the registered predicates are the ten of the
    specification's strategy list, which are the ten modules of this
    package. *)
Inductive strategy : Type :=
  | TurtleTrade
  | Enter
  | BreakthroughPlatform
  | BacktraceMa250
  | KeepIncreasing
  | ParkingApron
  | HighTightFlag
  | LowAtr
  | LowBacktraceIncrease
  | ClimaxLimitdown.

(** [strategy_fun(k, stocks[k], date=date)] as [run_check] of
    [strategy_data_daily_job.py] calls it, every other parameter at its
    default; [istop] is only passed to [check_high_tight]. *)
Definition strategy_fun (S : strategy) (code_name : stock) (data : list bar)
    (date : option Z) (istop : bool) : result bool :=
  match S with
  | TurtleTrade => turtle_trade.check_enter code_name data date 60
  | Enter => enter.check_volume code_name data date 60
  | BreakthroughPlatform => breakthrough_platform.check code_name data date 60
  | BacktraceMa250 => backtrace_ma250.check code_name data date 60
  | KeepIncreasing => keep_increasing.check code_name data date 30
  | ParkingApron => parking_apron.check code_name data date 15
  | HighTightFlag => high_tight_flag.check_high_tight code_name data date 60 istop
  | LowAtr => low_atr.check_low_increase code_name data date 30 250 10
  | LowBacktraceIncrease => low_backtrace_increase.check code_name data date 60
  | ClimaxLimitdown => climax_limitdown.check code_name data date 60
  end.

(** The number of bars up to the as-of date below which the predicate
    cannot pass its length tests. *)
Definition min_bars (S : strategy) : Z :=
  match S with
  | TurtleTrade => 60
  | Enter => 61
  | BreakthroughPlatform => 60
  | BacktraceMa250 => 250
  | KeepIncreasing => 30
  | ParkingApron => 15
  | HighTightFlag => 60
  | LowAtr => 250
  | LowBacktraceIncrease => 60
  | ClimaxLimitdown => 61
  end.

(* ------------------------------------------------------------------ *)
(** * core/singleton_stock.py                                           *)
(* ------------------------------------------------------------------ *)

(** A row of the market snapshot: its key columns and the rest. *)
Record quote : Type := Quote { quote_key : stock; quote_fields : list Q }.

Definition snapshot : Type := list quote.

(** A call made to [stockfetch]. *)
Inductive fetch_call : Type :=
  | FetchStocks (date : option Z)
  | FetchStockHist (s : stock) (date_start : Z) (is_cache : bool).

(** The collaborators of the caches: the two fetch functions of
    [stockfetch], the calendar instance, the clock, and the order in
    which [concurrent.futures.as_completed] hands back the futures of
    the submitted instruments. *)
Record collaborators : Type := Collaborators {
  fetch_stocks : option Z -> result (option snapshot);
  fetch_stock_hist : stock -> Z -> bool -> result (option (list bar));
  calendar : trade_calendar;
  clock : datetime;
  as_completed : list stock -> list stock
}.

(** The state of the process: the [_instance] attribute of the two
    classes and the fetches issued so far, oldest first. *)
Record world : Type := World {
  stock_data_instance : option (instance (option snapshot));
  stock_hist_data_instance : option (instance (option (gmap stock (list bar))));
  fetch_log : list fetch_call
}.

Definition fresh : world := World None None [].

Definition logged (c : list fetch_call) (w : world) : world :=
  World (stock_data_instance w) (stock_hist_data_instance w) (fetch_log w ++ c).

(** [stock_data.__init__] *)
Definition stock_data_init (env : collaborators) (date : option Z) (w : world)
  : result (instance (option snapshot)) * world :=
  let w := logged [FetchStocks date] w in
  match fetch_stocks env date with
  | Ok v => (Ok (Instance (Some v)), w)
  | Raise _ => (Ok (Instance None), w)
  end.

(** [stock_data(date)] *)
Definition stock_data (env : collaborators) (date : option Z) (w : world)
  : result (instance (option snapshot)) * world :=
  singleton_call stock_data_instance
    (fun i w => World (Some i) (stock_hist_data_instance w) (fetch_log w))
    (stock_data_init env date) w.

(** [stock_data(date).get_data()] *)
Definition GetSnapshot (env : collaborators) (date : option Z) (w : world)
  : result (option snapshot) * world :=
  let '(r, w) := stock_data env date w in
  (do i <- r; get_data i, w).

(** The [try] block of [stock_hist_data.__init__]: one fetch per
    submitted instrument; the results are collected in completion
    order, a raising or [None] fetch leaving no entry. *)
Definition populate (env : collaborators) (date_start : Z) (is_cache : bool)
    (stocks : list stock) : gmap stock (list bar) :=
  foldl (fun _data stock =>
           match fetch_stock_hist env stock date_start is_cache with
           | Ok (Some __data) => <[stock := __data]> _data
           | Ok None => _data
           | Raise _ => _data       (* logged *)
           end)
        ∅ (as_completed env stocks).

(** [stock_hist_data.__init__] *)
Definition stock_hist_data_init (env : collaborators) (date : option Z)
    (stocks : option (list stock)) (w : world)
  : result (instance (option (gmap stock (list bar)))) * world :=
  let '(r, w) :=
    match stocks with
    | Some stocks => (Ok stocks, w)
    | None =>
        let '(r, w) := GetSnapshot env date w in
        (do d <- r;
         match d with
         | None => Raise TypeError          (* None[...] *)
         | Some _subset => Ok (map quote_key _subset)
         end, w)
    end in
  match r with
  | Raise e => (Raise e, w)
  | Ok stocks =>
      (* the second [if stocks is None] cannot be taken: [stocks] is a list *)
      match
        (do first <- DF.iloc 0 stocks;
         get_trade_hist_interval (calendar env) (clock env) (stock_date first))
      with
      | Raise e => (Raise e, w)
      | Ok (date_start, is_cache) =>
          let _data := populate env date_start is_cache stocks in
          let w :=
            logged (map (fun s => FetchStockHist s date_start is_cache) stocks) w in
          if bool_decide (_data = ∅) then (Ok (Instance (Some None)), w)
          else (Ok (Instance (Some (Some _data))), w)
      end
  end.

(** [stock_hist_data(date, stocks)] *)
Definition stock_hist_data (env : collaborators) (date : option Z)
    (stocks : option (list stock)) (w : world)
  : result (instance (option (gmap stock (list bar)))) * world :=
  singleton_call stock_hist_data_instance
    (fun i w => World (stock_data_instance w) (Some i) (fetch_log w))
    (stock_hist_data_init env date stocks) w.

(** [stock_hist_data(date, stocks).get_data()] *)
Definition GetSeries (env : collaborators) (date : option Z)
    (stocks : option (list stock)) (w : world)
  : result (option (gmap stock (list bar))) * world :=
  let '(r, w) := stock_hist_data env date stocks w in
  (do i <- r; get_data i, w).

(* ------------------------------------------------------------------ *)
(** * Fixtures                                                          *)
(* ------------------------------------------------------------------ *)

(** The calendar instance when the source returned the set [s], and
    when it returned [None]. *)
Definition loaded (s : gset Z) : trade_calendar := Instance (Some (Some s)).
Definition unloaded : trade_calendar := Instance (Some None).

(** What range mode does on one calendar day, given the trading dates. *)
Definition day_events (s : gset Z) (d : Z) : list event :=
  if bool_decide (d ∈ s) then [Submit d; Sleep 2] else [].

(** A stub market: the snapshot of a date is one instrument keyed by
    that date, every series is fetched as one flat bar, the calendar
    source returned [None], and futures complete in submission order. *)
Definition stub_market : collaborators :=
  Collaborators
    (fun date => Ok (Some [Quote (default 0 date, "000001", "PAB") []]))
    (fun s _ _ => Ok (Some [Bar (stock_date s) 10 10 10 10 1000 0]))
    unloaded (DateTime 738900 0) (fun stocks => stocks).

(** Three instruments can be asked of this one; the fetch of the one
    with code 000002 raises, and futures complete in reverse order. *)
Definition one_fetch_raises : collaborators :=
  Collaborators
    (fun _ => Ok None)
    (fun s _ _ => if String.eqb (stock_code s) "000002" then Raise FetchError
                  else Ok (Some [Bar (stock_date s) 10 10 10 10 1000 0]))
    unloaded (DateTime 738900 0) (fun stocks => rev stocks).

(** A series of [bars] consecutive days whose close rises by one each
    day from [first_close]. *)
Definition rising_series (first_close : Z) (bars : Z) : list bar :=
  map (fun i => let c := inject_Z (first_close + i) in
                Bar (738000 + i) c c c c 1000000 1)
      (seqZ 0 bars).

(** [bars] quiet days of 10,000,000 shares at 10.00, then a day that
    opens at 10.00, closes at 10.30 (+3%) on 30,000,000 shares. *)
Definition surge_series (bars : Z) : list bar :=
  map (fun i => Bar (738000 + i) 10 10 10 10 10000000 0) (seqZ 0 bars)
  ++ [Bar (738000 + bars) 10 (103 # 10) 10 (103 # 10) 30000000 3].

(* ------------------------------------------------------------------ *)
(** * lib/trade_time.py: sessions and report periods                    *)
(* ------------------------------------------------------------------ *)

Definition OPEN_TIME : list (Z * Z) :=
  [(time_of 9 15 0, time_of 11 30 0); (time_of 13 0 0, time_of 15 0 0)].

(** 12:59:30 is [datetime.time(12, 59, 30)]. *)
Definition PAUSE_TIME : list (Z * Z) := [(time_of 11 30 0, time_of 12 59 30)].

Definition CONTINUE_TIME : list (Z * Z) := [(time_of 12 59 30, time_of 13 0 0)].

(** [for begin, end in OPEN_TIME: if begin <= now < end: return True]
    and the [else] of the loop. *)
Definition is_tradetime (now_time : datetime) : bool :=
  existsb (fun p => (p.1 <=? dt_time now_time) && (dt_time now_time <? p.2)) OPEN_TIME.

(** [is_pause] has no final [return]: outside the pause it gives
    [None]. *)
Definition is_pause (now_time : datetime) : option bool :=
  if existsb (fun p => (p.1 <=? dt_time now_time) && (dt_time now_time <? p.2)) PAUSE_TIME
  then Some true else None.

Definition is_continue (now_time : datetime) : bool :=
  existsb (fun p => (p.1 <=? dt_time now_time) && (dt_time now_time <? p.2)) CONTINUE_TIME.

(** [is_closing(now_time, start)], [start] defaulting to 14:54:30. *)
Definition is_closing (now_time : datetime) (start : Z) : bool :=
  existsb (fun close => (start <=? dt_time now_time) && (dt_time now_time <? close))
          CLOSE_TIME.

(** The fields of [datetime.datetime.now()] the report-period functions
    read. *)
Record civil : Type := Civil { c_year : Z; c_month : Z; c_day : Z }.

(** The two pieces [get_quarterly_report_date] formats: [year] and
    [month_day]. *)
Definition quarterly_report_parts (now_time : civil) : Z * string :=
  let year := c_year now_time in
  let month := c_month now_time in
  let month_day :=
    if (1 <=? month) && (month <=? 3) then "1231"
    else if (4 <=? month) && (month <=? 6) then "0331"
    else if (7 <=? month) && (month <=? 9) then "0630"
    else "0930" in
  (year, month_day).

(** [f"{year}{month_day}"] *)
Definition format_report_date (parts : Z * string) : string :=
  pretty parts.1 +:+ parts.2.

Definition get_quarterly_report_date (now_time : civil) : string :=
  format_report_date (quarterly_report_parts now_time).

Definition bonus_report_parts (now_time : civil) : Z * string :=
  let year := c_year now_time in
  let month := c_month now_time in
  if (2 <=? month) && (month <=? 6) then (year - 1, "1231")
  else if (8 <=? month) && (month <=? 12) then (year, "0630")
  else if month =? 7 then
    if 25 <? c_day now_time then (year, "0630") else (year - 1, "1231")
  else
    let year := year - 1 in
    if 25 <? c_day now_time then (year, "1231") else (year, "0630").

Definition get_bonus_report_date (now_time : civil) : string :=
  format_report_date (bonus_report_parts now_time).

(** A date as the number its [YYYYMMDD] digits spell, to compare report
    periods with the day they are asked on. *)
Definition civil_number (now_time : civil) : Z :=
  c_year now_time * 10000 + c_month now_time * 100 + c_day now_time.

Definition month_day_number (month_day : string) : Z :=
  if String.eqb month_day "1231" then 1231
  else if String.eqb month_day "0331" then 331
  else if String.eqb month_day "0630" then 630
  else if String.eqb month_day "0930" then 930
  else 0.

Definition report_number (parts : Z * string) : Z :=
  parts.1 * 10000 + month_day_number parts.2.

(* ------------------------------------------------------------------ *)
(** * job/strategy_data_daily_job.py                                    *)
(* ------------------------------------------------------------------ *)

(** [run_check].  [stock_tops] is what
    [fetch_stock_top_entity_data(date)] gives, asked only for
    [check_high_tight]; [completed] is the order in which
    [as_completed] hands back the futures of the submitted keys.  A
    predicate that raises is logged and leaves no entry. *)
Definition run_check (completed : list stock -> list stock)
    (stock_tops : result (option (gset string))) (strategy_fun' : strategy)
    (stocks : gmap stock (list bar)) (date : Z) : result (option (list stock)) :=
  do tops <-
    (match strategy_fun' with
     | HighTightFlag => stock_tops
     | _ => Ok None
     end);
  let istop k :=
    match tops with
    | Some t => bool_decide (stock_code k ∈ t)
    | None => false
    end in
  let data :=
    foldl (fun data k =>
             match stocks !! k with
             | None => data
             | Some series =>
                 match strategy_fun strategy_fun' k series (Some date) (istop k) with
                 | Ok true => data ++ [k]
                 | Ok false => data
                 | Raise _ => data       (* logged *)
                 end
             end)
          [] (completed (map fst (map_to_list stocks))) in
  match data with
  | [] => Ok None
  | _ => Ok (Some data)
  end.

(** [bars] quiet days of 10,000,000 shares at 10.00, then a day that
    closes at 9.00 (-10%) on 50,000,000 shares. *)
Definition limitdown_series (bars : Z) : list bar :=
  map (fun i => Bar (738000 + i) 10 10 10 10 10000000 0) (seqZ 0 bars)
  ++ [Bar (738000 + bars) 10 10 9 9 50000000 (-10)].

(** Three flat days at 10.00, a day that closes at 11.00 (+10%), then
    three days that open and close between 11.10 and 11.20. *)
Definition apron_series : list bar :=
  [Bar 738001 10 10 10 10 1000000 0;
   Bar 738002 10 10 10 10 1000000 0;
   Bar 738003 10 10 10 10 1000000 0;
   Bar 738004 10 11 10 11 1000000 10;
   Bar 738005 (111 # 10) (112 # 10) (111 # 10) (112 # 10) 1000000 (18 # 10);
   Bar 738006 (112 # 10) (112 # 10) (111 # 10) (111 # 10) 1000000 (- (9 # 10));
   Bar 738007 (111 # 10) (112 # 10) (111 # 10) (112 # 10) 1000000 (9 # 10)].

(* ------------------------------------------------------------------ *)
(** * job/backtest_data_daily_job.py                                    *)
(* ------------------------------------------------------------------ *)

Module backtest_data_daily_job.

(** [run_check]: [stocks] are the signal rows [(date, code, name)] still
    to be scored, [data_all] the series map, [date] the date its keys
    carry; [completed] is the order in which [as_completed] hands back
    the futures.  An exception of a call is logged and leaves no
    entry. *)
Definition run_check (completed : list stock -> list stock)
    (stocks : list stock) (data_all : gmap stock (list bar)) (date : Z)
    (backtest_column : list string)
  : option (gmap stock (list (string * cell))) :=
  let data :=
    foldl (fun (data : gmap stock (list (string * cell))) stock =>
             match get_rates stock (data_all !! (date, stock_code stock, stock.2))
                     backtest_column (Z.of_nat (length backtest_column) - 1) with
             | Ok (Some _data_) => <[stock := _data_]> data
             | Ok None => data
             | Raise _ => data       (* logged *)
             end)
          ∅ (completed stocks) in
  if decide (data = ∅) then None else Some data.

End backtest_data_daily_job.

(* ================================================================== *)
(** * Properties                                                       *)
(* ================================================================== *)

(* ------------------------------------------------------------------ *)
(** ** Frames and comparisons                                           *)
(* ------------------------------------------------------------------ *)

Lemma Qltb_lt (a b : Q) : Qltb a b = true <-> (a < b)%Q.
Proof.
  unfold Qltb. rewrite negb_true_iff. split.
  - intros H. apply Qnot_le_lt. intros Hle. apply Qle_bool_iff in Hle. congruence.
  - intros H. destruct (Qle_bool b a) eqn:E; [|reflexivity].
    apply Qle_bool_iff in E. exfalso. apply (Qlt_not_le _ _ H E).
Qed.

Lemma Qltb_ge (a b : Q) : Qltb a b = false <-> (b <= a)%Q.
Proof.
  unfold Qltb. rewrite negb_false_iff. apply Qle_bool_iff.
Qed.

Lemma Qleb_le (a b : Q) : Qleb a b = true <-> (a <= b)%Q.
Proof. apply Qle_bool_iff. Qed.

Lemma forallb_map' {A B} (f : B -> bool) (g : A -> B) (l : list A) :
  forallb f (map g l) = forallb (fun x => f (g x)) l.
Proof. induction l as [|a l IH]; [reflexivity|]. cbn. rewrite IH. reflexivity. Qed.

(** [df.iloc[-1]] of a frame with rows is its last row. *)
Lemma DF_iloc_last {A} (l : list A) (a : A) :
  l !! (length l - 1)%nat = Some a -> l <> [] -> DF.iloc (-1) l = Ok a.
Proof.
  intros H Hne. unfold DF.iloc.
  assert (0 < length l)%nat by (destruct l; [congruence|cbn; lia]).
  cbn [Z.ltb Z.compare].
  replace ((0 <=? -1 + Z.of_nat (length l)) && (-1 + Z.of_nat (length l) <? Z.of_nat (length l)))
    with true by (symmetry; apply andb_true_iff; split; [apply Z.leb_le|apply Z.ltb_lt]; lia).
  replace (Z.to_nat (-1 + Z.of_nat (length l))) with (length l - 1)%nat by lia.
  rewrite H. reflexivity.
Qed.

Lemma DF_iloc_snoc {A} (l : list A) (a : A) : DF.iloc (-1) (l ++ [a]) = Ok a.
Proof.
  apply DF_iloc_last; [|destruct l; discriminate].
  rewrite length_app. cbn [length].
  replace (length l + 1 - 1)%nat with (length l + 0)%nat by lia.
  rewrite lookup_app_r by lia. replace (length l + 0 - length l)%nat with 0%nat by lia.
  reflexivity.
Qed.

Lemma DF_head_nonneg {A} (n : Z) (l : list A) :
  0 <= n -> DF.head n l = take (Z.to_nat n) l.
Proof.
  intros H. unfold DF.head.
  replace (0 <=? n) with true by (symmetry; apply Z.leb_le; exact H). reflexivity.
Qed.

(** [df.tail(n)] for a positive [n] no larger than the frame. *)
Lemma DF_tail_pos {A} (n : Z) (l : list A) :
  0 < n -> DF.tail n l = drop (length l - Z.to_nat n) l.
Proof.
  intros H. unfold DF.tail.
  replace (n =? 0) with false by (symmetry; apply Z.eqb_neq; lia).
  replace (0 <? n) with true by (symmetry; apply Z.ltb_lt; lia). reflexivity.
Qed.

Lemma DF_tail_length {A} (n : Z) (l : list A) :
  0 < n -> n <= DF.len l -> length (DF.tail n l) = Z.to_nat n.
Proof.
  unfold DF.len. intros H Hl. rewrite DF_tail_pos by exact H. rewrite length_drop. lia.
Qed.

Lemma DF_iloc_first {A} (a : A) (l : list A) : DF.iloc 0 (a :: l) = Ok a.
Proof.
  unfold DF.iloc. cbn [Z.ltb Z.compare Z.leb andb length].
  replace (0 <? Z.of_nat (S (length l))) with true by (symmetry; apply Z.ltb_lt; lia).
  reflexivity.
Qed.

(** The rows of a frame joined with a moving-average column. *)
Lemma zip_MA_lookup (m : list bar) (f : bar -> Q) (p i : nat) (b : bar) :
  m !! i = Some b ->
  zip m (MA (map f m) p) !! i = Some (b, ma_at (map f m) p i).
Proof.
  intros H. apply lookup_zip_Some. split; [exact H|].
  unfold MA. rewrite list_lookup_imap.
  change (map f m) with (f <$> m). rewrite list_lookup_fmap, H. reflexivity.
Qed.

Lemma zip_MA_length (m : list bar) (f : bar -> Q) (p : nat) :
  length (zip m (MA (map f m) p)) = length m.
Proof.
  rewrite length_zip. unfold MA. rewrite length_imap, length_map. lia.
Qed.

(* ------------------------------------------------------------------ *)
(** ** The trading calendar                                             *)
(* ------------------------------------------------------------------ *)

Section Calendar.

Variable s : gset Z.

Lemma add_days_back d :
  Date.add_days d (-1) =
    if (Date.MINORD <? d) && (d <=? Date.MAXORD + 1) then Ok (d - 1)
    else Raise OverflowError.
Proof.
  unfold Date.add_days, Date.MINORD, Date.MAXORD.
  replace (d + -1) with (d - 1) by lia.
  destruct (1 <=? d - 1) eqn:E1, (d - 1 <=? 3652059) eqn:E2,
           (1 <? d) eqn:E3, (d <=? 3652059 + 1) eqn:E4; simpl; try reflexivity; lia.
Qed.

Lemma add_days_forth d :
  Date.add_days d 1 =
    if (Date.MINORD - 1 <=? d) && (d <? Date.MAXORD) then Ok (d + 1)
    else Raise OverflowError.
Proof.
  unfold Date.add_days, Date.MINORD, Date.MAXORD.
  destruct (1 <=? d + 1) eqn:E1, (d + 1 <=? 3652059) eqn:E2,
           (1 - 1 <=? d) eqn:E3, (d <? 3652059) eqn:E4; simpl; try reflexivity; lia.
Qed.

(** More fuel does not change the outcome of a finished walk. *)
Lemma walk_trade_date_fuel step fuel fuel' d r :
  walk_trade_date step s fuel d = Some r -> (fuel <= fuel')%nat ->
  walk_trade_date step s fuel' d = Some r.
Proof.
  revert fuel' d. induction fuel as [|fuel IH]; intros fuel' d H Hle; [discriminate|].
  destruct fuel' as [|fuel']; [lia|]. simpl in *.
  destruct (Date.add_days d step) as [d'|e]; [|exact H].
  destruct (bool_decide (d' ∈ s)); [exact H|].
  apply IH; [exact H|lia].
Qed.

(** The backward walk always ends: at the nearest earlier trading
    date, or with [OverflowError] when there is none. *)
Lemma walk_back_total fuel d :
  Date.valid d -> (Z.to_nat d <= fuel)%nat ->
  (exists t, walk_trade_date (-1) s fuel d = Some (Ok t)
             /\ Date.MINORD <= t < d /\ t ∈ s
             /\ forall u, t < u < d -> u ∉ s)
  \/ (walk_trade_date (-1) s fuel d = Some (Raise OverflowError)
      /\ forall u, Date.MINORD <= u < d -> u ∉ s).
Proof.
  unfold Date.valid. revert d.
  induction fuel as [|fuel IH]; intros d Hd Hf; [unfold Date.MINORD in *; lia|].
  simpl. rewrite add_days_back.
  destruct (Date.MINORD <? d) eqn:E1; simpl.
  - replace (d <=? Date.MAXORD + 1) with true by (symmetry; apply Z.leb_le; lia).
    destruct (bool_decide (d - 1 ∈ s)) eqn:E2.
    + apply bool_decide_eq_true in E2. left. exists (d - 1).
      split; [reflexivity|]. split; [lia|]. split; [exact E2|]. intros u Hu. lia.
    + apply bool_decide_eq_false in E2.
      destruct (IH (d - 1)) as [(t & Hw & Ht & Hin & Hgap)|(Hw & Hnone)];
        [unfold Date.MINORD in *; lia | lia | |].
      * left. exists t. split; [exact Hw|]. split; [lia|]. split; [exact Hin|].
        intros u Hu. destruct (decide (u = d - 1)) as [->|Hne]; [exact E2|].
        apply Hgap. lia.
      * right. split; [exact Hw|]. intros u Hu.
        destruct (decide (u = d - 1)) as [->|Hne]; [exact E2|]. apply Hnone. lia.
  - right. split; [reflexivity|]. intros u Hu. lia.
Qed.

(** The forward walk, symmetrically. *)
Lemma walk_forth_total fuel d :
  Date.valid d -> (Z.to_nat (Date.MAXORD - d + 1) <= fuel)%nat ->
  (exists t, walk_trade_date 1 s fuel d = Some (Ok t)
             /\ d < t <= Date.MAXORD /\ t ∈ s
             /\ forall u, d < u < t -> u ∉ s)
  \/ (walk_trade_date 1 s fuel d = Some (Raise OverflowError)
      /\ forall u, d < u <= Date.MAXORD -> u ∉ s).
Proof.
  unfold Date.valid. revert d.
  induction fuel as [|fuel IH]; intros d Hd Hf; [lia|].
  simpl. rewrite add_days_forth.
  replace (Date.MINORD - 1 <=? d) with true by (symmetry; apply Z.leb_le; lia).
  destruct (d <? Date.MAXORD) eqn:E1; simpl.
  - destruct (bool_decide (d + 1 ∈ s)) eqn:E2.
    + apply bool_decide_eq_true in E2. left. exists (d + 1).
      split; [reflexivity|]. split; [lia|]. split; [exact E2|]. intros u Hu. lia.
    + apply bool_decide_eq_false in E2.
      destruct (IH (d + 1)) as [(t & Hw & Ht & Hin & Hgap)|(Hw & Hnone)];
        [lia | lia | |].
      * left. exists t. split; [exact Hw|]. split; [lia|]. split; [exact Hin|].
        intros u Hu. destruct (decide (u = d + 1)) as [->|Hne]; [exact E2|].
        apply Hgap. lia.
      * right. split; [exact Hw|]. intros u Hu.
        destruct (decide (u = d + 1)) as [->|Hne]; [exact E2|]. apply Hnone. lia.
  - right. split; [reflexivity|]. intros u Hu. lia.
Qed.

(** With a count that is not positive the counting loop never reaches
    [count == 0]; on a loaded calendar it walks off the first date. *)
Lemma get_previous_trade_date_nonpositive fuel d count :
  Date.valid d -> count <= 0 -> (Z.to_nat d <= fuel)%nat ->
  get_previous_trade_date (loaded s) fuel d count = Some (Raise OverflowError).
Proof.
  revert d count. induction fuel as [|fuel IH]; intros d count Hd Hc Hf.
  - unfold Date.valid, Date.MINORD in Hd. lia.
  - cbn [get_previous_trade_date]. unfold get_one_previous_trade_date. cbn [get_data loaded attr_data].
    destruct (walk_back_total (S fuel) d Hd Hf) as [(t & Hw & Ht & _)|(Hw & _)];
      rewrite Hw; cbn [fbind]; [|reflexivity].
    replace (count - 1 =? 0) with false by (symmetry; apply Z.eqb_neq; lia).
    apply IH; [unfold Date.valid in *; lia | lia | lia].
Qed.

End Calendar.

(** The counting loop only returns a date when [count] is at least 1. *)
Lemma get_previous_trade_date_returns cal fuel d count r :
  get_previous_trade_date cal fuel d count = Some (Ok r) -> 1 <= count.
Proof.
  revert d count. induction fuel as [|fuel IH]; intros d count H; [discriminate|].
  cbn [get_previous_trade_date] in H.
  destruct (get_one_previous_trade_date cal (S fuel) d) as [[d'|e]|]; cbn [fbind] in H;
    try discriminate.
  destruct (count - 1 =? 0) eqn:E; [apply Z.eqb_eq in E; lia|].
  apply IH in H. lia.
Qed.

(** With [count = 1] the counting loop is one backward walk. *)
Lemma get_previous_trade_date_one cal fuel d :
  get_previous_trade_date cal (S fuel) d 1 = get_one_previous_trade_date cal (S fuel) d.
Proof.
  cbn [get_previous_trade_date].
  destruct (get_one_previous_trade_date cal (S fuel) d) as [[d'|e]|]; reflexivity.
Qed.

(** When the source returned [None], a count that is not positive keeps
    the counting loop running for ever: the date no longer moves and
    [count] only gets smaller. *)
Lemma get_previous_trade_date_unloaded_diverges fuel d count :
  count <= 0 -> get_previous_trade_date unloaded fuel d count = None.
Proof.
  revert d count. induction fuel as [|fuel IH]; intros d count Hc; [reflexivity|].
  cbn [get_previous_trade_date]. unfold get_one_previous_trade_date. cbn.
  replace (count - 1 =? 0) with false by (symmetry; apply Z.eqb_neq; lia).
  apply IH. lia.
Qed.

(** The calendar is fetched once: the first [stock_trade_date()] builds
    the instance, every later one returns it whatever the source would
    now give. *)
Lemma stock_trade_date_once src src' :
  stock_trade_date src None
    = (Ok (stock_trade_date_init src), Some (stock_trade_date_init src))
  /\ stock_trade_date src' (Some (stock_trade_date_init src))
    = (Ok (stock_trade_date_init src), Some (stock_trade_date_init src)).
Proof. split; reflexivity. Qed.

(** When the source signals failure by returning [None], every lookup
    fails closed: no date is a trading date and the walks hand back
    their input. *)
Lemma calendar_none_fails_closed d fuel :
  let cal := stock_trade_date_init (Ok None) in
  is_trade_date cal d = Ok false
  /\ get_one_previous_trade_date cal fuel d = Some (Ok d)
  /\ get_next_trade_date cal fuel d = Some (Ok d)
  /\ get_previous_trade_date cal (S fuel) d 1 = Some (Ok d).
Proof. repeat split; reflexivity. Qed.

(** C2 (the code at the failing input).  When fetching the calendar
    raises, [__init__] logs and leaves [self.data] unset, so
    [get_data()] raises [AttributeError]: [is_trade_date] raises for
    every date instead of returning false, and so do the walking
    functions instead of returning their input. *)
Theorem calendar_load_raised_lookups_raise (e : exn) (d : Z) (fuel : nat) :
  let cal := stock_trade_date_init (Raise e) in
  is_trade_date cal d = Raise AttributeError
  /\ get_one_previous_trade_date cal fuel d = Some (Raise AttributeError)
  /\ get_next_trade_date cal fuel d = Some (Raise AttributeError)
  /\ get_previous_trade_date cal (S fuel) d 1 = Some (Raise AttributeError).
Proof. repeat split; reflexivity. Qed.

(** C10 (as stated, refuted).  The calendar holds the single date of
    ordinal 5 and the walk starts there: no trading date lies strictly
    before, yet the backward loop exits, by [OverflowError] once it
    steps below [date.min]; so does the counting loop with [count = 0]. *)
Lemma calendar_walk_exits_without_earlier_date :
  (forall t, t ∈ ({[5]} : gset Z) -> ~ t < 5)
  /\ ~ (forall fuel, get_one_previous_trade_date (loaded {[5]}) fuel 5 = None)
  /\ ~ (forall fuel, get_previous_trade_date (loaded {[5]}) fuel 5 0 = None).
Proof.
  split; [intros t Ht; apply elem_of_singleton in Ht; lia|].
  split; intros H; specialize (H 5%nat); vm_compute in H; discriminate.
Qed.

(** C10 (amended).  On a loaded calendar and a valid date, each walk
    ends after finitely many steps: it returns a date exactly when the
    calendar has a trading date strictly on the required side (inside
    the range of [datetime.date]), and otherwise raises [OverflowError]
    on leaving that range.  The counting loop returns a date only for
    [count >= 1]; for [count <= 0] it raises [OverflowError] on a loaded
    calendar, and never exits when the calendar source returned
    [None]. *)
Theorem calendar_walks_exit (s : gset Z) (date : Z) :
  Date.valid date ->
  (exists fuel r,
      get_one_previous_trade_date (loaded s) fuel date = Some r
      /\ ((exists t, r = Ok t) <-> (exists t, t ∈ s /\ Date.MINORD <= t < date))
      /\ ((forall t, r <> Ok t) -> r = Raise OverflowError))
  /\ (exists fuel r,
      get_next_trade_date (loaded s) fuel date = Some r
      /\ ((exists t, r = Ok t) <-> (exists t, t ∈ s /\ date < t <= Date.MAXORD))
      /\ ((forall t, r <> Ok t) -> r = Raise OverflowError))
  /\ (forall count, count <= 0 ->
      exists fuel,
        get_previous_trade_date (loaded s) fuel date count = Some (Raise OverflowError))
  /\ (forall count fuel r,
      get_previous_trade_date (loaded s) fuel date count = Some (Ok r) -> 1 <= count)
  /\ (forall count fuel, count <= 0 ->
      get_previous_trade_date unloaded fuel date count = None).
Proof.
  intros Hd. repeat apply conj.
  - exists (Z.to_nat date).
    destruct (walk_back_total s (Z.to_nat date) date Hd (le_n _))
      as [(t & Hw & Ht & Hin & _)|(Hw & Hnone)].
    + exists (Ok t). split; [exact Hw|]. split.
      * split; [intros _; exists t; auto | intros _; exists t; reflexivity].
      * intros H. destruct (H t eq_refl).
    + exists (Raise OverflowError). split; [exact Hw|]. split; [|reflexivity].
      split; [intros [t Ht]; discriminate|].
      intros (t & Hin & Ht). destruct (Hnone t Ht Hin).
  - exists (Z.to_nat (Date.MAXORD - date + 1)).
    destruct (walk_forth_total s _ date Hd (le_n _))
      as [(t & Hw & Ht & Hin & _)|(Hw & Hnone)].
    + exists (Ok t). split; [exact Hw|]. split.
      * split; [intros _; exists t; auto | intros _; exists t; reflexivity].
      * intros H. destruct (H t eq_refl).
    + exists (Raise OverflowError). split; [exact Hw|]. split; [|reflexivity].
      split; [intros [t Ht]; discriminate|].
      intros (t & Hin & Ht). destruct (Hnone t Ht Hin).
  - intros count Hc. exists (Z.to_nat date).
    apply get_previous_trade_date_nonpositive; [exact Hd|exact Hc|lia].
  - intros count fuel r. apply get_previous_trade_date_returns.
  - intros count fuel Hc. apply get_previous_trade_date_unloaded_diverges. exact Hc.
Qed.

Lemma calendar_walks_exit_witness :
  Date.valid 5
  /\ exists fuel,
       get_previous_trade_date (loaded {[5]}) fuel 5 0 = Some (Raise OverflowError).
Proof.
  assert (H : Date.valid 5) by (unfold Date.valid, Date.MINORD, Date.MAXORD; lia).
  split; [exact H|].
  exact (proj1 (proj2 (proj2 (calendar_walks_exit {[5]} 5 H))) 0 ltac:(lia)).
Defined.

(* ------------------------------------------------------------------ *)
(** ** Scheduling                                                       *)
(* ------------------------------------------------------------------ *)

Lemma seqZ_cons_pos m n : 0 < n -> seqZ m n = m :: seqZ (m + 1) (n - 1).
Proof.
  intros H. rewrite (seqZ_cons m n) by lia. reflexivity.
Qed.

(** Range mode, event by event: every day of the range in turn, and a
    logged [OverflowError] when the range ends on [date.max]. *)
Lemma range_loop_events s fuel start_date end_date :
  Date.valid start_date -> end_date <= Date.MAXORD ->
  (Z.to_nat (end_date - start_date + 1) < fuel)%nat ->
  range_loop (loaded s) fuel start_date end_date
  = Some (flat_map (day_events s) (seqZ start_date (end_date - start_date + 1))
          ++ (if (start_date <=? end_date) && (end_date =? Date.MAXORD)
              then [LogError OverflowError] else [])).
Proof.
  unfold Date.valid. revert start_date.
  induction fuel as [|fuel IH]; intros d Hd He Hf; [lia|].
  cbn [range_loop].
  destruct (d <=? end_date) eqn:E.
  - apply Z.leb_le in E.
    rewrite (seqZ_cons_pos d) by lia. cbn [flat_map].
    replace (is_trade_date (loaded s) d)
      with (Ok (A:=bool) (bool_decide (d ∈ s)))
      by (unfold is_trade_date; cbn; destruct (bool_decide (d ∈ s)); reflexivity).
    fold (day_events s d).
    unfold Date.add_days.
    replace (Date.MINORD <=? d + 1) with true by (symmetry; apply Z.leb_le; lia).
    destruct (d + 1 <=? Date.MAXORD) eqn:E2; cbn [andb].
    + apply Z.leb_le in E2.
      rewrite IH by lia.
      cbn [option_map]. rewrite <- app_assoc.
      replace (end_date - (d + 1) + 1) with (end_date - d + 1 - 1) by lia.
      cbn [andb].
      destruct (end_date =? Date.MAXORD) eqn:E3.
      * apply Z.eqb_eq in E3.
        replace (d + 1 <=? end_date) with true by (symmetry; apply Z.leb_le; lia).
        reflexivity.
      * rewrite andb_false_r. rewrite !app_nil_r. reflexivity.
    + apply Z.leb_gt in E2.
      assert (d = Date.MAXORD) by lia. assert (end_date = Date.MAXORD) by lia. subst.
      rewrite Z.eqb_refl.
      replace (Date.MAXORD - Date.MAXORD + 1 - 1) with 0 by lia.
      rewrite seqZ_nil by lia. cbn [flat_map]. rewrite app_nil_r. reflexivity.
  - apply Z.leb_gt in E.
    rewrite seqZ_nil by lia. reflexivity.
Qed.

Lemma submitted_app evs evs' : submitted (evs ++ evs') = submitted evs ++ submitted evs'.
Proof. unfold submitted. apply omap_app. Qed.

Lemma submitted_days s l :
  submitted (flat_map (day_events s) l) = filter (fun d => d ∈ s) l.
Proof.
  induction l as [|d l IH]; [reflexivity|].
  cbn [flat_map]. rewrite submitted_app, IH, filter_cons.
  unfold day_events. destruct (decide (d ∈ s)) as [Hin|Hin].
  - rewrite bool_decide_eq_true_2 by exact Hin. reflexivity.
  - rewrite bool_decide_eq_false_2 by exact Hin. reflexivity.
Qed.

(** C7.  In range mode the tasks submitted are, in order, the days of
    [start, end] that are trading days: one task for each of them and
    none for any other day. *)
Theorem range_mode_submits_trading_days
    (s : gset Z) (start_date end_date : Z) (now_time : datetime) (run_fun : job) :
  Date.valid start_date -> Date.valid end_date ->
  exists fuel evs,
    run_with_args (loaded s) fuel now_time (ArgvRange start_date end_date) run_fun
      = Some evs
    /\ submitted evs
       = filter (fun d => d ∈ s) (seqZ start_date (end_date - start_date + 1))
    /\ NoDup (submitted evs)
    /\ (forall d, d ∈ submitted evs <-> start_date <= d <= end_date /\ d ∈ s).
Proof.
  intros Hs He.
  exists (S (Z.to_nat (end_date - start_date + 1))). eexists.
  split.
  { cbn [run_with_args]. apply range_loop_events; [exact Hs|apply He|lia]. }
  assert (Hsub : submitted
            (flat_map (day_events s) (seqZ start_date (end_date - start_date + 1))
             ++ (if (start_date <=? end_date) && (end_date =? Date.MAXORD)
                 then [LogError OverflowError] else []))
          = filter (fun d => d ∈ s) (seqZ start_date (end_date - start_date + 1))).
  { rewrite submitted_app, submitted_days.
    destruct ((start_date <=? end_date) && (end_date =? Date.MAXORD));
      cbn; rewrite app_nil_r; reflexivity. }
  rewrite Hsub. split; [reflexivity|]. split.
  - apply NoDup_filter, NoDup_seqZ.
  - intros d. rewrite list_elem_of_filter, elem_of_seqZ. split.
    + intros [Hin Hr]. split; [lia|exact Hin].
    + intros [Hr Hin]. split; [exact Hin|lia].
Qed.

(** Ten days of which six are trading days: six tasks. *)
Example ten_days_six_trading :
  let s : gset Z := {[738886; 738887; 738888; 738889; 738892; 738893]} in
  exists evs,
    run_with_args (loaded s) 20 (DateTime 738900 0) (ArgvRange 738885 738894)
                  (Job "prepare" (fun _ _ => Ok tt)) = Some evs
    /\ length (submitted evs) = 6%nat.
Proof. eexists. split; [vm_compute; reflexivity|reflexivity]. Qed.

Lemma range_mode_submits_trading_days_witness :
  Date.valid 738885 /\ Date.valid 738894
  /\ exists fuel evs,
      run_with_args (loaded {[738886; 738887]}) fuel (DateTime 738900 0)
                    (ArgvRange 738885 738894) (Job "prepare" (fun _ _ => Ok tt))
        = Some evs
      /\ submitted evs
         = filter (fun d => d ∈ ({[738886; 738887]} : gset Z))
                  (seqZ 738885 (738894 - 738885 + 1)).
Proof.
  assert (H1 : Date.valid 738885) by (unfold Date.valid, Date.MINORD, Date.MAXORD; lia).
  assert (H2 : Date.valid 738894) by (unfold Date.valid, Date.MINORD, Date.MAXORD; lia).
  split; [exact H1|]. split; [exact H2|].
  destruct (range_mode_submits_trading_days {[738886; 738887]} 738885 738894
              (DateTime 738900 0) (Job "prepare" (fun _ _ => Ok tt)) H1 H2)
    as (fuel & evs & Hrun & Hsub & _).
  exists fuel, evs. split; [exact Hrun|exact Hsub].
Defined.

(** C8 (as stated, refuted).  A trading day at 10:00, the session open
    and not yet closed: the finalized date is the previous trading day,
    the latest-available date is today.  Two job functions that differ
    in nothing but their names are handed different dates. *)
Lemma implicit_mode_date_depends_on_name :
  let cal := loaded {[738886; 738887]} in
  let now_time := DateTime 738887 (time_of 10 0 0) in
  let body := fun (_ : Z) (_ : call_args) => Ok tt in
  option_map called_with
    (run_with_args cal 5 now_time ArgvOther (Job "save_after_close_stock_data" body))
    = Some [738886]
  /\ option_map called_with
       (run_with_args cal 5 now_time ArgvOther (Job "prepare" body))
     = Some [738887].
Proof. split; vm_compute; reflexivity. Qed.

(** C8 (amended).  In implicit mode the date handed to the job function
    is chosen by the prefix of the function's name: the
    latest-available date for a name starting with [save_nph], the
    finalized date for a name starting with [save_after_close], and the
    latest-available date for every other name. *)
Theorem implicit_mode_date_by_name_prefix
    (cal : trade_calendar) (fuel : nat) (now_time : datetime) (run_fun : job)
    (run_date run_date_nph : Z) :
  get_trade_date_last cal fuel now_time = Some (Ok (run_date, run_date_nph)) ->
  exists evs,
    run_with_args cal fuel now_time ArgvOther run_fun = Some evs
    /\ called_with evs
       = [if startswith (job_name run_fun) "save_nph" then run_date_nph
          else if startswith (job_name run_fun) "save_after_close" then run_date
          else run_date_nph].
Proof.
  intros H. cbn [run_with_args]. unfold current_mode. rewrite H.
  destruct (startswith (job_name run_fun) "save_nph");
    [|destruct (startswith (job_name run_fun) "save_after_close")];
    eexists; (split; [reflexivity|]);
    cbn [called_with omap]; destruct (job_call run_fun _ _); reflexivity.
Qed.

Lemma implicit_mode_date_by_name_prefix_witness :
  get_trade_date_last (loaded {[738886; 738887]}) 5
    (DateTime 738887 (time_of 10 0 0)) = Some (Ok (738886, 738887))
  /\ exists evs,
      run_with_args (loaded {[738886; 738887]}) 5 (DateTime 738887 (time_of 10 0 0))
        ArgvOther (Job "save_after_close_stock_data" (fun _ _ => Ok tt)) = Some evs
      /\ called_with evs = [738886].
Proof.
  assert (H : get_trade_date_last (loaded {[738886; 738887]}) 5
                (DateTime 738887 (time_of 10 0 0)) = Some (Ok (738886, 738887)))
    by (vm_compute; reflexivity).
  split; [exact H|].
  exact (implicit_mode_date_by_name_prefix _ _ _
           (Job "save_after_close_stock_data" (fun _ _ => Ok tt)) _ _ H).
Defined.

(* ------------------------------------------------------------------ *)
(** ** The caches                                                       *)
(* ------------------------------------------------------------------ *)

(** Once a class has its instance, calling the class returns it and
    runs nothing. *)
Lemma singleton_call_cached {W I : Type} (get_slot : W -> option I) set_slot init
    (w : W) (i : I) :
  get_slot w = Some i -> singleton_call get_slot set_slot init w = (Ok i, w).
Proof. intros H. unfold singleton_call. rewrite H. reflexivity. Qed.

(** [stock_data(date)] always leaves the class with an instance: its
    [__init__] cannot raise. *)
Lemma stock_data_populates env date w :
  exists i w', stock_data env date w = (Ok i, w') /\ stock_data_instance w' = Some i.
Proof.
  unfold stock_data, singleton_call.
  destruct (stock_data_instance w) as [i|] eqn:E.
  - exists i, w. split; [reflexivity|exact E].
  - unfold stock_data_init. destruct (fetch_stocks env date); eexists; eexists;
      (split; [reflexivity|reflexivity]).
Qed.

(** C1 (as stated, refuted).  The snapshot is first requested for the
    date of ordinal 738886 and then for 738887, whose own data differs:
    the second request returns the first date's snapshot and fetches
    nothing. *)
Lemma snapshot_for_second_date_is_first_dates :
  let '(r1, w1) := GetSnapshot stub_market (Some 738886) fresh in
  let '(r2, w2) := GetSnapshot stub_market (Some 738887) w1 in
  r2 = r1
  /\ r2 <> fetch_stocks stub_market (Some 738887)
  /\ fetch_log w2 = [FetchStocks (Some 738886)].
Proof. vm_compute. repeat split; congruence. Qed.

(** C1 (amended).  The single instance is per class, not per date: once
    the snapshot has been requested for a date [d1], a request for any
    date [d2] returns what the first request returned and issues no
    fetch; and once the series have been obtained for [d1], a request
    for any [d2] and any instrument list returns the same map and
    issues no fetch. *)
Theorem caches_keep_first_date env w d1 d2 :
  (forall r1 w1, GetSnapshot env d1 w = (r1, w1) ->
                 GetSnapshot env d2 w1 = (r1, w1))
  /\ (forall stocks1 stocks2 m w1,
        GetSeries env d1 stocks1 w = (Ok m, w1) ->
        GetSeries env d2 stocks2 w1 = (Ok m, w1)).
Proof.
  split.
  - intros r1 w1 H. unfold GetSnapshot in *.
    destruct (stock_data_populates env d1 w) as (i & w' & Hc & Hslot).
    rewrite Hc in H. inversion H; subst; clear H.
    unfold stock_data. rewrite (singleton_call_cached _ _ _ _ i Hslot). reflexivity.
  - intros stocks1 stocks2 m w1 H. unfold GetSeries in *.
    destruct (stock_hist_data env d1 stocks1 w) as [r w'] eqn:Hc.
    inversion H; subst; clear H.
    destruct r as [i|e]; [|discriminate].
    assert (Hslot : stock_hist_data_instance w1 = Some i).
    { unfold stock_hist_data, singleton_call in Hc.
      destruct (stock_hist_data_instance w) as [i0|] eqn:E.
      - inversion Hc; subst. exact E.
      - destruct (stock_hist_data_init env d1 stocks1 w) as [[i0|e] w0];
          inversion Hc; subst; reflexivity. }
    unfold stock_hist_data. rewrite (singleton_call_cached _ _ _ _ i Hslot).
    cbn [rbind] in *. congruence.
Qed.

Lemma caches_keep_first_date_witness :
  exists r1 w1,
    GetSnapshot stub_market (Some 738886) fresh = (r1, w1)
    /\ GetSnapshot stub_market (Some 738887) w1 = (r1, w1).
Proof.
  eexists. eexists. split; [reflexivity|].
  exact (proj1 (caches_keep_first_date stub_market fresh (Some 738886) (Some 738887))
           _ _ eq_refl).
Defined.

Section Populate.

Variable env : collaborators.
Variables (date_start : Z) (is_cache : bool).

Let fetch (k : stock) := fetch_stock_hist env k date_start is_cache.
Let collect (_data : gmap stock (list bar)) (k : stock) :=
  match fetch k with
  | Ok (Some __data) => <[k := __data]> _data
  | Ok None => _data
  | Raise _ => _data
  end.

(** What the collecting loop leaves under a key: the series its fetch
    returned, if the key was among the completed futures and its
    fetch returned one; otherwise what was there before. *)
Lemma collect_step (m : gmap stock (list bar)) (k' k : stock) :
  collect m k' !! k =
    match fetch k' with
    | Ok (Some d) => if decide (k = k') then Some d else m !! k
    | _ => m !! k
    end.
Proof.
  unfold collect. destruct (fetch k') as [[d|]|e]; try reflexivity.
  destruct (decide (k = k')) as [->|Hne].
  - apply lookup_insert_eq.
  - apply lookup_insert_ne. congruence.
Qed.

(** What the collecting loop leaves under a key: the series its fetch
    returned, if the key was among the completed futures and its
    fetch returned one; otherwise what was there before. *)
Lemma collect_lookup (done : list stock) (m : gmap stock (list bar)) (k : stock) :
  foldl collect m done !! k =
    match fetch k with
    | Ok (Some d) => if bool_decide (k ∈ done) then Some d else m !! k
    | _ => m !! k
    end.
Proof.
  revert m. induction done as [|k' done IH]; intros m.
  - cbn [foldl]. destruct (fetch k) as [[d|]|e]; reflexivity.
  - cbn [foldl]. rewrite IH, collect_step.
    destruct (decide (k = k')) as [->|Hne].
    + rewrite (bool_decide_eq_true_2 (k' ∈ k' :: done)) by apply list_elem_of_here.
      destruct (fetch k') as [[d|]|e]; try reflexivity.
      destruct (bool_decide (k' ∈ done)); reflexivity.
    + assert (Hin : bool_decide (k ∈ k' :: done) = bool_decide (k ∈ done)).
      { apply bool_decide_ext. rewrite elem_of_cons. tauto. }
      rewrite Hin.
      destruct (fetch k) as [[d|]|e]; destruct (fetch k') as [[d'|]|e']; reflexivity.
Qed.

Lemma populate_lookup (stocks : list stock) (k : stock) :
  as_completed env stocks ≡ₚ stocks ->
  populate env date_start is_cache stocks !! k =
    match fetch k with
    | Ok (Some d) => if bool_decide (k ∈ stocks) then Some d else None
    | _ => None
    end.
Proof.
  intros Hperm. unfold populate. fold fetch. fold collect.
  rewrite collect_lookup, lookup_empty.
  destruct (fetch k) as [[d|]|e]; try reflexivity.
  destruct (decide (k ∈ stocks)) as [Hin|Hin].
  - rewrite (bool_decide_eq_true_2 _ Hin).
    rewrite bool_decide_eq_true_2; [reflexivity|]. rewrite Hperm. exact Hin.
  - rewrite (bool_decide_eq_false_2 _ Hin).
    rewrite bool_decide_eq_false_2; [reflexivity|]. rewrite Hperm. exact Hin.
Qed.

End Populate.

(** C9.  While the series are being populated, an instrument whose fetch
    raises is merely absent from the result map; every instrument whose
    fetch returns a series is in the map with that series, whatever the
    other fetches did and in whatever order the futures completed. *)
Theorem series_population_isolates_failures
    (env : collaborators) (date : option Z) (stocks : list stock) (w : world)
    (first : stock) (date_start : Z) (is_cache : bool) (s : stock) (d : list bar) :
  stock_hist_data_instance w = None ->
  as_completed env stocks ≡ₚ stocks ->
  DF.iloc 0 stocks = Ok first ->
  get_trade_hist_interval (calendar env) (clock env) (stock_date first)
    = Ok (date_start, is_cache) ->
  s ∈ stocks ->
  fetch_stock_hist env s date_start is_cache = Ok (Some d) ->
  exists m w',
    GetSeries env date (Some stocks) w = (Ok (Some m), w')
    /\ m !! s = Some d
    /\ (forall k d', k ∈ stocks ->
          fetch_stock_hist env k date_start is_cache = Ok (Some d') -> m !! k = Some d')
    /\ (forall k e,
          fetch_stock_hist env k date_start is_cache = Raise e -> m !! k = None).
Proof.
  intros Hslot Hperm Hfirst Hint Hin Hfetch.
  assert (Hlook : forall k d', k ∈ stocks ->
            fetch_stock_hist env k date_start is_cache = Ok (Some d') ->
            populate env date_start is_cache stocks !! k = Some d').
  { intros k d' Hk Hf. rewrite populate_lookup by exact Hperm. rewrite Hf.
    rewrite bool_decide_eq_true_2 by exact Hk. reflexivity. }
  assert (Hne : populate env date_start is_cache stocks <> ∅).
  { intros He. specialize (Hlook s d Hin Hfetch). rewrite He, lookup_empty in Hlook.
    discriminate. }
  exists (populate env date_start is_cache stocks). eexists.
  split.
  { unfold GetSeries, stock_hist_data, singleton_call. rewrite Hslot.
    unfold stock_hist_data_init. rewrite Hfirst. cbn [rbind]. rewrite Hint.
    rewrite bool_decide_eq_false_2 by exact Hne. reflexivity. }
  split; [apply Hlook; assumption|]. split; [exact Hlook|].
  intros k e Hf. rewrite populate_lookup by exact Hperm. rewrite Hf. reflexivity.
Qed.

Lemma series_population_isolates_failures_witness :
  let stocks := [(738886, "000001", "A"); (738886, "000002", "B");
                 (738886, "000003", "C")] in
  exists m w',
    GetSeries one_fetch_raises (Some 738886) (Some stocks) fresh = (Ok (Some m), w')
    /\ m !! (738886, "000003", "C") = Some [Bar 738886 10 10 10 10 1000 0]
    /\ m !! (738886, "000002", "B") = None.
Proof.
  intros stocks.
  destruct (series_population_isolates_failures one_fetch_raises (Some 738886) stocks
              fresh (738886, "000001", "A") 737791 true (738886, "000003", "C")
              [Bar 738886 10 10 10 10 1000 0])
    as (m & w' & Hrun & Hs & _ & Hraise).
  - reflexivity.
  - cbn [as_completed one_fetch_raises]. symmetry. apply Permutation_rev.
  - reflexivity.
  - vm_compute. reflexivity.
  - unfold stocks. rewrite !elem_of_cons. right. right. left. reflexivity.
  - reflexivity.
  - exists m, w'. split; [exact Hrun|]. split; [exact Hs|].
    apply (Hraise _ FetchError). reflexivity.
Defined.

(* ------------------------------------------------------------------ *)
(** ** Binary64 rounding                                                *)
(* ------------------------------------------------------------------ *)

Section Binary64.
Local Open Scope Q_scope.

Lemma pow2_pos (k : Z) : 0 < 2 ^ k.
Proof. apply Qpower_0_lt. reflexivity. Qed.

Lemma pow2_plus (a b : Z) : 2 ^ (a + b) == 2 ^ a * 2 ^ b.
Proof. apply Qpower_plus. discriminate. Qed.

Lemma pow2_minus (a b : Z) : 2 ^ (a - b) == 2 ^ a / 2 ^ b.
Proof. apply Qpower_minus. discriminate. Qed.

Lemma pow2_inject (a : Z) : (0 <= a)%Z -> inject_Z (2 ^ a) == 2 ^ a.
Proof. intros H. apply (Zpower_Qpower 2 a H). Qed.

Lemma pow2_le (a b : Z) : (a <= b)%Z -> 2 ^ a <= 2 ^ b.
Proof.
  intros H. apply Qpower_le_compat_l; [exact H|]. unfold Qle. cbn. lia.
Qed.

Lemma Qabs_as_fraction (q : Q) :
  Qabs q == inject_Z (Z.abs (Qnum q)) / inject_Z (Z.pos (Qden q)).
Proof.
  destruct q as [n d]. unfold Qabs. cbn [Qnum Qden].
  rewrite (Qmake_Qdiv (Z.abs n) d). reflexivity.
Qed.

(** [2 ^ ilog2 q] is at most [|q|]. *)
Lemma ilog2_le (q : Q) : ~ q == 0 -> 2 ^ B64.ilog2 q <= Qabs q.
Proof.
  intros Hq. rewrite Qabs_as_fraction. unfold B64.ilog2.
  set (n := Z.abs (Qnum q)). set (d := Z.pos (Qden q)).
  assert (Hn : (0 < n)%Z).
  { unfold n. destruct q as [[|p|p] dd]; cbn; try lia.
    exfalso. apply Hq. reflexivity. }
  assert (Hd : (0 < d)%Z) by (unfold d; lia).
  assert (Hdq : 0 < inject_Z d) by (unfold Qlt; cbn; lia).
  set (k := (Z.log2 n - Z.log2 d)%Z).
  destruct ((if (0 <=? k)%Z then (d * 2 ^ k <=? n)%Z else (d <=? n * 2 ^ (- k))%Z)) eqn:E.
  - apply Qle_shift_div_l; [exact Hdq|].
    destruct (Z.leb_spec 0 k) as [Hk|Hk].
    + apply Z.leb_le in E. rewrite <- pow2_inject by exact Hk.
      rewrite <- inject_Z_mult, <- Zle_Qle. lia.
    + apply Z.leb_le in E.
      assert (Hp : 2 ^ k == / 2 ^ (- k)).
      { rewrite <- Qpower_opp. rewrite Z.opp_involutive. reflexivity. }
      rewrite Hp. 
      apply (Qmult_le_r _ _ (2 ^ (- k))); [apply pow2_pos|].
      assert (Hz : / 2 ^ (- k) * inject_Z d * 2 ^ (- k) == inject_Z d).
      { field. apply Qpower_not_0. discriminate. }
      rewrite Hz. rewrite <- pow2_inject by lia.
      rewrite <- inject_Z_mult, <- Zle_Qle. exact E.
  - (* from the definition of log2 alone *)
    pose proof (Z.log2_spec n Hn) as [Hn1 _].
    pose proof (Z.log2_spec d Hd) as [_ Hd2].
    pose proof (Z.log2_nonneg n) as Hln. pose proof (Z.log2_nonneg d) as Hld.
    apply Qle_shift_div_l; [exact Hdq|].
    replace (k - 1)%Z with (Z.log2 n - Z.succ (Z.log2 d))%Z by (unfold k; lia).
    rewrite pow2_minus.
    apply Qle_trans with (y := 2 ^ Z.log2 n / 2 ^ Z.succ (Z.log2 d) * 2 ^ Z.succ (Z.log2 d)).
    + apply Qmult_le_l.
      * apply Qlt_shift_div_l; [apply pow2_pos|]. rewrite Qmult_0_l. apply pow2_pos.
      * rewrite <- pow2_inject by lia. rewrite <- Zle_Qle. lia.
    + assert (Hz : 2 ^ Z.log2 n / 2 ^ Z.succ (Z.log2 d) * 2 ^ Z.succ (Z.log2 d)
                   == 2 ^ Z.log2 n).
      { field. apply Qpower_not_0. discriminate. }
      rewrite Hz. rewrite <- pow2_inject by lia. rewrite <- Zle_Qle. exact Hn1.
Qed.

(** and [|q|] is below [2 ^ (ilog2 q + 1)]: the quotient of [q] by
    [2 ^ (ilog2 q - 52)] has 53 bits. *)
Lemma ilog2_lt (q : Q) : ~ q == 0 -> Qabs q < 2 ^ (B64.ilog2 q + 1).
Proof.
  intros Hq. rewrite Qabs_as_fraction. unfold B64.ilog2.
  set (n := Z.abs (Qnum q)). set (d := Z.pos (Qden q)).
  assert (Hn : (0 < n)%Z).
  { unfold n. destruct q as [[|p|p] dd]; cbn; try lia.
    exfalso. apply Hq. reflexivity. }
  assert (Hd : (0 < d)%Z) by (unfold d; lia).
  assert (Hdq : 0 < inject_Z d) by (unfold Qlt; cbn; lia).
  set (k := (Z.log2 n - Z.log2 d)%Z).
  destruct ((if (0 <=? k)%Z then (d * 2 ^ k <=? n)%Z else (d <=? n * 2 ^ (- k))%Z)) eqn:E.
  - pose proof (Z.log2_spec n Hn) as [_ Hn2].
    pose proof (Z.log2_spec d Hd) as [Hd1 _].
    pose proof (Z.log2_nonneg n) as Hln. pose proof (Z.log2_nonneg d) as Hld.
    apply Qlt_shift_div_r; [exact Hdq|].
    replace (k + 1)%Z with (Z.succ (Z.log2 n) - Z.log2 d)%Z by (unfold k; lia).
    rewrite pow2_minus.
    apply Qlt_le_trans with (y := 2 ^ Z.succ (Z.log2 n)).
    + rewrite <- pow2_inject by lia. rewrite <- Zlt_Qlt. exact Hn2.
    + apply Qle_trans with (y := 2 ^ Z.succ (Z.log2 n) / 2 ^ Z.log2 d * 2 ^ Z.log2 d).
      * assert (Hz : 2 ^ Z.succ (Z.log2 n) / 2 ^ Z.log2 d * 2 ^ Z.log2 d
                     == 2 ^ Z.succ (Z.log2 n)).
        { field. apply Qpower_not_0. discriminate. }
        rewrite Hz. apply Qle_refl.
      * apply Qmult_le_l.
        -- apply Qlt_shift_div_l; [apply pow2_pos|]. rewrite Qmult_0_l. apply pow2_pos.
        -- rewrite <- pow2_inject by lia. rewrite <- Zle_Qle. exact Hd1.
  - replace (k - 1 + 1)%Z with k by lia.
    apply Qlt_shift_div_r; [exact Hdq|].
    destruct (Z.leb_spec 0 k) as [Hk|Hk].
    + apply Z.leb_gt in E. rewrite <- pow2_inject by exact Hk.
      rewrite <- inject_Z_mult, <- Zlt_Qlt. lia.
    + apply Z.leb_gt in E.
      assert (Hp : 2 ^ k == / 2 ^ (- k)).
      { rewrite <- Qpower_opp. rewrite Z.opp_involutive. reflexivity. }
      rewrite Hp.
      apply (Qmult_lt_r _ _ (2 ^ (- k))); [apply pow2_pos|].
      assert (Hz : / 2 ^ (- k) * inject_Z d * 2 ^ (- k) == inject_Z d).
      { field. apply Qpower_not_0. discriminate. }
      rewrite Hz. rewrite <- pow2_inject by lia.
      rewrite <- inject_Z_mult, <- Zlt_Qlt. exact E.
Qed.

Lemma rint_within_half (q : Q) :
  (Qabs (inject_Z (NP.rint q) - q) <= 1 # 2)%Q.
Proof.
  unfold NP.rint.
  pose proof (Qfloor_le q) as Hlo. pose proof (Qlt_floor q) as Hhi.
  rewrite inject_Z_plus in Hhi. change (inject_Z 1) with 1%Q in Hhi.
  apply Qabs_Qle_condition.
  destruct (q - inject_Z (Qfloor q) ?= 1 # 2)%Q eqn:E.
  - apply Qeq_alt in E.
    destruct (Z.even (Qfloor q));
      [|rewrite inject_Z_plus; change (inject_Z 1) with 1%Q]; split; lra.
  - apply Qlt_alt in E. split; lra.
  - apply Qgt_alt in E. rewrite inject_Z_plus. change (inject_Z 1) with 1%Q.
    split; lra.
Qed.

(** Rounding a value of magnitude at most 2^1023 gives a double, off by
    at most the relative 2^-53, or 2^-1075 near zero. *)
Lemma round_spec (q : Q) :
  Qabs q <= 2 ^ 1023 ->
  exists r, B64.round q = Fin r
            /\ Qabs (r - q) <= Qabs q * 2 ^ (-53) + 2 ^ (-1075).
Proof.
  intros Hq. unfold B64.round.
  destruct (Qeq_bool q 0) eqn:E0.
  { apply Qeq_bool_iff in E0. exists 0. split; [reflexivity|].
    rewrite E0. 
    apply Qle_trans with (y := 0 + 2 ^ (-1075)); [|apply Qplus_le_l; discriminate].
    rewrite Qplus_0_l. apply Qlt_le_weak. apply pow2_pos. }
  assert (Hne : ~ q == 0).
  { intros H. apply Qeq_bool_iff in H. congruence. }
  set (k := Z.max (B64.ilog2 q - 52) (-1074)).
  set (t := q / 2 ^ k).
  set (r := inject_Z (NP.rint t) * 2 ^ k).
  pose proof (pow2_pos k) as HP.
  assert (Ht : t * 2 ^ k == q).
  { unfold t. field. apply Qpower_not_0. discriminate. }
  assert (Herr : Qabs (r - q) <= 2 ^ (k - 1)).
  { assert (Hr : r - q == (inject_Z (NP.rint t) - t) * 2 ^ k).
    { unfold r. rewrite <- Ht at 1. ring. }
    rewrite Hr, Qabs_Qmult, (Qabs_pos (2 ^ k)) by (apply Qlt_le_weak; exact HP).
    rewrite pow2_minus. change (2 ^ 1) with 2.
    apply Qle_trans with (y := (1 # 2) * 2 ^ k).
    - apply Qmult_le_compat_r; [apply rint_within_half|apply Qlt_le_weak; exact HP].
    - apply Qle_shift_div_l; [reflexivity|]. lra. }
  assert (Hk : 2 ^ (k - 1) <= Qabs q * 2 ^ (-53) + 2 ^ (-1075)).
  { pose proof (pow2_pos (-53)) as Hu. pose proof (pow2_pos (-1075)) as He.
    pose proof (Qabs_nonneg q) as Ha.
    destruct (Z.max_spec (B64.ilog2 q - 52) (-1074)) as [[_ Hm]|[_ Hm]];
      fold k in Hm; rewrite Hm.
    - change (-1074 - 1)%Z with (-1075)%Z.
      assert (0 <= Qabs q * 2 ^ (-53)) by (apply Qmult_le_0_compat; lra). lra.
    - replace (B64.ilog2 q - 52 - 1)%Z with (B64.ilog2 q + -53)%Z by lia.
      rewrite pow2_plus.
      apply Qle_trans with (y := Qabs q * 2 ^ (-53)); [|lra].
      apply Qmult_le_compat_r; [apply ilog2_le; exact Hne|lra]. }
  assert (Hfin : Qle_bool (2 ^ 1024) (Qabs r) = false).
  { destruct (Qle_bool (2 ^ 1024) (Qabs r)) eqn:El; [|reflexivity]. exfalso.
    apply Qle_bool_iff in El.
    assert (Hu : 2 ^ (-53) <= 1 # 4) by (vm_compute; discriminate).
    assert (He : 2 ^ (-1075) <= 1) by (vm_compute; discriminate).
    assert (HM : 4 <= 2 ^ 1023) by (vm_compute; discriminate).
    assert (H2 : 2 ^ 1024 == 2 * 2 ^ 1023)
      by (change 1024%Z with (1 + 1023)%Z; rewrite pow2_plus; reflexivity).
    pose proof (Qabs_nonneg q) as Ha.
    assert (Hqu : Qabs q * 2 ^ (-53) <= Qabs q * (1 # 4))
      by (rewrite !(Qmult_comm (Qabs q)); apply Qmult_le_compat_r; assumption).
    assert (Htri : Qabs r <= Qabs q + Qabs (r - q)).
    { assert (Hrq : r == q + (r - q)) by ring.
      rewrite Hrq at 1. apply Qabs_triangle. }
    set (M := 2 ^ 1023) in *. set (M2 := 2 ^ 1024) in *.
    lra. }
  fold k. fold t. fold r. rewrite Hfin.
  exists (Qred r). split; [reflexivity|].
  rewrite Qred_correct. lra.
Qed.

(** The same with plain constants: 2^-53 and a bound for 2^-1075. *)
Lemma round_close (q bound : Q) :
  Qabs q <= bound -> bound <= 1000000000000000000000000000000 ->
  exists r, B64.round q = Fin r
            /\ Qabs (r - q)
               <= Qabs q * (1 # 9007199254740992)
                  + (1 # 1000000000000000000000000000000000000000000000000000000000000).
Proof.
  intros Hq Hb.
  destruct (round_spec q) as (r & Hr & He).
  { apply Qle_trans with (y := 1000000000000000000000000000000); [lra|].
    vm_compute. discriminate. }
  exists r. split; [exact Hr|].
  assert (Hu : 2 ^ (-53) == 1 # 9007199254740992) by reflexivity.
  assert (Hh : 2 ^ (-1075)
               <= 1 # 1000000000000000000000000000000000000000000000000000000000000)
    by (vm_compute; discriminate).
  rewrite Hu in He. lra.
Qed.

Lemma Qabs_div (a c : Q) : ~ c == 0 -> Qabs (a / c) == Qabs a * / Qabs c.
Proof.
  intros Hc. unfold Qdiv. rewrite Qabs_Qmult, Qabs_Qinv. reflexivity.
Qed.


(** On two doubles, the rounded return is the double nearest to a
    number of hundredths that is within 0.005, and the relative float
    error of the four operations before it, of the exact percent
    return. *)
Lemma around2_pct_change_accuracy (close1 x : Q) :
  (1 # 2000000) <= Qabs close1 -> Qabs close1 <= 2000000000 ->
  Qabs x <= 2000000000 ->
  exists (n : Z) (r : Q),
    B64.around2 (pct_change (Fin close1) (Fin x)) = Fin r
    /\ B64.round (inject_Z n / 100) = Fin r
    /\ Qabs (inject_Z n / 100 - spec_percent_return close1 x)
       <= (1 # 200)
          + (Qabs (spec_percent_return close1 x) + 1) * (1 # 1000000000000000).
Proof.
  intros Hc1 Hc2 Hx. unfold spec_percent_return.
  assert (Hc0 : ~ close1 == 0).
  { intros H. rewrite H in Hc1. revert Hc1. vm_compute. intros H'. apply H'. reflexivity. }
  assert (Hcb : Qeq_bool close1 0 = false).
  { destruct (Qeq_bool close1 0) eqn:E; [|reflexivity].
    apply Qeq_bool_iff in E. contradiction. }
  assert (Hcpos : 0 < Qabs close1) by lra.
  set (Bc := / Qabs close1).
  assert (HBc0 : 0 < Bc) by (apply Qinv_lt_0_compat; exact Hcpos).
  assert (HBc : Bc <= 2000000).
  { unfold Bc. apply Qle_shift_inv_r; [exact Hcpos|]. lra. }
  set (A := Qabs (x + - close1)).
  assert (HA0 : 0 <= A) by apply Qabs_nonneg.
  assert (HA : A <= 4000000000).
  { unfold A. eapply Qle_trans; [apply Qabs_triangle|]. rewrite Qabs_opp. lra. }
  set (E := 100 * (x - close1) / close1).
  assert (HE : Qabs E == 100 * (A * Bc)).
  { unfold E, A, Bc. rewrite Qabs_div by exact Hc0. rewrite Qabs_Qmult.
    change (Qabs 100) with 100. unfold Qminus. ring. }
  assert (HP0 : 0 <= A * Bc) by (apply Qmult_le_0_compat; lra).
  unfold pct_change, B64.around2, B64.sub, B64.mul, B64.div, NP.sub, NP.neg, NP.add.
  cbn [B64.lift].
  (* the difference *)
  destruct (round_close (x + - close1) 4000000000) as (d & -> & Hd); [exact HA|lra|].
  fold A in Hd.
  assert (Hdabs : Qabs d <= A + Qabs (d - (x + - close1))).
  { assert (Hs : d == (x + - close1) + (d - (x + - close1))) by ring.
    rewrite Hs at 1. apply Qabs_triangle. }
  (* times 100 *)
  cbn [NP.mul B64.lift].
  assert (Hq2 : Qabs (100 * d) == 100 * Qabs d)
    by (rewrite Qabs_Qmult; reflexivity).
  destruct (round_close (100 * d) 1000000000000) as (m & -> & Hm); [lra|lra|].
  rewrite Hq2 in Hm.
  assert (Hnum : Qabs (m - 100 * (x + - close1))
                 <= A * (201 # 9007199254740992)
                    + (102 # 1000000000000000000000000000000000000000000000000000000000000)).
  { assert (Hs : m - 100 * (x + - close1)
                 == (m - 100 * d) + 100 * (d - (x + - close1))) by ring.
    rewrite Hs. eapply Qle_trans; [apply Qabs_triangle|].
    rewrite Qabs_Qmult. change (Qabs 100) with 100. lra. }
  assert (Hmabs : Qabs m <= 500000000000).
  { assert (Hs : m == 100 * d + (m - 100 * d)) by ring.
    rewrite Hs. eapply Qle_trans; [apply Qabs_triangle|]. rewrite Hq2. lra. }
  (* divided by the entry close *)
  cbn [NP.div]. rewrite Hcb. cbn [B64.lift].
  assert (Hq3 : Qabs (m / close1) == Qabs m * Bc) by (apply Qabs_div; exact Hc0).
  assert (Hq3b : Qabs (m / close1) <= 1000000000000000000).
  { rewrite Hq3.
    apply Qle_trans with (y := 500000000000 * Bc).
    - apply Qmult_le_compat_r; lra.
    - lra. }
  destruct (round_close (m / close1) 1000000000000000000) as (y & -> & Hy);
    [exact Hq3b|lra|].
  assert (HqE : Qabs (m / close1 - E)
                <= (A * Bc) * (201 # 9007199254740992)
                   + (204 # 1000000000000000000000000000000000000000000000000000000)).
  { assert (Hs : m / close1 - E == (m - 100 * (x + - close1)) / close1)
      by (unfold E; field; exact Hc0).
    rewrite Hs, Qabs_div by exact Hc0. fold Bc.
    apply Qle_trans
      with (y := (A * (201 # 9007199254740992)
                  + (102 # 1000000000000000000000000000000000000000000000000000000000000))
                 * Bc).
    - apply Qmult_le_compat_r; lra.
    - assert (Hh : (102 # 1000000000000000000000000000000000000000000000000000000000000)
                   * Bc
                   <= (102 # 1000000000000000000000000000000000000000000000000000000000000)
                      * 2000000).
      { apply Qmult_le_l; [reflexivity|exact HBc]. }
      assert (Hr : (A * (201 # 9007199254740992)
                    + (102 # 1000000000000000000000000000000000000000000000000000000000000))
                   * Bc
                   == (A * Bc) * (201 # 9007199254740992)
                      + (102 # 1000000000000000000000000000000000000000000000000000000000000)
                        * Bc) by ring.
      rewrite Hr. lra. }
  assert (Hq3E : Qabs (m / close1) <= Qabs E + Qabs (m / close1 - E)).
  { assert (Hs : m / close1 == E + (m / close1 - E)) by ring.
    rewrite Hs at 1. apply Qabs_triangle. }
  assert (HyE : Qabs (y - E) <= Qabs (y - m / close1) + Qabs (m / close1 - E)).
  { assert (Hs : y - E == (y - m / close1) + (m / close1 - E)) by ring.
    rewrite Hs. apply Qabs_triangle. }
  assert (Hyabs : Qabs y <= Qabs E + Qabs (y - E)).
  { assert (Hs : y == E + (y - E)) by ring.
    rewrite Hs at 1. apply Qabs_triangle. }
  assert (Hyb : Qabs y <= 2000000000000000000).
  { assert (Hs : y == m / close1 + (y - m / close1)) by ring.
    rewrite Hs. eapply Qle_trans; [apply Qabs_triangle|]. lra. }
  (* np.around: times 100, nearest integer, divided by 100 *)
  cbn [NP.mul B64.lift].
  assert (Hq4 : Qabs (y * 100) == 100 * Qabs y)
    by (rewrite Qabs_Qmult; change (Qabs 100) with 100; ring).
  destruct (round_close (y * 100) 200000000000000000000) as (z & -> & Hz); [lra|lra|].
  rewrite Hq4 in Hz.
  cbn [B64.rint NP.div].
  change (Qeq_bool 100 0) with false. cbn [B64.lift].
  pose proof (rint_within_half z) as Hn.
  set (n := NP.rint z) in *.
  assert (Hzb : Qabs z <= 300000000000000000000).
  { assert (Hs : z == y * 100 + (z - y * 100)) by ring.
    rewrite Hs. eapply Qle_trans; [apply Qabs_triangle|]. lra. }
  assert (Hnb : Qabs (inject_Z n / 100) <= 4000000000000000000).
  { rewrite Qabs_div by discriminate. change (/ Qabs 100) with (1 # 100).
    assert (Hs : inject_Z n == z + (inject_Z n - z)) by ring.
    assert (Ht : Qabs (inject_Z n) <= Qabs z + Qabs (inject_Z n - z))
      by (rewrite Hs at 1; apply Qabs_triangle).
    lra. }
  destruct (round_close (inject_Z n / 100) 4000000000000000000) as (r & Hr & _);
    [exact Hnb|lra|].
  exists n, r. split; [exact Hr|]. split; [exact Hr|].
  fold E.
  assert (Hs : inject_Z n / 100 - E
               == (inject_Z n - z) * (1 # 100) + (z - y * 100) * (1 # 100) + (y - E))
    by field.
  assert (Ht : Qabs (inject_Z n / 100 - E)
               <= Qabs (inject_Z n - z) * (1 # 100) + Qabs (z - y * 100) * (1 # 100)
                  + Qabs (y - E)).
  { rewrite Hs. eapply Qle_trans; [apply Qabs_triangle|].
    apply Qplus_le_compat; [|apply Qle_refl].
    eapply Qle_trans; [apply Qabs_triangle|].
    rewrite !Qabs_Qmult. change (Qabs (1 # 100)) with (1 # 100). apply Qle_refl. }
  rewrite HE in *.
  set (P := A * Bc) in *.
  lra.
Qed.


(** The double a close of magnitude between 1e-6 and 1e9 stands for. *)
Lemma double_of_close (q : Q) :
  (1 # 1000000) <= Qabs q -> Qabs q <= 1000000000 ->
  B64.round q = Fin (double_of q)
  /\ (1 # 2000000) <= Qabs (double_of q) /\ Qabs (double_of q) <= 2000000000.
Proof.
  intros H1 H2. unfold double_of.
  destruct (round_close q 1000000000) as (r & -> & Hr); [exact H2|lra|].
  split; [reflexivity|].
  assert (Hu : Qabs r <= Qabs q + Qabs (r - q)).
  { assert (Hs : r == q + (r - q)) by ring. rewrite Hs at 1. apply Qabs_triangle. }
  assert (Hl : Qabs q <= Qabs r + Qabs (r - q)).
  { assert (Hs : q == r + - (r - q)) by ring. rewrite Hs at 1.
    eapply Qle_trans; [apply Qabs_triangle|]. rewrite Qabs_opp. apply Qle_refl. }
  split; lra.
Qed.

Lemma double_of_small (q : Q) :
  Qabs q <= 1000000000 ->
  B64.round q = Fin (double_of q) /\ Qabs (double_of q) <= 2000000000.
Proof.
  intros H2. unfold double_of.
  destruct (round_close q 1000000000) as (r & -> & Hr); [exact H2|lra|].
  split; [reflexivity|].
  assert (Hu : Qabs r <= Qabs q + Qabs (r - q)).
  { assert (Hs : r == q + (r - q)) by ring. rewrite Hs at 1. apply Qabs_triangle. }
  lra.
Qed.

(** The recorded return of two closes, against the exact percent return
    of the doubles they stand for. *)
Lemma sum_pct_change_accuracy (close1 x : Q) :
  (1 # 1000000) <= Qabs close1 -> Qabs close1 <= 1000000000 ->
  Qabs x <= 1000000000 ->
  exists (n : Z) (r : Q),
    sum_pct_change close1 x = Fin r
    /\ B64.round (inject_Z n / 100) = Fin r
    /\ Qabs (inject_Z n / 100 - spec_percent_return (double_of close1) (double_of x))
       <= (1 # 200)
          + (Qabs (spec_percent_return (double_of close1) (double_of x)) + 1)
            * (1 # 1000000000000000).
Proof.
  intros Hc1 Hc2 Hx.
  destruct (double_of_close close1 Hc1 Hc2) as (Ec & Hd1 & Hd2).
  destruct (double_of_small x Hx) as (Ex & Hdx).
  unfold sum_pct_change. rewrite Ec, Ex.
  apply around2_pct_change_accuracy; assumption.
Qed.

Lemma pow2_le_inv (a b : Z) : 2 ^ a <= 2 ^ b -> (a <= b)%Z.
Proof.
  intros H. destruct (Z.le_gt_cases a b) as [Hle|Hgt]; [exact Hle|exfalso].
  assert (Hb : 2 ^ (b + 1) <= 2 ^ a) by (apply pow2_le; lia).
  rewrite pow2_plus in Hb. change (2 ^ 1) with 2 in Hb.
  pose proof (pow2_pos b). lra.
Qed.

(** [rint] stays between two integers that enclose its argument. *)
Lemma rint_between (t : Q) (a b : Z) :
  inject_Z a <= t -> t <= inject_Z b -> (a <= NP.rint t <= b)%Z.
Proof.
  intros Ha Hb. unfold NP.rint.
  pose proof (Qfloor_le t) as Hlo. pose proof (Qlt_floor t) as Hhi.
  rewrite inject_Z_plus in Hhi. change (inject_Z 1) with 1 in Hhi.
  assert (Hfa : (a <= Qfloor t)%Z).
  { assert (H : (a < Qfloor t + 1)%Z)
      by (rewrite Zlt_Qlt, inject_Z_plus; change (inject_Z 1) with 1; lra).
    lia. }
  assert (Hfb : (Qfloor t <= b)%Z) by (rewrite Zle_Qle; lra).
  assert (Hup : inject_Z (Qfloor t) < t -> (Qfloor t + 1 <= b)%Z).
  { intros Hlt. assert (H : (Qfloor t < b)%Z) by (rewrite Zlt_Qlt; lra). lia. }
  destruct (t - inject_Z (Qfloor t) ?= 1 # 2) eqn:E.
  - apply Qeq_alt in E. destruct (Z.even (Qfloor t)); [lia|].
    split; [lia|]. apply Hup. lra.
  - lia.
  - apply Qgt_alt in E. split; [lia|]. apply Hup. lra.
Qed.

Lemma rint_integer (t : Q) (m : Z) : t == inject_Z m -> NP.rint t = m.
Proof.
  intros H.
  assert (Hm : (m <= NP.rint t <= m)%Z) by (apply rint_between; rewrite H; apply Qle_refl).
  lia.
Qed.

Lemma Qle_bool_comp (a b c d : Q) : a == c -> b == d -> Qle_bool a b = Qle_bool c d.
Proof.
  intros H1 H2. destruct (Qle_bool a b) eqn:E1, (Qle_bool c d) eqn:E2; try reflexivity.
  - apply Qle_bool_iff in E1. rewrite H1, H2 in E1. apply Qle_bool_iff in E1. congruence.
  - apply Qle_bool_iff in E2. rewrite <- H1, <- H2 in E2. apply Qle_bool_iff in E2.
    congruence.
Qed.

(** Rounding a value whose quotient by the quantum is an integer gives
    the value back. *)
Lemma round_of_multiple (v : Q) (m : Z) :
  ~ v == 0 ->
  v / 2 ^ Z.max (B64.ilog2 v - 52) (-1074) == inject_Z m ->
  Qle_bool (2 ^ 1024) (Qabs v) = false ->
  B64.round v = Fin (Qred v).
Proof.
  intros Hv Hm Hfin. unfold B64.round.
  assert (E0 : Qeq_bool v 0 = false).
  { destruct (Qeq_bool v 0) eqn:E; [|reflexivity].
    apply Qeq_bool_iff in E. contradiction. }
  rewrite E0. rewrite (rint_integer _ m Hm).
  set (k := Z.max (B64.ilog2 v - 52) (-1074)) in *.
  assert (Hr : inject_Z m * 2 ^ k == v).
  { rewrite <- Hm. field. apply Qpower_not_0. discriminate. }
  rewrite (Qle_bool_comp _ _ (2 ^ 1024) (Qabs v)); [|reflexivity|rewrite Hr; reflexivity].
  rewrite Hfin. f_equal. apply Qred_complete. exact Hr.
Qed.

(** A double is left as it is. *)
Lemma round_idempotent (q r : Q) : B64.round q = Fin r -> B64.round r = Fin r.
Proof.
  unfold B64.round at 1.
  destruct (Qeq_bool q 0) eqn:E0.
  { intros H. inversion H. reflexivity. }
  assert (Hq : ~ q == 0).
  { intros H. apply Qeq_bool_iff in H. congruence. }
  set (k := Z.max (B64.ilog2 q - 52) (-1074)).
  set (t := q / 2 ^ k).
  set (M := NP.rint t).
  set (r' := inject_Z M * 2 ^ k).
  destruct (Qle_bool (2 ^ 1024) (Qabs r')) eqn:Efin.
  { destruct (NP.sgn q); discriminate. }
  intros H. inversion H as [Hr]. clear H. clear Hr r.
  pose proof (Qred_correct r') as Hred.
  pose proof (pow2_pos k) as Hk0.
  assert (Hkmin : (-1074 <= k)%Z) by (unfold k; lia).
  assert (Hke : (B64.ilog2 q - 52 <= k)%Z) by (unfold k; lia).
  (* the significand has at most 53 bits *)
  assert (HM : (- 2 ^ 53 <= M <= 2 ^ 53)%Z).
  { apply rint_between.
    - rewrite inject_Z_opp, pow2_inject by lia.
      assert (Ht : Qabs t <= 2 ^ 53).
      { unfold t. rewrite Qabs_div by (apply Qpower_not_0; discriminate).
        rewrite (Qabs_pos (2 ^ k)) by lra.
        apply Qle_shift_div_r; [exact Hk0|].
        rewrite <- pow2_plus.
        apply Qle_trans with (y := 2 ^ (B64.ilog2 q + 1));
          [apply Qlt_le_weak, ilog2_lt; exact Hq|apply pow2_le; lia]. }
      apply Qabs_Qle_condition in Ht. lra.
    - rewrite pow2_inject by lia.
      assert (Ht : Qabs t <= 2 ^ 53).
      { unfold t. rewrite Qabs_div by (apply Qpower_not_0; discriminate).
        rewrite (Qabs_pos (2 ^ k)) by lra.
        apply Qle_shift_div_r; [exact Hk0|].
        rewrite <- pow2_plus.
        apply Qle_trans with (y := 2 ^ (B64.ilog2 q + 1));
          [apply Qlt_le_weak, ilog2_lt; exact Hq|apply pow2_le; lia]. }
      apply Qabs_Qle_condition in Ht. lra. }
  destruct (Z.eq_dec M 0%Z) as [HM0|HM0].
  { assert (Hz : r' == 0) by (unfold r'; rewrite HM0; ring).
    assert (Hrz : Qred r' = 0) by (apply (Qred_complete r' 0 Hz)).
    rewrite Hrz. reflexivity. }
  assert (Hr0 : ~ Qred r' == 0).
  { rewrite Hred. unfold r'. intros Hz.
    apply Qmult_integral in Hz. destruct Hz as [Hz|Hz].
    - apply HM0. unfold Qeq in Hz. cbn in Hz. lia.
    - pose proof (pow2_pos k). lra. }
  assert (Hfin' : Qle_bool (2 ^ 1024) (Qabs (Qred r')) = false).
  { rewrite <- Efin. apply Qle_bool_comp; [reflexivity|]. rewrite Hred. reflexivity. }
  set (v := Qred r') in *.
  assert (Hvv : Qred v = v) by (apply (Qred_complete v r' Hred)).
  transitivity (Fin (Qred v)); [|f_equal; exact Hvv].
  assert (Hv : v == inject_Z M * 2 ^ k) by exact Hred.
  assert (Habs : Qabs v == inject_Z (Z.abs M) * 2 ^ k).
  { rewrite Hv, Qabs_Qmult, (Qabs_pos (2 ^ k)) by lra.
    reflexivity. }
  pose proof (ilog2_le v Hr0) as Hlo.
  set (e' := B64.ilog2 v) in *.
  assert (He' : (e' <= 53 + k)%Z).
  { apply pow2_le_inv. eapply Qle_trans; [exact Hlo|]. rewrite Habs, pow2_plus.
    apply Qmult_le_compat_r; [|lra].
    rewrite <- pow2_inject by lia. rewrite <- Zle_Qle. lia. }
  destruct (Z.le_gt_cases e' (52 + k)) as [Hcase|Hcase].
  - (* the quantum of [v] is not above that of [q] *)
    set (k' := Z.max (e' - 52) (-1074)).
    assert (Hk' : (k' <= k)%Z) by (unfold k'; lia).
    apply (round_of_multiple v (M * 2 ^ (k - k'))%Z); [exact Hr0| |exact Hfin'].
    fold e'. fold k'.
    rewrite inject_Z_mult, pow2_inject by lia. rewrite pow2_minus, Hv.
    field. apply Qpower_not_0. discriminate.
  - (* the significand is 2^53 and the exponent moves up by one *)
    assert (Hek : e' = (53 + k)%Z) by lia.
    assert (HMabs : Z.abs M = (2 ^ 53)%Z).
    { assert (Hge : (2 ^ 53 <= Z.abs M)%Z).
      { rewrite Zle_Qle, pow2_inject by lia.
        apply (Qmult_le_r _ _ (2 ^ k)); [exact Hk0|].
        rewrite <- pow2_plus, <- Habs. rewrite <- Hek. exact Hlo. }
      lia. }
    set (k' := Z.max (e' - 52) (-1074)).
    assert (Hk' : k' = (k + 1)%Z) by (unfold k'; lia).
    apply (round_of_multiple v (M / 2)%Z); [exact Hr0| |exact Hfin'].
    fold e'. fold k'. rewrite Hk', pow2_plus, Hv. change (2 ^ 1) with 2.
    assert (HM2 : M = (2 * (M / 2))%Z).
    { destruct (Z.abs_spec M) as [[_ Ha]|[_ Ha]]; rewrite HMabs in Ha.
      - rewrite <- Ha. reflexivity.
      - assert (M = - 2 ^ 53)%Z by lia. subst M. rewrite H. reflexivity. }
    rewrite HM2 at 1. rewrite inject_Z_mult. change (inject_Z 2) with 2.
    field. apply Qpower_not_0. discriminate.
Qed.

(** The double a double stands for is itself. *)
Lemma double_of_double (q r : Q) : B64.round q = Fin r -> double_of r = r.
Proof. intros H. unfold double_of. rewrite (round_idempotent q r H). reflexivity. Qed.

End Binary64.

(* ------------------------------------------------------------------ *)
(** ** Forward returns                                                  *)
(* ------------------------------------------------------------------ *)


(** A missing series gives no record either. *)
Lemma get_rates_no_data code_name stock_column threshold :
  get_rates code_name None stock_column threshold = Ok None.
Proof. reflexivity. Qed.

(** Entry close 10.00, then 11.00 and 9.00: +10.0 and -10.0. *)
Example get_rates_example :
  get_rates (738886, "000001", "PAB")
            (Some [Bar 738885 9 9 9 9 1000000 0; Bar 738886 10 10 10 10 1000000 0;
                   Bar 738887 11 11 11 11 1000000 0; Bar 738888 9 9 9 9 1000000 0])
            ["date"; "code"; "rate_1"; "rate_2"] 3
  = Ok (Some [("date", CDate 738886); ("code", CCode "000001");
              ("rate_1", CRate (Fin 10)); ("rate_2", CRate (Fin (-10)))]).
Proof. vm_compute. reflexivity. Qed.

(** When fewer forward bars exist than were requested, the remaining
    days are null. *)
Example get_rates_example_padded :
  get_rates (738886, "000001", "PAB")
            (Some [Bar 738886 10 10 10 10 1000000 0; Bar 738887 11 11 11 11 1000000 0])
            ["date"; "code"; "rate_1"; "rate_2"; "rate_3"] 4
  = Ok (Some [("date", CDate 738886); ("code", CCode "000001");
              ("rate_1", CRate (Fin 10)); ("rate_2", CNone); ("rate_3", CNone)]).
Proof. vm_compute. reflexivity. Qed.

(** A third of a percent more: the cell is the double written 33.33. *)
Example sum_pct_change_third :
  sum_pct_change 3 4 = B64.round (3333 # 100)
  /\ sum_pct_change 3 4 = Fin (2345390243441541 # 70368744177664).
Proof. split; vm_compute; reflexivity. Qed.

(** 78.125 to 78.55078125 is +0.545 exactly; the quotient is rounded to
    a double just above it, and the cell is 0.55. *)
Example sum_pct_change_tie :
  (spec_percent_return (78125 # 1000) (7855078125 # 100000000) == 545 # 1000)%Q
  /\ sum_pct_change (78125 # 1000) (7855078125 # 100000000) = B64.round (55 # 100).
Proof. split; [reflexivity|vm_compute; reflexivity]. Qed.

(** 120.00 to 109.11: the return of the decimals is -9.075 exactly, that
    of the doubles is just beyond it, and the cell is -9.07. *)
Example sum_pct_change_down :
  (spec_percent_return 120 (10911 # 100) == - (9075 # 1000))%Q
  /\ (spec_percent_return (double_of 120) (double_of (10911 # 100))
      < - (9075 # 1000))%Q
  /\ sum_pct_change 120 (10911 # 100) = B64.round (- (907 # 100)).
Proof. split; [reflexivity|]. split; vm_compute; reflexivity. Qed.

(** Doubles are left as they are; 109.11 is not one. *)
Example double_of_examples :
  double_of 120 = 120%Q /\ double_of (78125 # 1000) = (625 # 8)%Q
  /\ double_of (10911 # 100) = (7677933677224919 # 70368744177664)%Q.
Proof. repeat split; vm_compute; reflexivity. Qed.

(** A zero entry close gives an infinity, not an error. *)
Example sum_pct_change_zero_close : sum_pct_change 0 4 = PInf.
Proof. vm_compute. reflexivity. Qed.


(* ------------------------------------------------------------------ *)
(** ** Strategy predicates                                              *)
(* ------------------------------------------------------------------ *)

(** The running maximum of the turtle loop, started from [a]: it stays
    at or below [x] exactly when [a] and every price do. *)
Lemma running_max_le (l : list Q) (a x : Q) :
  Qleb (fold_left (fun max_price _close =>
                     if Qltb max_price _close then _close else max_price) l a) x
  = Qleb a x && forallb (fun c => Qleb c x) l.
Proof.
  revert a. induction l as [|c l IH]; intros a; cbn [fold_left forallb].
  - rewrite andb_true_r. reflexivity.
  - rewrite IH, andb_assoc. f_equal.
    destruct (Qltb a c) eqn:E.
    + apply Qltb_lt in E. destruct (Qleb c x) eqn:Ec.
      * apply Qleb_le in Ec. rewrite andb_true_r. symmetry. apply Qleb_le.
        apply Qlt_le_weak. eapply Qlt_le_trans; eassumption.
      * rewrite andb_false_r. reflexivity.
    + apply Qltb_ge in E. destruct (Qleb a x) eqn:Ea; [|reflexivity].
      apply Qleb_le in Ea. symmetry. apply Qleb_le. eapply Qle_trans; eassumption.
Qed.

(** What the turtle predicate computes on a series with at least
    [threshold] bars up to the as-of date: the last close must be at
    least every close of the window, and at least 0, the value the
    running maximum starts from. *)
Lemma check_enter_spec (code_name : stock) (data : list bar) (date : option Z)
    (threshold : Z) :
  0 < threshold ->
  threshold <= DF.len (mask_end_date code_name date data) ->
  exists window last,
    DF.tail threshold (mask_end_date code_name date data) = window ++ [last]
    /\ turtle_trade.check_enter code_name data date threshold
       = Ok (Qleb 0 (bar_close last)
             && forallb (fun x => Qleb (bar_close x) (bar_close last))
                        (window ++ [last])).
Proof.
  intros Ht Hlen.
  pose proof (DF_tail_length threshold _ Ht Hlen) as Hl.
  destruct (DF.tail threshold (mask_end_date code_name date data))
    as [|x w] eqn:Ew using rev_ind; [cbn in Hl; lia|]. clear IHw.
  exists w, x. split; [reflexivity|].
  unfold turtle_trade.check_enter.
  replace (DF.len (mask_end_date code_name date data) <? threshold) with false
    by (symmetry; apply Z.ltb_ge; lia).
  rewrite Ew, DF_iloc_snoc. cbn [rbind].
  rewrite running_max_le, forallb_map'.
  destruct (Qleb 0 (bar_close x) && _); reflexivity.
Qed.

(** On non-negative prices the turtle predicate holds exactly when the
    last close is the maximum close of the window. *)
Lemma check_enter_nonnegative (code_name : stock) (data : list bar) (date : option Z)
    (threshold : Z) :
  0 < threshold ->
  threshold <= DF.len (mask_end_date code_name date data) ->
  Forall (fun x => (0 <= bar_close x)%Q) data ->
  exists window last,
    DF.tail threshold (mask_end_date code_name date data) = window ++ [last]
    /\ (turtle_trade.check_enter code_name data date threshold = Ok true
        <-> Forall (fun x => (bar_close x <= bar_close last)%Q) (window ++ [last]))
    /\ (turtle_trade.check_enter code_name data date threshold = Ok false
        <-> ~ Forall (fun x => (bar_close x <= bar_close last)%Q) (window ++ [last])).
Proof.
  intros Ht Hlen Hpos.
  destruct (check_enter_spec code_name data date threshold Ht Hlen)
    as (w & x & Ew & Hc).
  exists w, x. split; [exact Ew|]. rewrite Hc.
  assert (Hx : Qleb 0 (bar_close x) = true).
  { apply Qleb_le. rewrite Forall_forall in Hpos. apply Hpos.
    assert (Hin : x ∈ DF.tail threshold (mask_end_date code_name date data))
      by (rewrite Ew; apply elem_of_app; right; apply list_elem_of_here).
    rewrite DF_tail_pos in Hin by exact Ht.
    apply (subseteq_drop _ _) in Hin.
    unfold mask_end_date in Hin. apply list_elem_of_filter in Hin. apply Hin. }
  rewrite Hx. cbn [andb].
  assert (Hall : forallb (fun x0 => Qleb (bar_close x0) (bar_close x)) (w ++ [x]) = true
                 <-> Forall (fun x0 => (bar_close x0 <= bar_close x)%Q) (w ++ [x])).
  { rewrite forallb_forall, Forall_forall. split; intros H y Hy.
    - apply Qleb_le. apply H. apply list_elem_of_In. exact Hy.
    - apply Qleb_le. apply H. apply list_elem_of_In. exact Hy. }
  split.
  - rewrite <- Hall. split; [intros H; inversion H; reflexivity|intros ->; reflexivity].
  - rewrite <- Hall. split.
    + intros H. inversion H as [H']. rewrite H'. discriminate.
    + intros H. f_equal. destruct (forallb _ _); [contradiction H; reflexivity|reflexivity].
Qed.

(** Whenever some close of the window is above the last close, the
    turtle predicate is false. *)
Lemma check_enter_not_maximum (code_name : stock) (data : list bar) (date : option Z)
    (threshold : Z) (x : bar) :
  0 < threshold ->
  threshold <= DF.len (mask_end_date code_name date data) ->
  x ∈ DF.tail threshold (mask_end_date code_name date data) ->
  (forall last, DF.iloc (-1) (DF.tail threshold (mask_end_date code_name date data))
                = Ok last -> (bar_close last < bar_close x)%Q) ->
  turtle_trade.check_enter code_name data date threshold = Ok false.
Proof.
  intros Ht Hlen Hx Hlast.
  destruct (check_enter_spec code_name data date threshold Ht Hlen)
    as (w & l & Ew & Hc).
  rewrite Hc. f_equal. rewrite Ew in Hx, Hlast.
  specialize (Hlast l (DF_iloc_snoc w l)).
  apply andb_false_iff. right.
  destruct (forallb _ (w ++ [l])) eqn:E; [|reflexivity].
  rewrite forallb_forall in E. specialize (E x).
  rewrite <- list_elem_of_In in E. specialize (E Hx). apply Qleb_le in E.
  exfalso. apply (Qlt_not_le _ _ Hlast E).
Qed.

(** Sixty bars whose closes rise from 1 to 60: a breakout. *)
Example turtle_rising_closes :
  turtle_trade.check_enter (738059, "000001", "PAB") (rising_series 1 60) None 60
  = Ok true.
Proof. vm_compute. reflexivity. Qed.

(** C4 (the code at the failing input).  Sixty bars whose closes rise
    strictly from -60 to -1, as forward-adjusted prices can: the last
    close is the maximum close of the 60-bar window, but the running
    maximum starts from 0 and the predicate is false. *)
Theorem turtle_rising_negative_closes :
  let data := rising_series (-60) 60 in
  length data = 60%nat
  /\ forallb (fun p => Qltb (bar_close p.1) (bar_close p.2)) (zip data (drop 1 data))
     = true
  /\ forallb (fun x => Qleb (bar_close x) (-1)) data = true
  /\ option_map bar_close (last data) = Some (inject_Z (-1))
  /\ turtle_trade.check_enter (738059, "000001", "PAB") data None 60 = Ok false.
Proof. cbv zeta. repeat split; vm_compute; reflexivity. Qed.

(** The test shared by the two volume predicates, on a series with at
    least [threshold + 1] bars: the amount floor on the last bar, and
    the ratio of its volume to the 5-bar average that ends one bar
    earlier. *)
Lemma volume_ratio_check_spec (pre : list bar) (prev last : bar)
    (threshold : Z) (min_ratio : Q) :
  0 < threshold ->
  threshold + 1 <= DF.len (pre ++ [prev; last]) ->
  volume_ratio_check (pre ++ [prev; last]) threshold min_ratio
  = Ok (negb (Qltb (bar_close last * bar_volume last) 200000000)
        && NP.ge (NP.div (Fin (bar_volume last))
                         (Fin (ma_at (map bar_volume (pre ++ [prev; last])) 5
                                     (length pre))))
                 (Fin min_ratio)).
Proof.
  intros Ht Hlen. unfold DF.len in Hlen. rewrite length_app in Hlen. cbn [length] in Hlen.
  unfold volume_ratio_check.
  set (m := pre ++ [prev; last]).
  set (z := zip m (MA (map bar_volume m) 5)).
  assert (Hm : length m = (length pre + 2)%nat)
    by (unfold m; rewrite length_app; reflexivity).
  assert (Hz : length z = (length pre + 2)%nat)
    by (unfold z; rewrite zip_MA_length; exact Hm).
  assert (Hzlast : z !! (length pre + 1)%nat
                   = Some (last, ma_at (map bar_volume m) 5 (length pre + 1))).
  { apply zip_MA_lookup. unfold m. rewrite lookup_app_r by lia.
    replace (length pre + 1 - length pre)%nat with 1%nat by lia. reflexivity. }
  assert (Hzprev : z !! length pre
                   = Some (prev, ma_at (map bar_volume m) 5 (length pre))).
  { apply zip_MA_lookup. unfold m. rewrite lookup_app_r by lia.
    replace (length pre - length pre)%nat with 0%nat by lia. reflexivity. }
  rewrite DF_tail_pos by lia.
  set (k := (length z - Z.to_nat (threshold + 1))%nat).
  assert (Hk : length (drop k z) = Z.to_nat (threshold + 1))
    by (rewrite length_drop; unfold k; lia).
  unfold DF.len. rewrite Hk.
  replace (Z.of_nat (Z.to_nat (threshold + 1)) <? threshold + 1) with false
    by (symmetry; apply Z.ltb_ge; lia).
  rewrite (DF_iloc_last (drop k z) (last, ma_at (map bar_volume m) 5 (length pre + 1))).
  2:{ rewrite lookup_drop, Hk. rewrite <- Hzlast. f_equal. unfold k. lia. }
  2:{ intros E. rewrite E in Hk. cbn in Hk. lia. }
  cbn [rbind fst snd].
  destruct (Qltb (bar_close last * bar_volume last) 200000000); [reflexivity|].
  cbn [negb andb].
  rewrite DF_head_nonneg by lia.
  rewrite (DF_iloc_last (take (Z.to_nat threshold) (drop k z))
             (prev, ma_at (map bar_volume m) 5 (length pre))).
  2:{ rewrite length_take, Hk.
      replace (Z.to_nat threshold `min` Z.to_nat (threshold + 1))%nat
        with (Z.to_nat threshold) by lia.
      rewrite lookup_take_lt by lia. rewrite lookup_drop, <- Hzprev. f_equal.
      unfold k. lia. }
  2:{ intros E. apply (f_equal length) in E. rewrite length_take, Hk in E.
      cbn in E. lia. }
  cbn [rbind fst snd].
  destruct (NP.ge _ _); reflexivity.
Qed.

(** With a positive average the ratio test is a comparison of the
    volume with a multiple of the average. *)
Lemma ratio_ge_positive (v m r : Q) :
  (0 < m)%Q -> NP.ge (NP.div (Fin v) (Fin m)) (Fin r) = true <-> (r * m <= v)%Q.
Proof.
  intros Hm. unfold NP.ge, NP.le, NP.div.
  assert (E : Qeq_bool m 0 = false).
  { destruct (Qeq_bool m 0) eqn:E; [|reflexivity].
    apply Qeq_bool_iff in E. rewrite E in Hm. exfalso. apply (Qlt_irrefl _ Hm). }
  rewrite E. rewrite Qle_bool_iff. split; intros H.
  - apply (Qmult_le_r _ _ _ Hm) in H. 
    assert (Hv : (v / m * m == v)%Q) by (field; intros Hz; rewrite Hz in Hm; apply (Qlt_irrefl _ Hm)).
    rewrite Hv in H. exact H.
  - apply (Qmult_le_r _ _ m Hm).
    assert (Hv : (v / m * m == v)%Q) by (field; intros Hz; rewrite Hz in Hm; apply (Qlt_irrefl _ Hm)).
    rewrite Hv. exact H.
Qed.



(** The same surge after sixty quiet bars is an entry. *)
Example volume_surge_example :
  enter.check_volume (738060, "000001", "PAB") (surge_series 60) None 60 = Ok true
  /\ ma_at (map bar_volume (surge_series 60)) 5 59 == 10000000.
Proof. split; [vm_compute; reflexivity|reflexivity]. Qed.


(* ------------------------------------------------------------------ *)
(** ** Failing closed on short series                                   *)
(* ------------------------------------------------------------------ *)

Lemma DF_tail_shorter {A} (n : Z) (l : list A) : DF.len (DF.tail n l) <= DF.len l.
Proof.
  unfold DF.len, DF.tail.
  destruct (n =? 0); [cbn; lia|].
  destruct (0 <? n); rewrite length_drop; lia.
Qed.

(** A frame with a row has a last row. *)
Lemma DF_iloc_last_exists {A} (l : list A) :
  0 < DF.len l -> exists a, DF.iloc (-1) l = Ok a.
Proof.
  unfold DF.len. intros H.
  destruct l as [|x l] using rev_ind; [cbn in H; lia|].
  exists x. apply DF_iloc_snoc.
Qed.

(** The second length test of the two volume predicates. *)
Lemma volume_ratio_check_short (data : list bar) (threshold : Z) (min_ratio : Q) :
  DF.len data < threshold + 1 ->
  volume_ratio_check data threshold min_ratio = Ok false.
Proof.
  intros H. unfold volume_ratio_check.
  pose proof (DF_tail_shorter (threshold + 1) (zip data (MA (map bar_volume data) 5)))
    as Hle.
  unfold DF.len in Hle at 2. rewrite zip_MA_length in Hle. fold (DF.len data) in Hle.
  replace (DF.len (DF.tail (threshold + 1) (zip data (MA (map bar_volume data) 5)))
           <? threshold + 1) with true by (symmetry; apply Z.ltb_lt; lia).
  reflexivity.
Qed.

Ltac first_length_test H :=
  match goal with
  | |- context [DF.len ?m <? ?n] =>
      replace (DF.len m <? n) with true by (symmetry; apply Z.ltb_lt; cbn in H; lia);
      reflexivity
  end.

(** C6.  Every registered predicate, called as the strategy job calls
    it, returns false, and does not raise, on a series with fewer bars
    up to the as-of date than the predicate's minimum. *)
Theorem strategies_fail_closed
    (S : strategy) (code_name : stock) (data : list bar) (date : option Z)
    (istop : bool) :
  DF.len (mask_end_date code_name date data) < min_bars S ->
  strategy_fun S code_name data date istop = Ok false.
Proof.
  intros H. destruct S; cbn [strategy_fun min_bars] in *.
  - unfold turtle_trade.check_enter. first_length_test H.
  - unfold enter.check_volume.
    destruct (DF.len (mask_end_date code_name date data) <? 60) eqn:E; [reflexivity|].
    apply Z.ltb_ge in E.
    destruct (DF_iloc_last_exists (mask_end_date code_name date data)) as [a Ha]; [lia|].
    rewrite Ha. cbn [rbind].
    destruct (Qltb (bar_p_change a) 2 || Qltb (bar_close a) (bar_open a)); [reflexivity|].
    apply volume_ratio_check_short. exact H.
  - unfold breakthrough_platform.check. first_length_test H.
  - unfold backtrace_ma250.check. first_length_test H.
  - unfold keep_increasing.check. first_length_test H.
  - unfold parking_apron.check. first_length_test H.
  - unfold high_tight_flag.check_high_tight.
    destruct istop; [|reflexivity]. cbn [negb]. first_length_test H.
  - unfold low_atr.check_low_increase. first_length_test H.
  - unfold low_backtrace_increase.check. first_length_test H.
  - unfold climax_limitdown.check.
    destruct (DF.len (mask_end_date code_name date data) <? 60) eqn:E; [reflexivity|].
    apply Z.ltb_ge in E.
    destruct (DF_iloc_last_exists (mask_end_date code_name date data)) as [a Ha]; [lia|].
    rewrite Ha. cbn [rbind].
    destruct (Qltb (- (95 # 10)) (bar_p_change a)); [reflexivity|].
    apply volume_ratio_check_short. exact H.
Qed.

(** The ten predicates on a ten-bar series. *)
Example strategies_on_ten_bars :
  map (fun S => strategy_fun S (738010, "000001", "PAB") (surge_series 9) None true)
      [TurtleTrade; Enter; BreakthroughPlatform; BacktraceMa250; KeepIncreasing;
       ParkingApron; HighTightFlag; LowAtr; LowBacktraceIncrease; ClimaxLimitdown]
  = replicate 10 (Ok false).
Proof. vm_compute. reflexivity. Qed.

Lemma strategies_fail_closed_witness :
  DF.len (mask_end_date (738059, "000001", "PAB") None (surge_series 59)) < min_bars Enter
  /\ strategy_fun Enter (738059, "000001", "PAB") (surge_series 59) None false
     = Ok false.
Proof.
  assert (H : DF.len (mask_end_date (738059, "000001", "PAB")%string None
                        (surge_series 59)) < min_bars Enter)
    by (vm_compute; reflexivity).
  split; [exact H|].
  exact (strategies_fail_closed Enter (738059, "000001", "PAB")%string
           (surge_series 59) None false H).
Defined.

(* ------------------------------------------------------------------ *)
(** ** Sessions, resolved dates and report periods                      *)
(* ------------------------------------------------------------------ *)

(** X1.  From 09:15 to 15:00 every instant lies in exactly one of the
    trading sessions, the midday pause and the window before the
    afternoon session; outside, in none.  [is_pause] never answers
    [False]; the closing auction lies inside a trading session, and
    after the close there is no trading session. *)
Theorem sessions_partition_the_day (now_time : datetime) :
  ((Nat.b2n (is_tradetime now_time)
    + Nat.b2n (bool_decide (is_pause now_time = Some true))
    + Nat.b2n (is_continue now_time))%nat
   = if (time_of 9 15 0 <=? dt_time now_time) && (dt_time now_time <? time_of 15 0 0)
     then 1%nat else 0%nat)
  /\ is_pause now_time <> Some false
  /\ (is_closing now_time (time_of 14 54 30) = true -> is_tradetime now_time = true)
  /\ (is_close now_time = true -> is_tradetime now_time = false).
Proof.
  destruct now_time as [d t].
  unfold is_tradetime, is_pause, is_continue, is_closing, is_close,
    OPEN_TIME, PAUSE_TIME, CONTINUE_TIME, CLOSE_TIME, time_of.
  cbn [existsb dt_time fst snd orb].
  repeat match goal with
         | |- context [?a <=? ?b] => destruct (Z.leb_spec a b)
         | |- context [?a <? ?b] => destruct (Z.ltb_spec a b)
         end; cbn; repeat split; try congruence; try lia; intros; try discriminate; lia.
Qed.

(** X2.  On a loaded calendar, resolving the dates of the current run
    ends.  When it returns, both dates are trading dates, the finalized
    one is not after the latest-available one, which is not after
    today; the finalized date is today exactly when today is a trading
    day that has closed, and the latest-available date is today exactly
    when today is a trading day that has opened.  When it raises, it is
    [OverflowError] and the calendar has no trading date before today. *)
Theorem trade_date_last_resolves (s : gset Z) (now_time : datetime) :
  Date.valid (dt_date now_time) ->
  exists r,
    get_trade_date_last (loaded s) (S (Z.to_nat (dt_date now_time))) now_time = Some r
    /\ (forall run_date run_date_nph,
          r = Ok (run_date, run_date_nph) ->
          run_date ∈ s /\ run_date_nph ∈ s
          /\ run_date <= run_date_nph <= dt_date now_time
          /\ (run_date = dt_date now_time
              <-> dt_date now_time ∈ s /\ is_close now_time = true)
          /\ (run_date_nph = dt_date now_time
              <-> dt_date now_time ∈ s /\ is_open now_time = true))
    /\ (forall e,
          r = Raise e ->
          e = OverflowError
          /\ forall u, Date.MINORD <= u < dt_date now_time -> u ∉ s).
Proof.
  intros Hv. destruct now_time as [today t]. cbn [dt_date] in *.
  assert (Hco : is_close (DateTime today t) = true -> is_open (DateTime today t) = true).
  { unfold is_close, is_open, CLOSE_TIME, time_of. cbn [existsb dt_time orb].
    rewrite orb_false_r. intros H. apply Z.leb_le in H. apply Z.leb_le. lia. }
  unfold get_trade_date_last. cbn [dt_date].
  rewrite get_previous_trade_date_one.
  unfold is_trade_date, get_one_previous_trade_date. cbn [get_data loaded attr_data rbind].
  destruct (walk_back_total s (S (Z.to_nat today)) today Hv ltac:(lia))
    as [(p & Hw & Hp & Hin & _)|(Hw & Hnone)]; rewrite Hw; cbn [fbind].
  - (* an earlier trading date [p] exists *)
    destruct (bool_decide (today ∈ s)) eqn:Et.
    + apply bool_decide_eq_true in Et.
      destruct (is_close (DateTime today t)) eqn:Ec; cbn [negb].
      * eexists. split; [reflexivity|]. split; [|discriminate].
        intros rd nph H. inversion H; subst. specialize (Hco eq_refl).
        repeat split; auto; lia.
      * destruct (is_open (DateTime today t)) eqn:Eo; cbn [negb];
          (eexists; split; [reflexivity|]; split; [|discriminate]);
          intros rd nph H; inversion H; subst;
          repeat split; auto; try lia; try (intros [_ ?]; discriminate);
          try (intros ?; exfalso; lia).
    + apply bool_decide_eq_false in Et.
      eexists. split; [reflexivity|]. split; [|discriminate].
      intros rd nph H. inversion H; subst.
      repeat split; auto; try lia; try (intros [? _]; contradiction);
        try (intros ?; exfalso; lia).
  - (* none exists *)
    destruct (bool_decide (today ∈ s)) eqn:Et.
    + apply bool_decide_eq_true in Et.
      destruct (is_close (DateTime today t)) eqn:Ec; cbn [negb].
      * eexists. split; [reflexivity|]. split; [|discriminate].
        intros rd nph H. inversion H; subst. specialize (Hco eq_refl).
        repeat split; auto; lia.
      * eexists. split; [reflexivity|]. split; [discriminate|].
        intros e H. inversion H; subst. split; [reflexivity|exact Hnone].
    + eexists. split; [reflexivity|]. split; [discriminate|].
      intros e H. inversion H; subst. split; [reflexivity|exact Hnone].
Qed.

Lemma trade_date_last_resolves_witness :
  Date.valid 7
  /\ exists r,
      get_trade_date_last (loaded {[6; 7]}) (S (Z.to_nat 7))
        (DateTime 7 (time_of 10 0 0)) = Some r.
Proof.
  assert (H : Date.valid 7) by (unfold Date.valid, Date.MINORD, Date.MAXORD; lia).
  split; [exact H|].
  destruct (trade_date_last_resolves {[6; 7]} (DateTime 7 (time_of 10 0 0)) H)
    as (r & Hr & _).
  exists r. exact Hr.
Defined.

(** X3.  For a query date that has been parsed, the look-back start is
    the query date minus 1095 days, and the cache may be used unless
    the query date is today, today is a trading day and the time is
    from 09:30 up to 15:00.  When the start would fall before
    [date.min] the call raises [OverflowError]. *)
Theorem trade_hist_interval_spec
    (cal : trade_calendar) (now_time : datetime) (date_end : Z) :
  Date.valid date_end ->
  (forall date_start is_cache,
      get_trade_hist_interval cal now_time date_end = Ok (date_start, is_cache) ->
      date_start = date_end - 1095
      /\ (is_cache = false
          <-> date_end = dt_date now_time
              /\ is_trade_date cal (dt_date now_time) = Ok true
              /\ time_of 9 30 0 <= dt_time now_time < time_of 15 0 0))
  /\ (date_end <= 1095 ->
      get_trade_hist_interval cal now_time date_end = Raise OverflowError).
Proof.
  intros [Hlo Hhi]. unfold Date.MINORD, Date.MAXORD in *.
  unfold get_trade_hist_interval, Date.add_days, Date.MINORD, Date.MAXORD.
  replace (date_end + - (365 * 3) <=? 3652059) with true
    by (symmetry; apply Z.leb_le; lia).
  rewrite andb_true_r.
  destruct (1 <=? date_end + - (365 * 3)) eqn:E1; cbn [rbind].
  2:{ split; [discriminate|]. intros _. reflexivity. }
  apply Z.leb_le in E1.
  assert (Hsess : is_open now_time && negb (is_close now_time) = true
                  <-> time_of 9 30 0 <= dt_time now_time < time_of 15 0 0).
  { unfold is_open, is_close, CLOSE_TIME. cbn [existsb]. rewrite orb_false_r.
    rewrite andb_true_iff, negb_true_iff, Z.leb_le, Z.leb_gt. reflexivity. }
  destruct (date_end =? dt_date now_time) eqn:E2.
  - apply Z.eqb_eq in E2.
    destruct (is_trade_date cal (dt_date now_time)) as [b|e] eqn:Et; cbn [rbind].
    + split; [|intros Hle; lia]. intros ds ic H. inversion H; subst ds ic; clear H.
      split; [lia|]. rewrite negb_false_iff, andb_true_iff, Hsess.
      split.
      * intros [-> Ht]. repeat split; auto; apply Ht.
      * intros (_ & Hb & Ht). inversion Hb; subst. split; [reflexivity|exact Ht].
    + split; [discriminate|]. intros Hle. lia.
  - apply Z.eqb_neq in E2. cbn [rbind]. split; [|intros Hle; lia].
    intros ds ic H. inversion H; subst ds ic; clear H. split; [lia|].
    cbn [negb]. split; [discriminate|]. intros (H & _). contradiction.
Qed.

Lemma trade_hist_interval_spec_witness :
  Date.valid 738887
  /\ get_trade_hist_interval (loaded {[738887]}) (DateTime 738887 (time_of 10 0 0))
       738887 = Ok (738887 - 1095, false).
Proof.
  assert (H : Date.valid 738887) by (unfold Date.valid, Date.MINORD, Date.MAXORD; lia).
  split; [exact H|].
  pose proof (proj1 (trade_hist_interval_spec (loaded {[738887]})
                       (DateTime 738887 (time_of 10 0 0)) 738887 H)) as Hs.
  destruct (get_trade_hist_interval (loaded {[738887]})
              (DateTime 738887 (time_of 10 0 0)) 738887) as [[ds ic]|e] eqn:E;
    [|vm_compute in E; discriminate].
  destruct (Hs ds ic eq_refl) as [-> _].
  vm_compute in E. inversion E; subst. reflexivity.
Defined.

(** X4.  The dividend report period is always a half-year end that lies
    before the day it is asked on: December 31 of the previous year,
    or June 30 of this year or of the previous one. *)
Theorem bonus_report_date_is_past (now_time : civil) :
  1 <= c_month now_time <= 12 -> 1 <= c_day now_time <= 31 ->
  exists year month_day,
    get_bonus_report_date now_time = pretty year +:+ month_day
    /\ ((month_day = "1231" /\ year = c_year now_time - 1)
        \/ (month_day = "0630"
            /\ (year = c_year now_time \/ year = c_year now_time - 1)))
    /\ report_number (year, month_day) < civil_number now_time.
Proof.
  destruct now_time as [y m d]. cbn [c_year c_month c_day]. intros Hm Hd.
  unfold get_bonus_report_date, format_report_date, bonus_report_parts,
    report_number, civil_number.
  cbn [c_year c_month c_day].
  repeat match goal with
         | |- context [?a <=? ?b] => destruct (Z.leb_spec a b); cbn [andb]
         | |- context [?a <? ?b] => destruct (Z.ltb_spec a b)
         | |- context [?a =? ?b] => destruct (Z.eqb_spec a b)
         end;
    eexists; eexists; (split; [reflexivity|]); cbn [fst snd];
    (split; [first [left; split; [reflexivity|lia] | right; split; [reflexivity|lia]]|]);
    cbn; lia.
Qed.

Lemma bonus_report_date_is_past_witness :
  1 <= 1 <= 12 /\ 1 <= 10 <= 31
  /\ exists year month_day,
      get_bonus_report_date (Civil 2024 1 10) = pretty year +:+ month_day
      /\ report_number (year, month_day) < civil_number (Civil 2024 1 10).
Proof.
  assert (H1 : 1 <= 1 <= 12) by lia. assert (H2 : 1 <= 10 <= 31) by lia.
  split; [exact H1|]. split; [exact H2|].
  destruct (bonus_report_date_is_past (Civil 2024 1 10) H1 H2)
    as (y & md & Hs & _ & Hlt).
  exists y, md. split; [exact Hs|exact Hlt].
Defined.

(** X5.  The quarterly report period keeps the current year in every
    month.  From April on it is the end of the previous quarter, a date
    already past; from January to March it is December 31 of the
    current year, a date still to come. *)
Theorem quarterly_report_date_year (now_time : civil) :
  1 <= c_month now_time <= 12 -> 1 <= c_day now_time <= 31 ->
  exists month_day,
    get_quarterly_report_date now_time = pretty (c_year now_time) +:+ month_day
    /\ (c_month now_time <= 3 -> month_day = "1231")
    /\ (4 <= c_month now_time <= 6 -> month_day = "0331")
    /\ (7 <= c_month now_time <= 9 -> month_day = "0630")
    /\ (10 <= c_month now_time -> month_day = "0930")
    /\ (report_number (c_year now_time, month_day) < civil_number now_time
        <-> 4 <= c_month now_time).
Proof.
  destruct now_time as [y m d]. cbn [c_year c_month c_day]. intros Hm Hd.
  unfold get_quarterly_report_date, format_report_date, quarterly_report_parts,
    report_number, civil_number.
  cbn [c_year c_month c_day].
  repeat match goal with
         | |- context [?a <=? ?b] => destruct (Z.leb_spec a b); cbn [andb]
         end;
    eexists; (split; [reflexivity|]); cbn [fst snd];
    repeat (split; [intros; first [reflexivity|lia]|]); cbn; lia.
Qed.

Lemma quarterly_report_date_year_witness :
  1 <= 2 <= 12 /\ 1 <= 10 <= 31
  /\ get_quarterly_report_date (Civil 2024 2 10) = "20241231".
Proof.
  assert (H1 : 1 <= 2 <= 12) by lia. assert (H2 : 1 <= 10 <= 31) by lia.
  split; [exact H1|]. split; [exact H2|].
  destruct (quarterly_report_date_year (Civil 2024 2 10) H1 H2) as (md & Hs & Hmd & _).
  rewrite Hs, (Hmd ltac:(cbn; lia)). vm_compute. reflexivity.
Defined.

(* ------------------------------------------------------------------ *)
(** ** Scheduling: the list mode and a failed calendar                  *)
(* ------------------------------------------------------------------ *)

Lemma list_loop_dates s ds rest :
  list_loop (loaded s) (map Ok ds ++ rest)
  = flat_map (day_events s) ds ++ list_loop (loaded s) rest.
Proof.
  induction ds as [|d ds IH]; [reflexivity|].
  cbn [map app list_loop flat_map]. unfold is_trade_date at 1.
  cbn [get_data loaded attr_data rbind].
  rewrite IH, <- app_assoc. unfold day_events at 2.
  destruct (bool_decide (d ∈ s)); reflexivity.
Qed.

(** X6.  In list mode the dates are taken in the order given: each one
    that is a trading day is submitted, as often as it is listed.  The
    first piece that is not a date ends the run: its exception is
    logged and no later date is submitted. *)
Theorem list_mode_stops_at_first_bad_date
    (s : gset Z) (fuel : nat) (now_time : datetime) (run_fun : job)
    (ds : list Z) (e : exn) (rest : list (result Z)) :
  (exists evs,
      run_with_args (loaded s) fuel now_time (ArgvList (map Ok ds)) run_fun = Some evs
      /\ submitted evs = filter (fun d => d ∈ s) ds)
  /\ (exists evs,
        run_with_args (loaded s) fuel now_time
          (ArgvList (map Ok ds ++ Raise e :: rest)) run_fun = Some evs
        /\ evs = flat_map (day_events s) ds ++ [LogError e]
        /\ submitted evs = filter (fun d => d ∈ s) ds).
Proof.
  split; eexists; cbn [run_with_args]; (split; [reflexivity|]).
  - rewrite <- (app_nil_r (map Ok ds)), list_loop_dates. cbn [list_loop].
    rewrite app_nil_r. apply submitted_days.
  - rewrite list_loop_dates. cbn [list_loop]. split; [reflexivity|].
    rewrite submitted_app, submitted_days. cbn. apply app_nil_r.
Qed.

(** X7.  When loading the calendar raised, no mode runs anything: the
    range walk, the list walk and the current mode each log the
    [AttributeError] of the first lookup and stop, without submitting
    or calling the job. *)
Theorem failed_calendar_runs_nothing
    (e : exn) (fuel : nat) (now_time : datetime) (run_fun : job)
    (start_date end_date d : Z) (rest : list (result Z)) :
  start_date <= end_date ->
  let cal := stock_trade_date_init (Raise e) in
  run_with_args cal (S fuel) now_time (ArgvRange start_date end_date) run_fun
    = Some [LogError AttributeError]
  /\ run_with_args cal fuel now_time (ArgvList (Ok d :: rest)) run_fun
     = Some [LogError AttributeError]
  /\ run_with_args cal fuel now_time ArgvOther run_fun
     = Some [LogError AttributeError].
Proof.
  intros H cal. repeat split.
  cbn [run_with_args range_loop].
  replace (start_date <=? end_date) with true by (symmetry; apply Z.leb_le; exact H).
  reflexivity.
Qed.

Lemma failed_calendar_runs_nothing_witness :
  738885 <= 738894
  /\ run_with_args (stock_trade_date_init (Raise FetchError)) 1
       (DateTime 738900 0) (ArgvRange 738885 738894)
       (Job "prepare" (fun _ _ => Ok tt))
     = Some [LogError AttributeError].
Proof.
  assert (H : 738885 <= 738894) by lia. split; [exact H|].
  exact (proj1 (failed_calendar_runs_nothing FetchError 0 (DateTime 738900 0)
                  (Job "prepare" (fun _ _ => Ok tt)) 738885 738894 0 [] H)).
Defined.

(** X8.  In the current mode the job function is called at most once:
    once when the dates resolve, with the caller's extra arguments
    replaced by the single [False] for a name starting with [save_nph];
    an exception of the job is logged, not raised.  When resolving the
    dates raises, the job is not called. *)
Theorem current_mode_calls_once
    (cal : trade_calendar) (fuel : nat) (now_time : datetime) (run_fun : job) :
  (forall run_date run_date_nph,
      get_trade_date_last cal fuel now_time = Some (Ok (run_date, run_date_nph)) ->
      exists d a,
        run_with_args cal fuel now_time ArgvOther run_fun
        = Some (Call d a :: match job_call run_fun d a with
                            | Ok _ => []
                            | Raise e => [LogError e]
                            end)
        /\ (a = JustFalse <-> startswith (job_name run_fun) "save_nph" = true))
  /\ (forall e,
        get_trade_date_last cal fuel now_time = Some (Raise e) ->
        run_with_args cal fuel now_time ArgvOther run_fun = Some [LogError e]).
Proof.
  split.
  - intros rd nph H. cbn [run_with_args]. unfold current_mode. rewrite H.
    destruct (startswith (job_name run_fun) "save_nph") eqn:E1;
      [|destruct (startswith (job_name run_fun) "save_after_close")];
      eexists; eexists; (split; [reflexivity|]); split; congruence.
  - intros e H. cbn [run_with_args]. unfold current_mode. rewrite H. reflexivity.
Qed.

Lemma current_mode_calls_once_witness :
  get_trade_date_last (loaded {[6; 7]}) 9 (DateTime 7 (time_of 10 0 0))
    = Some (Ok (6, 7))
  /\ run_with_args (loaded {[6; 7]}) 9 (DateTime 7 (time_of 10 0 0)) ArgvOther
       (Job "save_nph_stock_spot_data" (fun _ _ => Raise ValueError))
     = Some [Call 7 JustFalse; LogError ValueError].
Proof.
  assert (H : get_trade_date_last (loaded {[6; 7]}) 9 (DateTime 7 (time_of 10 0 0))
              = Some (Ok (6, 7))) by (vm_compute; reflexivity).
  split; [exact H|].
  destruct (proj1 (current_mode_calls_once (loaded {[6; 7]}) 9
                     (DateTime 7 (time_of 10 0 0))
                     (Job "save_nph_stock_spot_data" (fun _ _ => Raise ValueError)))
              6 7 H) as (d & a & Hrun & _).
  rewrite Hrun. vm_compute in Hrun. inversion Hrun; subst. reflexivity.
Defined.

(* ------------------------------------------------------------------ *)
(** ** The caches: failures and fetch counts                            *)
(* ------------------------------------------------------------------ *)

(** X9.  A failed snapshot fetch is kept for the life of the process.
    When the first fetch raises, that request and every later one, for
    any date and even once the source works again, raise
    [AttributeError] and fetch nothing; when it returns [None], every
    request returns [None] and fetches nothing. *)
Theorem snapshot_failure_is_kept
    (env env' : collaborators) (w : world) (d1 d2 : option Z) :
  stock_data_instance w = None ->
  (forall e, fetch_stocks env d1 = Raise e ->
     exists w1,
       GetSnapshot env d1 w = (Raise AttributeError, w1)
       /\ fetch_log w1 = fetch_log w ++ [FetchStocks d1]
       /\ GetSnapshot env' d2 w1 = (Raise AttributeError, w1))
  /\ (fetch_stocks env d1 = Ok None ->
      exists w1,
        GetSnapshot env d1 w = (Ok None, w1)
        /\ fetch_log w1 = fetch_log w ++ [FetchStocks d1]
        /\ GetSnapshot env' d2 w1 = (Ok None, w1)).
Proof.
  intros Hslot. split; [intros e Hf|intros Hf];
    unfold GetSnapshot, stock_data, singleton_call, stock_data_init;
    rewrite Hslot, Hf; eexists; (split; [reflexivity|]); split; reflexivity.
Qed.

Lemma snapshot_failure_is_kept_witness :
  stock_data_instance fresh = None
  /\ exists w1,
      GetSnapshot one_fetch_raises (Some 738886) fresh = (Ok None, w1)
      /\ GetSnapshot stub_market (Some 738887) w1 = (Ok None, w1).
Proof.
  assert (H : stock_data_instance fresh = None) by reflexivity.
  split; [exact H|].
  destruct (proj2 (snapshot_failure_is_kept one_fetch_raises stub_market fresh
                     (Some 738886) (Some 738887) H) eq_refl)
    as (w1 & H1 & _ & H2).
  exists w1. split; [exact H1|exact H2].
Defined.

(** X11.  With the instrument list omitted and a snapshot that is
    [None], building the series raises [TypeError] before any series is
    fetched, and nothing is kept for the series class: the next request
    runs again, finds the kept snapshot, and fails the same way. *)
Theorem series_without_snapshot_raises
    (env env' : collaborators) (date date' : option Z) (w : world) :
  stock_data_instance w = None ->
  stock_hist_data_instance w = None ->
  fetch_stocks env date = Ok None ->
  exists w1,
    GetSeries env date None w = (Raise TypeError, w1)
    /\ stock_hist_data_instance w1 = None
    /\ fetch_log w1 = fetch_log w ++ [FetchStocks date]
    /\ GetSeries env' date' None w1 = (Raise TypeError, w1).
Proof.
  intros H1 H2 Hf.
  unfold GetSeries, stock_hist_data, singleton_call. rewrite H2.
  unfold stock_hist_data_init, GetSnapshot, stock_data, singleton_call, stock_data_init.
  rewrite H1, Hf. cbn.
  eexists. split; [reflexivity|]. cbn. rewrite H2.
  split; [reflexivity|]. split; reflexivity.
Qed.

Lemma series_without_snapshot_raises_witness :
  stock_data_instance fresh = None
  /\ stock_hist_data_instance fresh = None
  /\ fetch_stocks one_fetch_raises (Some 738886) = Ok None
  /\ exists w1,
      GetSeries one_fetch_raises (Some 738886) None fresh = (Raise TypeError, w1).
Proof.
  assert (H1 : stock_data_instance fresh = None) by reflexivity.
  assert (H2 : stock_hist_data_instance fresh = None) by reflexivity.
  assert (H3 : fetch_stocks one_fetch_raises (Some 738886) = Ok None) by reflexivity.
  split; [exact H1|]. split; [exact H2|]. split; [exact H3|].
  destruct (series_without_snapshot_raises one_fetch_raises stub_market (Some 738886)
              None fresh H1 H2 H3) as (w1 & Hr & _).
  exists w1. exact Hr.
Defined.

(** X12.  With the instrument list omitted, the instruments are those of
    the day's snapshot, which is fetched once, before the series.  The
    entries of the result are exactly the snapshot's instruments whose
    fetch returned a series; when there is none the result is [None],
    not an empty map. *)
Theorem series_universe_is_snapshot
    (env : collaborators) (date : option Z) (w : world) (rows : snapshot)
    (first : stock) (date_start : Z) (is_cache : bool) :
  stock_data_instance w = None ->
  stock_hist_data_instance w = None ->
  fetch_stocks env date = Ok (Some rows) ->
  as_completed env (map quote_key rows) ≡ₚ map quote_key rows ->
  DF.iloc 0 (map quote_key rows) = Ok first ->
  get_trade_hist_interval (calendar env) (clock env) (stock_date first)
    = Ok (date_start, is_cache) ->
  exists r w1,
    GetSeries env date None w = (Ok r, w1)
    /\ fetch_log w1
       = fetch_log w ++ FetchStocks date
           :: map (fun s => FetchStockHist s date_start is_cache) (map quote_key rows)
    /\ (forall k d,
          (exists m, r = Some m /\ m !! k = Some d)
          <-> k ∈ map quote_key rows
              /\ fetch_stock_hist env k date_start is_cache = Ok (Some d))
    /\ r <> Some ∅.
Proof.
  intros H1 H2 Hf Hperm Hfirst Hint.
  assert (Hlook : forall k d,
            populate env date_start is_cache (map quote_key rows) !! k = Some d
            <-> k ∈ map quote_key rows
                /\ fetch_stock_hist env k date_start is_cache = Ok (Some d)).
  { intros k d. rewrite populate_lookup by exact Hperm.
    destruct (fetch_stock_hist env k date_start is_cache) as [[d'|]|e];
      [|split; [discriminate|intros [_ ?]; discriminate]..].
    destruct (decide (k ∈ map quote_key rows)) as [Hin|Hin].
    - rewrite bool_decide_eq_true_2 by exact Hin.
      split; [intros H; inversion H; subst; split; [exact Hin|reflexivity]
             |intros [_ H]; inversion H; reflexivity].
    - rewrite bool_decide_eq_false_2 by exact Hin.
      split; [discriminate|intros [? _]; contradiction]. }
  unfold GetSeries, stock_hist_data, singleton_call. rewrite H2.
  unfold stock_hist_data_init, GetSnapshot, stock_data, singleton_call, stock_data_init.
  rewrite H1, Hf. cbn [rbind get_data attr_data]. rewrite Hfirst. cbn [rbind].
  rewrite Hint.
  destruct (bool_decide (populate env date_start is_cache (map quote_key rows) = ∅))
    eqn:E; eexists; eexists; (split; [reflexivity|]).
  - apply bool_decide_eq_true in E.
    split; [cbn; rewrite <- app_assoc; reflexivity|]. split; [|discriminate].
    intros k d. rewrite <- Hlook, E, lookup_empty.
    split; [intros (m & Hm & _); discriminate|discriminate].
  - apply bool_decide_eq_false in E.
    split; [cbn; rewrite <- app_assoc; reflexivity|]. split; [|congruence].
    intros k d. rewrite <- Hlook. split.
    + intros (m & Hm & Hk). inversion Hm; subst. exact Hk.
    + intros Hk. eexists. split; [reflexivity|exact Hk].
Qed.

Lemma series_universe_is_snapshot_witness :
  let rows := [Quote (738886, "000001", "PAB") []] in
  stock_data_instance fresh = None
  /\ stock_hist_data_instance fresh = None
  /\ fetch_stocks stub_market (Some 738886) = Ok (Some rows)
  /\ as_completed stub_market (map quote_key rows) ≡ₚ map quote_key rows
  /\ exists r w1, GetSeries stub_market (Some 738886) None fresh = (Ok r, w1)
                  /\ r <> Some ∅.
Proof.
  intros rows.
  assert (H1 : stock_data_instance fresh = None) by reflexivity.
  assert (H2 : stock_hist_data_instance fresh = None) by reflexivity.
  assert (H3 : fetch_stocks stub_market (Some 738886) = Ok (Some rows)) by reflexivity.
  assert (H4 : as_completed stub_market (map quote_key rows) ≡ₚ map quote_key rows)
    by reflexivity.
  assert (H5 : DF.iloc 0 (map quote_key rows) = Ok (738886, "000001", "PAB")%string)
    by reflexivity.
  assert (H6 : get_trade_hist_interval (calendar stub_market) (clock stub_market)
                 (stock_date (738886, "000001", "PAB")%string) = Ok (737791, true))
    by (vm_compute; reflexivity).
  split; [exact H1|]. split; [exact H2|]. split; [exact H3|]. split; [exact H4|].
  destruct (series_universe_is_snapshot stub_market (Some 738886) fresh rows
              _ _ _ H1 H2 H3 H4 H5 H6) as (r & w1 & Hr & _ & _ & Hne).
  exists r, w1. split; [exact Hr|exact Hne].
Defined.

(* ------------------------------------------------------------------ *)
(** ** More on the strategy predicates                                  *)
(* ------------------------------------------------------------------ *)



(** X14.  On a series with at least [threshold + 1] bars up to the
    as-of date, the climax-limit-down predicate is true exactly when
    the last bar has a change of at most -9.5, an amount (close times
    volume) of at least 2e8, and a volume at least four times the 5-bar
    average volume that ends on the bar before it. *)
Theorem climax_limitdown_iff
    (code_name : stock) (data : list bar) (date : option Z) (threshold : Z)
    (pre : list bar) (prev last : bar) :
  0 < threshold ->
  mask_end_date code_name date data = pre ++ [prev; last] ->
  threshold + 1 <= DF.len (pre ++ [prev; last]) ->
  exists b,
    climax_limitdown.check code_name data date threshold = Ok b
    /\ (b = true <->
        (bar_p_change last <= - (95 # 10))%Q
        /\ (200000000 <= bar_close last * bar_volume last)%Q
        /\ NP.ge (NP.div (Fin (bar_volume last))
                         (Fin (ma_at (map bar_volume (pre ++ [prev; last])) 5
                                     (length pre))))
                 (Fin 4) = true).
Proof.
  intros Ht Hm Hlen. unfold climax_limitdown.check. rewrite Hm.
  replace (DF.len (pre ++ [prev; last]) <? threshold) with false
    by (symmetry; apply Z.ltb_ge; lia).
  assert (Hl : DF.iloc (-1) (pre ++ [prev; last]) = Ok last).
  { replace (pre ++ [prev; last]) with ((pre ++ [prev]) ++ [last])
      by (rewrite <- app_assoc; reflexivity).
    apply DF_iloc_snoc. }
  rewrite Hl. cbn [rbind].
  rewrite (volume_ratio_check_spec pre prev last threshold 4 Ht Hlen).
  destruct (Qltb (- (95 # 10)) (bar_p_change last)) eqn:E1.
  { exists false. split; [reflexivity|]. split; [discriminate|].
    intros (H & _). apply Qltb_lt in E1. exfalso. apply (Qlt_not_le _ _ E1 H). }
  apply Qltb_ge in E1.
  eexists. split; [reflexivity|].
  destruct (Qltb (bar_close last * bar_volume last) 200000000) eqn:E3; cbn [negb andb].
  { split; [discriminate|].
    intros (_ & H & _). apply Qltb_lt in E3. exfalso. apply (Qlt_not_le _ _ E3 H). }
  apply Qltb_ge in E3.
  split; [intros H; repeat split; assumption|intros (_ & _ & H); exact H].
Qed.

Lemma climax_limitdown_iff_witness :
  let pre := map (fun i => Bar (738000 + i) 10 10 10 10 10000000 0) (seqZ 0 59) in
  let prev := Bar 738059 10 10 10 10 10000000 0 in
  let last := Bar 738060 10 10 9 9 50000000 (-10) in
  0 < 60
  /\ mask_end_date (738060, "000001", "PAB") None (limitdown_series 60)
     = pre ++ [prev; last]
  /\ 60 + 1 <= DF.len (pre ++ [prev; last])
  /\ exists b,
       climax_limitdown.check (738060, "000001", "PAB") (limitdown_series 60) None 60
       = Ok b.
Proof.
  intros pre prev last.
  assert (H1 : 0 < 60) by lia.
  assert (H2 : mask_end_date (738060, "000001", "PAB")%string None (limitdown_series 60)
               = pre ++ [prev; last]) by (vm_compute; reflexivity).
  assert (H3 : 60 + 1 <= DF.len (pre ++ [prev; last])) by (vm_compute; discriminate).
  split; [exact H1|]. split; [exact H2|]. split; [exact H3|].
  destruct (climax_limitdown_iff (738060, "000001", "PAB")%string (limitdown_series 60)
              None 60 pre prev last H1 H2 H3) as (b & Hb & _).
  exists b. exact Hb.
Defined.

(** The limit-down day on five times the usual volume is a signal. *)
Example climax_limitdown_example :
  climax_limitdown.check (738060, "000001", "PAB") (limitdown_series 60) None 60
  = Ok true.
Proof. vm_compute. reflexivity. Qed.

(** On closes that each exceed the running high, the loop of
    [check_low_increase] only ever takes its first branch: the running
    low keeps the value it had. *)
Lemma low_atr_scan_rising (l : list bar) : forall (t h lo : Q),
  (forall a, l !! 0%nat = Some a -> (h < bar_close a)%Q) ->
  (forall i a b, l !! i = Some a -> l !! S i = Some b ->
                 (bar_close a < bar_close b)%Q) ->
  (h < 1000000)%Q ->
  (forall a, a ∈ l -> (bar_close a < 1000000)%Q) ->
  exists t' h',
    fold_left
      (fun '(total_change, highest_row, lowest_row) b =>
         let _p_change := bar_p_change b in
         let _close := bar_close b in
         let total_change :=
           if Qltb 0 _p_change then (total_change + Qabs _p_change)%Q
           else if Qltb _p_change 0 then (total_change + Qabs _p_change)%Q
           else total_change in
         if Qltb highest_row _close then (total_change, _close, lowest_row)
         else if Qltb _close lowest_row then (total_change, highest_row, _close)
         else (total_change, highest_row, lowest_row))
      l (t, h, lo) = (t', h', lo)
    /\ (h' < 1000000)%Q.
Proof.
  induction l as [|a l IH]; intros t h lo H0 H1 Hh Hall.
  - exists t, h. split; [reflexivity|exact Hh].
  - cbn [fold_left]. cbv zeta.
    assert (Ha : Qltb h (bar_close a) = true)
      by (apply Qltb_lt; apply H0; reflexivity).
    rewrite Ha. apply IH.
    + intros b Hb. apply (H1 0%nat a b); [reflexivity|exact Hb].
    + intros i x y Hx Hy. apply (H1 (S i) x y); assumption.
    + apply Hall. apply list_elem_of_here.
    + intros x Hx. apply Hall. apply elem_of_cons. right. exact Hx.
Qed.

(** X15.  A window in which every close is a new high (the first one
    above 0, all below 1,000,000) is never selected by the low-ATR
    predicate, whatever the rise: the lowest close is only looked for on
    bars that are not a new high, so it stays at its initial 1,000,000
    and the ratio of the range to it is negative. *)
Theorem low_atr_rejects_steady_rise
    (code_name : stock) (data : list bar) (date : option Z)
    (ma_short ma_long threshold : Z) :
  let window := DF.tail threshold (mask_end_date code_name date data) in
  0 < threshold ->
  (forall a, window !! 0%nat = Some a -> (0 < bar_close a)%Q) ->
  (forall i a b, window !! i = Some a -> window !! S i = Some b ->
                 (bar_close a < bar_close b)%Q) ->
  (forall a, a ∈ window -> (bar_close a < 1000000)%Q) ->
  low_atr.check_low_increase code_name data date ma_short ma_long threshold
  = Ok false.
Proof.
  intros window Ht H0 H1 Hall. unfold low_atr.check_low_increase.
  destruct (DF.len (mask_end_date code_name date data) <? ma_long); [reflexivity|].
  fold window.
  destruct (DF.len window <? threshold) eqn:E; [reflexivity|].
  apply Z.ltb_ge in E.
  assert (Hs : exists t' h',
             low_atr.scan window = (t', h', 1000000%Q) /\ (h' < 1000000)%Q)
    by exact (low_atr_scan_rising window 0 0 1000000 H0 H1 eq_refl Hall).
  destruct Hs as (t' & h' & -> & Hh').
  replace (DF.len window =? 0) with false by (symmetry; apply Z.eqb_neq; lia).
  destruct (Qltb 10 (t' / inject_Z (DF.len window))); [reflexivity|].
  unfold NP.div. change (Qeq_bool 1000000 0) with false. cbv iota.
  unfold NP.gt, NP.lt.
  replace (Qle_bool ((h' - 1000000) / 1000000) (11 # 10)) with true; [reflexivity|].
  symmetry. apply Qle_bool_iff.
  apply Qle_trans with (y := 0%Q); [|unfold Qle; cbn; lia].
  apply Qle_shift_div_r; [reflexivity|].
  rewrite Qmult_0_l. apply Qlt_le_weak.
  apply (Qplus_lt_l _ _ 1000000). ring_simplify. exact Hh'.
Qed.

Lemma low_atr_rejects_steady_rise_witness :
  let data := [Bar 738001 10 10 10 10 1000000 1;
               Bar 738002 10 12 10 12 1000000 20;
               Bar 738003 12 30 12 30 1000000 150] in
  0 < 3
  /\ low_atr.check_low_increase (738003, "000001", "PAB") data None 30 3 3 = Ok false.
Proof.
  intros data. split; [lia|].
  apply (low_atr_rejects_steady_rise (738003, "000001", "PAB")%string data None 30 3 3).
  - lia.
  - intros a Ha. vm_compute in Ha. inversion Ha. reflexivity.
  - intros i a b Ha Hb.
    destruct i as [|[|[|i]]]; vm_compute in Ha, Hb; inversion Ha; inversion Hb;
      reflexivity.
  - intros a Ha. vm_compute in Ha.
    repeat (apply elem_of_cons in Ha; destruct Ha as [->|Ha]; [reflexivity|]).
    inversion Ha.
Defined.

(** X16.  A turtle entry on a window is an entry on every shorter
    window: if the last close is the highest close of the last
    [threshold] bars, it is the highest close of the last [threshold']
    bars for every [0 < threshold' <= threshold]. *)
Theorem turtle_entry_on_shorter_window
    (code_name : stock) (data : list bar) (date : option Z)
    (threshold threshold' : Z) :
  0 < threshold' <= threshold ->
  turtle_trade.check_enter code_name data date threshold = Ok true ->
  turtle_trade.check_enter code_name data date threshold' = Ok true.
Proof.
  intros [Hp Hle] Hc.
  set (m := mask_end_date code_name date data) in *.
  assert (Hlen : threshold <= DF.len m).
  { unfold turtle_trade.check_enter in Hc. fold m in Hc.
    destruct (DF.len m <? threshold) eqn:E; [discriminate|].
    apply Z.ltb_ge in E. exact E. }
  destruct (check_enter_spec code_name data date threshold) as (w & last & Hw & Hs);
    [lia|exact Hlen|].
  destruct (check_enter_spec code_name data date threshold') as (w' & last' & Hw' & Hs');
    [lia|fold m; lia|].
  fold m in Hw, Hw'. rewrite Hs in Hc. rewrite Hs'. clear Hs Hs'.
  rewrite DF_tail_pos in Hw, Hw' by lia.
  unfold DF.len in Hlen.
  assert (Hd : drop (Z.to_nat threshold - Z.to_nat threshold') (w ++ [last])
               = w' ++ [last']).
  { rewrite <- Hw, <- Hw', drop_drop. f_equal. lia. }
  pose proof (take_drop (Z.to_nat threshold - Z.to_nat threshold') (w ++ [last])) as Htd.
  rewrite Hd, app_assoc in Htd.
  apply app_inj_tail in Htd. destruct Htd as [Hww <-].
  inversion Hc as [Hb]. rewrite Hb. f_equal.
  apply andb_true_iff in Hb. destruct Hb as [H0 Hall].
  rewrite H0. cbn [andb].
  rewrite <- Hww in Hall. rewrite <- app_assoc in Hall.
  rewrite forallb_app in Hall. apply andb_true_iff in Hall. apply Hall.
Qed.

Lemma turtle_entry_on_shorter_window_witness :
  0 < 20 <= 60
  /\ turtle_trade.check_enter (738059, "000001", "PAB") (rising_series 10 60) None 60
     = Ok true
  /\ turtle_trade.check_enter (738059, "000001", "PAB") (rising_series 10 60) None 20
     = Ok true.
Proof.
  assert (H1 : 0 < 20 <= 60) by lia.
  assert (H2 : turtle_trade.check_enter (738059, "000001", "PAB")%string
                 (rising_series 10 60) None 60 = Ok true) by (vm_compute; reflexivity).
  split; [exact H1|]. split; [exact H2|].
  exact (turtle_entry_on_shorter_window (738059, "000001", "PAB")%string
           (rising_series 10 60) None 60 20 H1 H2).
Defined.

(* ------------------------------------------------------------------ *)
(** ** The batch of one strategy                                        *)
(* ------------------------------------------------------------------ *)

Lemma foldl_append_filter {A} (p : A -> bool) (l : list A) : forall acc,
  foldl (fun data k => if p k then data ++ [k] else data) acc l
  = acc ++ List.filter p l.
Proof.
  induction l as [|a l IH]; intros acc; cbn [foldl List.filter].
  - rewrite app_nil_r. reflexivity.
  - rewrite IH. destruct (p a); [rewrite <- app_assoc|]; reflexivity.
Qed.

Lemma strategy_is_high_tight (S : strategy) :
  S = HighTightFlag \/ S <> HighTightFlag.
Proof. destruct S; (left; reflexivity) || (right; discriminate). Qed.

Lemma strategy_fun_istop (S : strategy) (k : stock) (series : list bar)
    (date : option Z) (b b' : bool) :
  S <> HighTightFlag ->
  strategy_fun S k series date b = strategy_fun S k series date b'.
Proof. intros H. destruct S; try reflexivity. congruence. Qed.

(** X17.  The batch of one strategy returns exactly the instruments of
    the series map on which the predicate returned true, each once, in
    the order the executor completes them; an instrument on which the
    predicate raised is left out without ending the batch, and an empty
    selection is returned as [None], never as an empty list. *)
Theorem run_check_selects_true
    (completed : list stock -> list stock)
    (stock_tops : result (option (gset string))) (tops : option (gset string))
    (S : strategy) (stocks : gmap stock (list bar)) (date : Z) :
  (forall l, completed l ≡ₚ l) ->
  (S = HighTightFlag -> stock_tops = Ok tops) ->
  let istop k :=
    match tops with
    | Some t => bool_decide (stock_code k ∈ t)
    | None => false
    end in
  exists r,
    run_check completed stock_tops S stocks date = Ok r
    /\ r <> Some []
    /\ (forall l, r = Some l -> NoDup l)
    /\ (forall k,
          (exists l, r = Some l /\ k ∈ l)
          <-> exists series,
                stocks !! k = Some series
                /\ strategy_fun S k series (Some date) (istop k) = Ok true).
Proof.
  intros Hperm Htops istop.
  set (p := fun k : stock =>
              match stocks !! k with
              | Some series =>
                  match strategy_fun S k series (Some date) (istop k) with
                  | Ok true => true
                  | _ => false
                  end
              | None => false
              end).
  set (keys := completed (map fst (map_to_list stocks))).
  assert (Hrun : run_check completed stock_tops S stocks date
                 = match List.filter p keys with
                   | [] => Ok None
                   | _ => Ok (Some (List.filter p keys))
                   end).
  { unfold run_check. fold keys.
    assert (Hstep : forall tops',
              (S = HighTightFlag -> tops' = tops) ->
              (S <> HighTightFlag -> tops' = None) ->
              forall acc,
              foldl (fun data k =>
                       match stocks !! k with
                       | None => data
                       | Some series =>
                           match strategy_fun S k series (Some date)
                                   (match tops' with
                                    | Some t => bool_decide (stock_code k ∈ t)
                                    | None => false
                                    end) with
                           | Ok true => data ++ [k]
                           | Ok false => data
                           | Raise _ => data
                           end
                       end) acc keys
              = acc ++ List.filter p keys).
    { intros tops' H1 H2 acc.
      rewrite <- foldl_append_filter. revert acc.
      induction keys as [|k ks IH]; intros acc; [reflexivity|].
      cbn [foldl]. rewrite <- IH. f_equal. unfold p.
      destruct (stocks !! k) as [series|]; [|reflexivity].
      assert (E : strategy_fun S k series (Some date)
                    (match tops' with
                     | Some t => bool_decide (stock_code k ∈ t)
                     | None => false
                     end)
                  = strategy_fun S k series (Some date) (istop k)).
      { destruct (strategy_is_high_tight S) as [Hs|Hs].
        - rewrite (H1 Hs). reflexivity.
        - apply strategy_fun_istop. exact Hs. }
      rewrite E.
      destruct (strategy_fun S k series (Some date) (istop k)) as [[|]|e]; reflexivity. }
    destruct (strategy_is_high_tight S) as [Hs|Hs].
    - subst S. rewrite (Htops eq_refl). cbn [rbind].
      rewrite (Hstep tops); [reflexivity|reflexivity|congruence].
    - assert (Hn : (match S with HighTightFlag => stock_tops | _ => Ok None end)
                   = Ok None) by (destruct S; congruence).
      rewrite Hn. cbn [rbind].
      rewrite (Hstep None); [reflexivity|congruence|reflexivity]. }
  assert (Hin : forall k, k ∈ List.filter p keys
                  <-> exists series,
                        stocks !! k = Some series
                        /\ strategy_fun S k series (Some date) (istop k) = Ok true).
  { intros k. rewrite list_elem_of_In, filter_In, <- list_elem_of_In.
    unfold keys. rewrite (Hperm _).
    change (map fst (map_to_list stocks)) with ((map_to_list stocks).*1).
    split.
    - intros [_ Hp]. unfold p in Hp.
      destruct (stocks !! k) as [series|]; [|discriminate].
      exists series. split; [reflexivity|].
      destruct (strategy_fun S k series (Some date) (istop k)) as [[|]|e];
        [reflexivity|discriminate|discriminate].
    - intros (series & Hk & Hs). split.
      + apply list_elem_of_fmap. exists (k, series). split; [reflexivity|].
        apply elem_of_map_to_list. exact Hk.
      + unfold p. rewrite Hk, Hs. reflexivity. }
  assert (Hnd : NoDup (List.filter p keys)).
  { apply NoDup_ListNoDup, List.NoDup_filter, NoDup_ListNoDup. unfold keys.
    rewrite (Hperm _). apply NoDup_fst_map_to_list. }
  rewrite Hrun.
  destruct (List.filter p keys) as [|k0 sel] eqn:Ef.
  - exists None. split; [reflexivity|]. split; [discriminate|].
    split; [discriminate|].
    intros k. rewrite <- Hin. split.
    + intros (l & H & _). discriminate.
    + intros H. inversion H.
  - exists (Some (k0 :: sel)). split; [reflexivity|].
    split; [discriminate|]. split; [intros l H; inversion H; subst; exact Hnd|].
    intros k. rewrite <- Hin. split.
    + intros (l & H & Hk). inversion H; subst. exact Hk.
    + intros Hk. exists (k0 :: sel). split; [reflexivity|exact Hk].
Qed.

Lemma run_check_selects_true_witness :
  let k := (738059, "000001", "PAB") in
  let stocks : gmap stock (list bar) := {[ k := rising_series 10 60 ]} in
  exists r,
    run_check (fun l => rev l) (Ok None) TurtleTrade stocks 738059 = Ok r
    /\ exists l, r = Some l /\ k ∈ l.
Proof.
  intros k stocks.
  destruct (run_check_selects_true (fun l => rev l) (Ok None) None TurtleTrade
              stocks 738059) as (r & Hr & _ & _ & Hk).
  - intros l. symmetry. apply Permutation_rev.
  - intros H. discriminate H.
  - exists r. split; [exact Hr|]. apply Hk.
    exists (rising_series 10 60). split.
    + unfold stocks. apply lookup_singleton_eq.
    + vm_compute. reflexivity.
Defined.

(* ------------------------------------------------------------------ *)
(** ** What a selection by the two pattern predicates contains         *)
(* ------------------------------------------------------------------ *)

Lemma parking_apron_scan_true code_name origin_data data threshold rows :
  parking_apron.scan code_name origin_data data threshold rows = Ok true ->
  exists b,
    b ∈ rows /\ (95 # 10 < bar_p_change b)%Q
    /\ turtle_trade.check_enter code_name origin_data (Some (bar_date b)) threshold
       = Ok true
    /\ parking_apron.check_internal data (bar_close b, bar_date b) = true.
Proof.
  induction rows as [|b rows IH]; [discriminate|].
  cbn [parking_apron.scan]. unfold parking_apron.date_argument. cbn [rbind].
  intros H.
  assert (Hrest : parking_apron.scan code_name origin_data data threshold rows = Ok true ->
                  exists b0,
                    b0 ∈ b :: rows /\ (95 # 10 < bar_p_change b0)%Q
                    /\ turtle_trade.check_enter code_name origin_data
                         (Some (bar_date b0)) threshold = Ok true
                    /\ parking_apron.check_internal data (bar_close b0, bar_date b0)
                       = true).
  { intros Hr. destruct (IH Hr) as (b0 & Hin & Hb0). exists b0.
    split; [apply elem_of_cons; right; exact Hin|exact Hb0]. }
  destruct (Qltb (95 # 10) (bar_p_change b)) eqn:Ep; [|exact (Hrest H)].
  destruct (turtle_trade.check_enter code_name origin_data (Some (bar_date b)) threshold)
    as [[|]|e] eqn:Et; cbn [rbind] in H; [|exact (Hrest H)|discriminate].
  destruct (parking_apron.check_internal data (bar_close b, bar_date b)) eqn:Ei;
    [|exact (Hrest H)].
  exists b. split; [apply list_elem_of_here|]. split; [apply Qltb_lt; exact Ep|].
  split; [exact Et|exact Ei].
Qed.

Lemma parking_apron_internal_true (data : list bar) (price : Q) (day : Z) :
  parking_apron.check_internal data (price, day) = true ->
  exists d1 d2 d3 rest,
    filter (fun x => day <? bar_date x) data = d1 :: d2 :: d3 :: rest
    /\ Forall (fun d => (price < bar_close d)%Q /\ (price < bar_open d)%Q) [d1; d2; d3]
    /\ Forall (fun d => (-5 < bar_p_change d)%Q /\ (bar_p_change d < 5)%Q) [d2; d3].
Proof.
  unfold parking_apron.check_internal. cbn [fst snd].
  destruct (filter (fun x => day <? bar_date x) data) as [|d1 [|d2 [|d3 rest]]].
  { change (DF.len (DF.head 3 (@nil bar)) <? 3) with true. cbv iota. discriminate. }
  { change (DF.len (DF.head 3 [d1]) <? 3) with true. cbv iota. discriminate. }
  { change (DF.len (DF.head 3 [d1; d2]) <? 3) with true. cbv iota. discriminate. }
  change (DF.head 3 (d1 :: d2 :: d3 :: rest)) with [d1; d2; d3].
  change (DF.len [d1; d2; d3] <? 3) with false. cbv iota.
  change (DF.tail 2 [d1; d2; d3]) with [d2; d3].
  destruct (Qltb price (bar_close d1)) eqn:E1; [|discriminate].
  destruct (Qltb price (bar_open d1)) eqn:E2; [|discriminate].
  cbn [andb forallb].
  destruct (between _ _ _); [|discriminate]. cbn [negb].
  rewrite !andb_true_iff, !Qltb_lt.
  intros ((((_ & H2a & H2b) & H2c) & H2d) & (((_ & H3a & H3b) & H3c) & H3d) & _).
  exists d1, d2, d3, rest. split; [reflexivity|].
  apply Qltb_lt in E1, E2.
  split; repeat constructor; assumption.
Qed.

(** X18.  An instrument selected by the parking-apron predicate has, in
    the window, a bar with a change above 9.5 that is a turtle entry as
    of its own date, followed in the window by at least three bars, the
    first three of which all close and open above the close of that
    bar, the second and third with a change strictly between -5 and
    5. *)
Theorem parking_apron_true_has_consolidation
    (code_name : stock) (data : list bar) (date : option Z) (threshold : Z) :
  let window := DF.tail threshold (mask_end_date code_name date data) in
  parking_apron.check code_name data date threshold = Ok true ->
  exists b d1 d2 d3 rest,
    b ∈ window /\ (95 # 10 < bar_p_change b)%Q
    /\ turtle_trade.check_enter code_name data (Some (bar_date b)) threshold = Ok true
    /\ filter (fun x => bar_date b <? bar_date x) window = d1 :: d2 :: d3 :: rest
    /\ Forall (fun d => (bar_close b < bar_close d)%Q /\ (bar_close b < bar_open d)%Q)
              [d1; d2; d3]
    /\ Forall (fun d => (-5 < bar_p_change d)%Q /\ (bar_p_change d < 5)%Q) [d2; d3].
Proof.
  intros window. unfold parking_apron.check.
  destruct (DF.len (mask_end_date code_name date data) <? threshold); [discriminate|].
  fold window. intros H.
  apply parking_apron_scan_true in H. destruct H as (b & Hin & Hp & Ht & Hi).
  apply parking_apron_internal_true in Hi.
  destruct Hi as (d1 & d2 & d3 & rest & Hf & H123 & H23).
  exists b, d1, d2, d3, rest. repeat split; assumption.
Qed.

Lemma parking_apron_true_has_consolidation_witness :
  parking_apron.check (738007, "000001", "PAB") apron_series None 4 = Ok true
  /\ exists b,
       b ∈ DF.tail 4 (mask_end_date (738007, "000001", "PAB") None apron_series)
       /\ (95 # 10 < bar_p_change b)%Q.
Proof.
  assert (H : parking_apron.check (738007, "000001", "PAB")%string apron_series None 4
              = Ok true) by (vm_compute; reflexivity).
  split; [exact H|].
  destruct (parking_apron_true_has_consolidation (738007, "000001", "PAB")%string
              apron_series None 4 H) as (b & _ & _ & _ & _ & Hin & Hp & _).
  exists b. split; [exact Hin|exact Hp].
Defined.





(* ------------------------------------------------------------------ *)
(** ** The pullback predicate                                           *)
(* ------------------------------------------------------------------ *)

(** The fourth test of the loop of [low_backtrace_increase], on the
    first bar, where [previous_open] is still -1000000. *)
Lemma first_bar_against_initial_open (c : Q) :
  (- 900000 < c)%Q ->
  NP.lt (NP.mul (NP.div (Fin (c - (-1000000))) (Fin (-1000000))) (Fin 100))
        (Fin (-10)) = true.
Proof.
  intros Hc. unfold NP.div. change (Qeq_bool (-1000000) 0) with false. cbv iota.
  unfold NP.mul, NP.lt.
  change (negb (Qle_bool (-10) ((c - -1000000) / -1000000 * 100)))
    with (Qltb ((c - -1000000) / -1000000 * 100) (-10)).
  apply Qltb_lt.
  assert (E : ((c - -1000000) / -1000000 * 100 == - (c + 1000000) / 10000)%Q)
    by (field; split; discriminate).
  rewrite E. apply Qlt_shift_div_r; [reflexivity|]. lra.
Qed.

(** X20.  The pullback predicate [low_backtrace_increase.check] never
    selects an instrument whose closes are above -900000, so none with
    positive prices: on the first bar of the window the close is
    compared with the initial previous open of -1000000, a fall of more
    than 10% by the formula, and the loop returns False.  With a
    positive [threshold] the call returns False without raising. *)
Theorem low_backtrace_never_selects
    (code_name : stock) (data : list bar) (date : option Z) (threshold : Z) :
  (forall b, b ∈ data -> (- 900000 < bar_close b)%Q) ->
  low_backtrace_increase.check code_name data date threshold <> Ok true
  /\ (0 < threshold ->
      low_backtrace_increase.check code_name data date threshold = Ok false).
Proof.
  intros Hpos. unfold low_backtrace_increase.check.
  set (m := mask_end_date code_name date data).
  assert (Hm : forall b, b ∈ m -> (- 900000 < bar_close b)%Q).
  { intros b Hb. apply Hpos. unfold m, mask_end_date in Hb.
    apply list_elem_of_filter in Hb. apply Hb. }
  destruct (DF.len m <? threshold) eqn:E.
  { split; [discriminate|reflexivity]. }
  apply Z.ltb_ge in E.
  set (w := DF.tail threshold m).
  assert (Hw : forall b, b ∈ w -> (- 900000 < bar_close b)%Q).
  { intros b Hb. apply Hm. unfold w, DF.tail in Hb.
    destruct (threshold =? 0); [inversion Hb|].
    destruct (0 <? threshold); exact (subseteq_drop _ _ _ Hb). }
  destruct w as [|b w'] eqn:Ew.
  - change (DF.iloc (-1) (@nil bar)) with (@Raise bar IndexError). cbn [rbind].
    split; [discriminate|]. intros Ht. exfalso.
    pose proof (DF_tail_length threshold m Ht E) as Hl.
    fold w in Hl. rewrite Ew in Hl. cbn in Hl. lia.
  - destruct (DF_iloc_last_exists (b :: w')) as (last & Hl); [unfold DF.len; cbn [length]; lia|].
    rewrite Hl, DF_iloc_first. cbn [rbind].
    assert (Hs : low_backtrace_increase.scan 100 (-1000000) (b :: w') = false).
    { cbn [low_backtrace_increase.scan]. cbv zeta.
      rewrite first_bar_against_initial_open
        by (apply Hw; apply list_elem_of_here).
      rewrite !orb_true_r. reflexivity. }
    rewrite Hs.
    destruct (NP.lt _ _); split; try discriminate; reflexivity.
Qed.

Lemma low_backtrace_never_selects_witness :
  let data := [Bar 738001 10 10 10 10 1000000 1;
               Bar 738002 10 12 10 12 1000000 20;
               Bar 738003 12 30 12 30 1000000 150] in
  (forall b, b ∈ data -> (- 900000 < bar_close b)%Q)
  /\ low_backtrace_increase.check (738003, "000001", "PAB") data None 3 = Ok false.
Proof.
  intros data.
  assert (H : forall b, b ∈ data -> (- 900000 < bar_close b)%Q).
  { intros b Hb. unfold data in Hb.
    repeat (apply elem_of_cons in Hb; destruct Hb as [->|Hb]; [reflexivity|]).
    inversion Hb. }
  split; [exact H|].
  apply (low_backtrace_never_selects (738003, "000001", "PAB")%string data None 3 H).
  lia.
Defined.

(* ------------------------------------------------------------------ *)
(** ** More on the forward returns                                      *)
(* ------------------------------------------------------------------ *)

(** X21.  A recorded forward return is the exact percent return on the
    entry close rounded to hundredths, as binary64 allows: for closes
    of magnitude between 1e-6 and 1e9 the cell is the double nearest to
    a number of hundredths [n / 100] that is within 0.005, plus the
    float error of the operations (below 1e-15 of the return's
    magnitude plus one), of [100*(close - close1)/close1].  When the
    entry close is zero the cell is an infinity or NaN, never a
    finite number, and nothing is raised. *)
Theorem forward_return_is_rounded_percent (close1 x : Q) :
  (((1 # 1000000) <= Qabs close1)%Q -> (Qabs close1 <= 1000000000)%Q ->
   (Qabs x <= 1000000000)%Q ->
   exists (n : Z) (r : Q),
     sum_pct_change close1 x = Fin r
     /\ B64.round (inject_Z n / 100) = Fin r
     /\ (Qabs (inject_Z n / 100 - spec_percent_return (double_of close1) (double_of x))
         <= (1 # 200)
            + (Qabs (spec_percent_return (double_of close1) (double_of x)) + 1)
              * (1 # 1000000000000000))%Q)
  /\ ((close1 == 0)%Q -> forall r, sum_pct_change close1 x <> Fin r).
Proof.
  split; [apply sum_pct_change_accuracy|].
  intros Hc r.
  assert (E : Qeq_bool close1 0 = true) by (apply Qeq_bool_iff; exact Hc).
  unfold sum_pct_change, pct_change.
  assert (Hz : B64.round close1 = Fin 0) by (unfold B64.round; rewrite E; reflexivity).
  rewrite Hz.
  set (m := B64.mul (Fin 100) (B64.sub (B64.round x) (Fin 0))).
  assert (Hy : B64.div m (Fin 0) = NaN \/ B64.div m (Fin 0) = PInf
               \/ B64.div m (Fin 0) = NInf).
  { unfold B64.div. destruct m as [q| | |]; cbn [NP.div].
    - change (Qeq_bool 0 0) with true. cbv iota.
      destruct (NP.sgn q); cbn; auto.
    - cbn. auto.
    - cbn. auto.
    - cbn. auto. }
  destruct Hy as [->|[->| ->]]; vm_compute; discriminate.
Qed.

Lemma forward_return_is_rounded_percent_witness :
  ((1 # 1000000) <= Qabs 3)%Q /\ (Qabs 3 <= 1000000000)%Q /\ (Qabs 4 <= 1000000000)%Q
  /\ exists (n : Z) (r : Q),
       sum_pct_change 3 4 = Fin r /\ B64.round (inject_Z n / 100) = Fin r.
Proof.
  assert (H1 : ((1 # 1000000) <= Qabs 3)%Q) by (vm_compute; discriminate).
  assert (H2 : (Qabs 3 <= 1000000000)%Q) by (vm_compute; discriminate).
  assert (H3 : (Qabs 4 <= 1000000000)%Q) by (vm_compute; discriminate).
  split; [exact H1|]. split; [exact H2|]. split; [exact H3|].
  destruct (forward_return_is_rounded_percent 3 4) as [Hf _].
  destruct (Hf H1 H2 H3) as (n & r & Hr & Hn & _).
  exists n, r. split; [exact Hr|exact Hn].
Defined.

(** X22.  When at least two bars are scored and the column list is
    shorter than the entry date, the code and one name per scored bar
    after the first, the scorer raises [ValueError] (the series cannot
    take more values than it has names): nothing truncates the returns
    to the columns. *)
Theorem get_rates_too_few_columns
    (code_name : stock) (data : list bar) (stock_column : list string)
    (threshold : Z) :
  let scored :=
    DF.head threshold (filter (fun b => stock_date code_name <=? bar_date b) data) in
  (2 <= length scored)%nat ->
  (length stock_column < length scored + 1)%nat ->
  get_rates code_name (Some data) stock_column threshold = Raise ValueError.
Proof.
  intros scored H2 Hc. unfold get_rates. fold scored.
  unfold DF.len.
  replace (Z.of_nat (length scored) <=? 1) with false
    by (symmetry; apply Z.leb_gt; lia).
  destruct scored as [|first rest] eqn:Es; [cbn in H2; lia|].
  rewrite DF_iloc_first. unfold pd_Series.
  replace (_ =? _)%nat with false; [reflexivity|].
  symmetry. apply Nat.eqb_neq.
  rewrite !length_app, length_replicate, length_map, length_drop, length_map.
  cbn [length] in *. lia.
Qed.

Lemma get_rates_too_few_columns_witness :
  let data := [Bar 738001 10 10 10 10 1000 0; Bar 738002 10 11 10 11 1000 10;
               Bar 738003 11 12 11 12 1000 9] in
  get_rates (738001, "000001", "PAB") (Some data) ["date"; "code"; "rate_1"] 101
  = Raise ValueError.
Proof.
  intros data.
  apply (get_rates_too_few_columns (738001, "000001", "PAB")%string data
           ["date"; "code"; "rate_1"]%string 101).
  - vm_compute. lia.
  - vm_compute. lia.
Defined.

Lemma filter_keeps_all {A} (p : A -> bool) (l : list A) :
  (forall a, a ∈ l -> p a = true) -> filter (fun a => p a) l = l.
Proof.
  induction l as [|a l IH]; intros H; [reflexivity|].
  rewrite filter_cons_True by (apply Is_true_true, H, list_elem_of_here).
  f_equal. apply IH. intros x Hx. apply H. apply elem_of_cons. right. exact Hx.
Qed.

Lemma filter_keeps_none {A} (p : A -> bool) (l : list A) :
  (forall a, a ∈ l -> p a = false) -> filter (fun a => p a) l = [].
Proof.
  induction l as [|a l IH]; intros H; [reflexivity|].
  rewrite filter_cons_False
    by (rewrite (H a (list_elem_of_here _ _)); exact id).
  apply IH. intros x Hx. apply H. apply elem_of_cons. right. exact Hx.
Qed.

(** X23.  The record depends only on the first [threshold] bars on or
    after the entry date: bars before the entry date, and bars after
    those [threshold], change nothing. *)
Theorem get_rates_depends_on_scored_bars
    (code_name : stock) (before scored after : list bar)
    (stock_column : list string) (threshold : Z) :
  (forall b, b ∈ before -> bar_date b < stock_date code_name) ->
  (forall b, b ∈ scored -> stock_date code_name <= bar_date b) ->
  0 <= threshold <= DF.len scored ->
  get_rates code_name (Some (before ++ scored ++ after)) stock_column threshold
  = get_rates code_name (Some scored) stock_column threshold.
Proof.
  intros Hb Hs [H0 Hl]. unfold get_rates.
  rewrite !filter_app.
  rewrite (filter_keeps_none (fun b => stock_date code_name <=? bar_date b) before)
    by (intros b Hin; apply Z.leb_gt, Hb, Hin).
  rewrite (filter_keeps_all (fun b => stock_date code_name <=? bar_date b) scored)
    by (intros b Hin; apply Z.leb_le, Hs, Hin).
  cbn [app]. rewrite !DF_head_nonneg by exact H0.
  unfold DF.len in Hl. rewrite take_app_le by lia. reflexivity.
Qed.

Lemma get_rates_depends_on_scored_bars_witness :
  let before := [Bar 738000 9 9 9 9 1000 0] in
  let scored := [Bar 738001 10 10 10 10 1000 0; Bar 738002 10 11 10 11 1000 10] in
  let after := [Bar 738003 11 12 11 12 1000 9] in
  get_rates (738001, "000001", "PAB") (Some (before ++ scored ++ after))
    ["date"; "code"; "rate_1"] 2
  = get_rates (738001, "000001", "PAB") (Some scored) ["date"; "code"; "rate_1"] 2.
Proof.
  intros before scored after.
  apply (get_rates_depends_on_scored_bars (738001, "000001", "PAB")%string
           before scored after ["date"; "code"; "rate_1"]%string 2).
  - intros b Hb. unfold before in Hb.
    repeat (apply elem_of_cons in Hb; destruct Hb as [->|Hb]; [reflexivity|]).
    inversion Hb.
  - intros b Hb. unfold scored in Hb.
    repeat (apply elem_of_cons in Hb; destruct Hb as [->|Hb]; [vm_compute; discriminate|]).
    inversion Hb.
  - vm_compute. split; discriminate.
Defined.

(* ------------------------------------------------------------------ *)
(** ** The back-test batch                                              *)
(* ------------------------------------------------------------------ *)

(** X24.  As the back-test batch calls it (the column list and
    [threshold] one less than its length), the scorer never raises:
    it returns no record, or a record whose index is exactly the column
    list. *)
Theorem get_rates_as_called_by_backtest
    (code_name : stock) (data : option (list bar)) (backtest_column : list string) :
  (1 <= length backtest_column)%nat ->
  get_rates code_name data backtest_column (Z.of_nat (length backtest_column) - 1)
  = Ok None
  \/ exists record,
       get_rates code_name data backtest_column
         (Z.of_nat (length backtest_column) - 1) = Ok (Some record)
       /\ record.*1 = backtest_column.
Proof.
  intros HL. destruct data as [data|]; [|left; reflexivity].
  unfold get_rates. rewrite DF_head_nonneg by lia.
  set (f := filter (fun b => stock_date code_name <=? bar_date b) data).
  pose proof (length_take f (Z.to_nat (Z.of_nat (length backtest_column) - 1))) as Hlen.
  destruct (take (Z.to_nat (Z.of_nat (length backtest_column) - 1)) f)
    as [|first [|b rest]]; [left; reflexivity|left; reflexivity|].
  right. unfold DF.len. cbn [length] in *.
  replace (Z.of_nat (S (S (length rest))) <=? 1) with false
    by (symmetry; apply Z.leb_gt; lia).
  rewrite DF_iloc_first. cbn [map drop]. unfold pd_Series.
  match goal with |- context [(length ?v =? _)%nat] => set (values := v) end.
  assert (Hv : length values = length backtest_column).
  { unfold values. rewrite !length_app, length_replicate.
    cbn [length]. rewrite !length_map. lia. }
  replace (length values =? length backtest_column)%nat with true
    by (symmetry; apply Nat.eqb_eq; exact Hv).
  cbn [rbind]. eexists. split; [reflexivity|].
  apply fst_zip. lia.
Qed.

Lemma get_rates_as_called_by_backtest_witness :
  let cols := ["date"; "code"; "rate_1"; "rate_2"; "rate_3"] in
  let data := [Bar 738001 10 10 10 10 1000 0; Bar 738002 10 11 10 11 1000 10;
               Bar 738003 11 12 11 12 1000 9] in
  (1 <= length cols)%nat
  /\ exists record,
       get_rates (738001, "000001", "PAB") (Some data) cols (Z.of_nat (length cols) - 1)
       = Ok (Some record)
       /\ record.*1 = cols.
Proof.
  intros cols data.
  assert (H : (1 <= length cols)%nat) by (cbn; lia).
  split; [exact H|].
  destruct (get_rates_as_called_by_backtest (738001, "000001", "PAB")%string
              (Some data) cols H) as [Hn|Hr].
  - vm_compute in Hn. discriminate Hn.
  - exact Hr.
Defined.

(** The dict filled by the loop over the finished futures: an entry is
    the record of a key that was visited, or was there before. *)
Lemma collect_records {V} (g : stock -> result (option V)) (l : list stock) :
  forall (acc : gmap stock V),
    (forall k v, acc !! k = Some v -> g k = Ok (Some v)) ->
    forall k v,
      foldl (fun (data : gmap stock V) stock =>
               match g stock with
               | Ok (Some _data_) => <[stock := _data_]> data
               | Ok None => data
               | Raise _ => data
               end) acc l !! k = Some v
      <-> acc !! k = Some v \/ (k ∈ l /\ g k = Ok (Some v)).
Proof.
  induction l as [|a l IH]; intros acc Hacc k v; cbn [foldl].
  - split; [intros H; left; exact H|].
    intros [H|[H _]]; [exact H|inversion H].
  - rewrite IH.
    + destruct (g a) as [[va|]|e] eqn:Ea.
      * destruct (decide (k = a)) as [->|Hne].
        -- rewrite lookup_insert_eq. split.
           ++ intros [H|[Hin Hg]].
              ** right. split; [apply list_elem_of_here|congruence].
              ** right. split; [apply elem_of_cons; right; exact Hin|exact Hg].
           ++ intros [H|[_ Hg]]; left.
              ** apply Hacc in H. congruence.
              ** congruence.
        -- rewrite lookup_insert_ne by congruence. rewrite elem_of_cons. split.
           ++ intros [H|[Hin Hg]]; [left; exact H|right; split; [right; exact Hin|exact Hg]].
           ++ intros [H|[[Hk|Hin] Hg]]; [left; exact H|congruence|right; split; assumption].
      * rewrite elem_of_cons. split.
        -- intros [H|[Hin Hg]]; [left; exact H|right; split; [right; exact Hin|exact Hg]].
        -- intros [H|[[Hk|Hin] Hg]]; [left; exact H|subst; congruence|right; split; assumption].
      * rewrite elem_of_cons. split.
        -- intros [H|[Hin Hg]]; [left; exact H|right; split; [right; exact Hin|exact Hg]].
        -- intros [H|[[Hk|Hin] Hg]]; [left; exact H|subst; congruence|right; split; assumption].
    + intros k' v' H. destruct (g a) as [[va|]|e] eqn:Ea; try (apply Hacc; exact H).
      destruct (decide (k' = a)) as [->|Hne].
      * rewrite lookup_insert_eq in H. congruence.
      * rewrite lookup_insert_ne in H by congruence. apply Hacc. exact H.
Qed.

(** X25.  The back-test batch returns, for exactly the signal rows whose
    instrument the scorer gave a record for, that record; the series of
    a row is looked up under the date of the series map, not under the
    row's own date; a row without a series, with fewer than two bars to
    score, or whose call raised, gets no entry; and an empty result is
    returned as [None]. *)
Theorem backtest_run_check_records
    (completed : list stock -> list stock) (stocks : list stock)
    (data_all : gmap stock (list bar)) (date : Z) (backtest_column : list string) :
  (forall l, completed l ≡ₚ l) ->
  backtest_data_daily_job.run_check completed stocks data_all date backtest_column
  <> Some ∅
  /\ forall k record,
       (exists results,
          backtest_data_daily_job.run_check completed stocks data_all date
            backtest_column = Some results
          /\ results !! k = Some record)
       <-> k ∈ stocks
           /\ get_rates k (data_all !! (date, stock_code k, k.2)) backtest_column
                (Z.of_nat (length backtest_column) - 1) = Ok (Some record).
Proof.
  intros Hperm. unfold backtest_data_daily_job.run_check.
  set (g := fun k : stock =>
              get_rates k (data_all !! (date, stock_code k, k.2)) backtest_column
                (Z.of_nat (length backtest_column) - 1)).
  pose proof (collect_records g (completed stocks) ∅) as Hc.
  cbv beta in Hc.
  match type of Hc with
  | _ -> forall k v, ?m !! k = Some v <-> _ => set (data := m) in *
  end.
  assert (Hd : forall k v, data !! k = Some v <-> k ∈ stocks /\ g k = Ok (Some v)).
  { intros k v. rewrite Hc by (intros k' v' H; rewrite lookup_empty in H; discriminate).
    rewrite lookup_empty, (Hperm stocks). split.
    - intros [H|H]; [discriminate|exact H].
    - intros H. right. exact H. }
  change (foldl _ ∅ (completed stocks)) with data.
  destruct (decide (data = ∅)) as [He|Hne].
  - split; [discriminate|]. intros k record.
    change (get_rates k _ _ _) with (g k). rewrite <- Hd. split.
    + intros (results & H & _). discriminate.
    + intros H. rewrite He, lookup_empty in H. discriminate.
  - split; [congruence|]. intros k record.
    change (get_rates k _ _ _) with (g k). rewrite <- Hd. split.
    + intros (results & H & Hk). inversion H; subst. exact Hk.
    + intros H. exists data. split; [reflexivity|exact H].
Qed.

Lemma backtest_run_check_records_witness :
  let k := (738001, "000001", "PAB") in
  let data := [Bar 738001 10 10 10 10 1000 0; Bar 738002 10 11 10 11 1000 10] in
  let data_all : gmap stock (list bar) := {[ (738002, "000001", "PAB") := data ]} in
  exists results record,
    backtest_data_daily_job.run_check (fun l => rev l) [k] data_all 738002
      ["date"; "code"; "rate_1"] = Some results
    /\ results !! k = Some record.
Proof.
  intros k data data_all.
  destruct (backtest_run_check_records (fun l => rev l) [k] data_all 738002
              ["date"; "code"; "rate_1"]%string) as [_ H].
  - intros l. symmetry. apply Permutation_rev.
  - destruct (H k [("date", CDate 738001); ("code", CCode "000001");
                   ("rate_1", CRate (Fin 10))]%string) as [_ Hr].
    destruct Hr as (results & Hres & Hk).
    + split; [apply list_elem_of_here|].
      unfold data_all, k. cbn [stock_code fst snd].
      rewrite lookup_singleton_eq. vm_compute. reflexivity.
    + exists results. eexists. split; [exact Hres|exact Hk].
Defined.

(* ------------------------------------------------------------------ *)
(** ** No predicate raises                                              *)
(* ------------------------------------------------------------------ *)

Lemma DF_iloc_nonneg_exists {A} (i : Z) (l : list A) :
  0 <= i < DF.len l -> exists a, DF.iloc i l = Ok a.
Proof.
  unfold DF.len, DF.iloc. intros [H0 H1].
  replace (i <? 0) with false by (symmetry; apply Z.ltb_ge; lia).
  replace ((0 <=? i) && (i <? Z.of_nat (length l))) with true
    by (symmetry; apply andb_true_iff; split; [apply Z.leb_le|apply Z.ltb_lt]; lia).
  destruct (lookup_lt_is_Some_2 l (Z.to_nat i)) as [a Ha]; [lia|].
  rewrite Ha. exists a. reflexivity.
Qed.

Lemma DF_tail_len {A} (n : Z) (l : list A) :
  0 < n -> n <= DF.len l -> DF.len (DF.tail n l) = n.
Proof.
  intros H0 H1. unfold DF.len. rewrite (DF_tail_length n l H0 H1). lia.
Qed.

Lemma turtle_returns (code_name : stock) (data : list bar) (date : option Z)
    (threshold : Z) :
  0 < threshold ->
  exists b, turtle_trade.check_enter code_name data date threshold = Ok b.
Proof.
  intros Ht. unfold turtle_trade.check_enter.
  destruct (DF.len (mask_end_date code_name date data) <? threshold) eqn:E;
    [eexists; reflexivity|].
  apply Z.ltb_ge in E.
  destruct (DF_iloc_last_exists (DF.tail threshold (mask_end_date code_name date data)))
    as (last & Hl); [rewrite DF_tail_len; lia|].
  rewrite Hl. cbn [rbind]. destruct (Qleb _ _); eexists; reflexivity.
Qed.

Lemma volume_ratio_check_returns (data : list bar) (threshold : Z) (min_ratio : Q) :
  0 < threshold ->
  exists b, volume_ratio_check data threshold min_ratio = Ok b.
Proof.
  intros Ht. unfold volume_ratio_check.
  set (w := DF.tail (threshold + 1) (zip data (MA (map bar_volume data) 5))).
  destruct (DF.len w <? threshold + 1) eqn:E; [eexists; reflexivity|].
  apply Z.ltb_ge in E.
  destruct (DF_iloc_last_exists w) as (last & Hl); [lia|].
  rewrite Hl. cbn [rbind].
  destruct (Qltb _ _); [eexists; reflexivity|].
  destruct (DF_iloc_last_exists (DF.head threshold w)) as (prev & Hp).
  { rewrite DF_head_nonneg by lia. unfold DF.len in *. rewrite length_take. lia. }
  rewrite Hp. cbn [rbind]. destruct (NP.ge _ _); eexists; reflexivity.
Qed.

Lemma enter_returns (code_name : stock) (data : list bar) (date : option Z)
    (threshold : Z) :
  0 < threshold ->
  exists b, enter.check_volume code_name data date threshold = Ok b.
Proof.
  intros Ht. unfold enter.check_volume.
  destruct (DF.len (mask_end_date code_name date data) <? threshold) eqn:E;
    [eexists; reflexivity|].
  apply Z.ltb_ge in E.
  destruct (DF_iloc_last_exists (mask_end_date code_name date data)) as (last & Hl);
    [lia|].
  rewrite Hl. cbn [rbind].
  destruct (_ || _); [eexists; reflexivity|].
  apply volume_ratio_check_returns. exact Ht.
Qed.

Lemma climax_returns (code_name : stock) (data : list bar) (date : option Z)
    (threshold : Z) :
  0 < threshold ->
  exists b, climax_limitdown.check code_name data date threshold = Ok b.
Proof.
  intros Ht. unfold climax_limitdown.check.
  destruct (DF.len (mask_end_date code_name date data) <? threshold) eqn:E;
    [eexists; reflexivity|].
  apply Z.ltb_ge in E.
  destruct (DF_iloc_last_exists (mask_end_date code_name date data)) as (last & Hl);
    [lia|].
  rewrite Hl. cbn [rbind].
  destruct (Qltb _ _); [eexists; reflexivity|].
  apply volume_ratio_check_returns. exact Ht.
Qed.

Lemma parking_apron_returns (code_name : stock) (data : list bar) (date : option Z)
    (threshold : Z) :
  0 < threshold ->
  exists b, parking_apron.check code_name data date threshold = Ok b.
Proof.
  intros Ht. unfold parking_apron.check.
  destruct (DF.len (mask_end_date code_name date data) <? threshold);
    [eexists; reflexivity|].
  generalize (DF.tail threshold (mask_end_date code_name date data)) at 1 as window.
  generalize (DF.tail threshold (mask_end_date code_name date data)) as rows.
  induction rows as [|b rows IH]; intros window; [eexists; reflexivity|].
  cbn [parking_apron.scan]. unfold parking_apron.date_argument. cbn [rbind].
  destruct (Qltb _ _); [|apply IH].
  destruct (turtle_returns code_name data (Some (bar_date b)) threshold Ht) as ([|] & ->);
    cbn [rbind]; [|apply IH].
  destruct (parking_apron.check_internal _ _); [eexists; reflexivity|apply IH].
Qed.

Lemma breakthrough_returns (code_name : stock) (data : list bar) (date : option Z)
    (threshold : Z) :
  0 < threshold ->
  exists b, breakthrough_platform.check code_name data date threshold = Ok b.
Proof.
  intros Ht. unfold breakthrough_platform.check.
  destruct (DF.len (mask_end_date code_name date data) <? threshold);
    [eexists; reflexivity|].
  match goal with
  | |- context [breakthrough_platform.find_breakthrough _ _ _ ?w] =>
      assert (Hf : exists r,
                 breakthrough_platform.find_breakthrough code_name data threshold w
                 = Ok r)
  end.
  { match goal with |- context [_ _ _ _ ?w = Ok _] => generalize w end.
    intros rows. induction rows as [|[b m] rows IH]; [eexists; reflexivity|].
    cbn [breakthrough_platform.find_breakthrough].
    unfold breakthrough_platform.date_argument. cbn [rbind].
    destruct (_ && _); [|exact IH].
    destruct (enter_returns code_name data (Some (bar_date b)) threshold Ht)
      as ([|] & ->); cbn [rbind]; [eexists; reflexivity|exact IH]. }
  destruct Hf as (r & ->). cbn [rbind]. destruct r; eexists; reflexivity.
Qed.

Lemma keep_increasing_returns (code_name : stock) (data : list bar) (date : option Z) :
  exists b, keep_increasing.check code_name data date 30 = Ok b.
Proof.
  unfold keep_increasing.check.
  set (m := mask_end_date code_name date data).
  destruct (DF.len m <? 30) eqn:E; [eexists; reflexivity|].
  apply Z.ltb_ge in E.
  set (w := DF.tail 30 (zip m (MA (map bar_close m) 30))).
  assert (Hw : DF.len w = 30).
  { unfold w. apply DF_tail_len; [lia|]. unfold DF.len in *.
    rewrite zip_MA_length. exact E. }
  change (NP.rint (inject_Z 30 / 3)) with 10.
  change (NP.rint (inject_Z 30 * 2 / 3)) with 20.
  destruct (DF_iloc_nonneg_exists 0 w) as (r0 & H0); [lia|].
  destruct (DF_iloc_nonneg_exists 10 w) as (r1 & H1); [lia|].
  destruct (DF_iloc_nonneg_exists 20 w) as (r2 & H2); [lia|].
  destruct (DF_iloc_last_exists w) as (r3 & H3); [lia|].
  rewrite H0, H1. cbn [rbind].
  destruct (negb _); [eexists; reflexivity|].
  rewrite H2. cbn [rbind].
  destruct (negb _); [eexists; reflexivity|].
  rewrite H3. cbn [rbind].
  destruct (negb _); [eexists; reflexivity|].
  destruct (Qltb _ _); eexists; reflexivity.
Qed.

Lemma high_tight_returns (code_name : stock) (data : list bar) (date : option Z)
    (istop : bool) :
  exists b, high_tight_flag.check_high_tight code_name data date 60 istop = Ok b.
Proof.
  unfold high_tight_flag.check_high_tight.
  destruct (negb istop); [eexists; reflexivity|].
  set (m := mask_end_date code_name date data).
  destruct (DF.len m <? 60) eqn:E; [eexists; reflexivity|].
  apply Z.ltb_ge in E.
  set (s := DF.head 14 (DF.tail 24 (DF.tail 60 m))).
  assert (Hs : DF.len s = 14).
  { unfold s. rewrite DF_head_nonneg by lia.
    assert (H60 : DF.len (DF.tail 60 m) = 60) by (apply DF_tail_len; lia).
    assert (H24 : DF.len (DF.tail 24 (DF.tail 60 m)) = 24)
      by (apply DF_tail_len; lia).
    unfold DF.len in *. rewrite length_take. lia. }
  destruct (DF_iloc_last_exists s) as (last & Hl); [lia|].
  destruct s as [|b0 s'] eqn:Es; [unfold DF.len in Hs; cbn in Hs; lia|].
  cbn [map high_tight_flag.values_min rbind]. rewrite Hl. cbn [rbind].
  destruct (NP.lt _ _); eexists; reflexivity.
Qed.

Lemma low_atr_returns (code_name : stock) (data : list bar) (date : option Z)
    (ma_short ma_long threshold : Z) :
  0 < threshold ->
  exists b,
    low_atr.check_low_increase code_name data date ma_short ma_long threshold = Ok b.
Proof.
  intros Ht. unfold low_atr.check_low_increase.
  destruct (_ <? ma_long); [eexists; reflexivity|].
  set (w := DF.tail threshold (mask_end_date code_name date data)).
  destruct (DF.len w <? threshold) eqn:E; [eexists; reflexivity|].
  apply Z.ltb_ge in E.
  destruct (low_atr.scan w) as [[t h] lo].
  replace (DF.len w =? 0) with false by (symmetry; apply Z.eqb_neq; lia).
  destruct (Qltb _ _); [eexists; reflexivity|].
  destruct (NP.gt _ _); eexists; reflexivity.
Qed.

Lemma low_backtrace_returns (code_name : stock) (data : list bar) (date : option Z)
    (threshold : Z) :
  0 < threshold ->
  exists b, low_backtrace_increase.check code_name data date threshold = Ok b.
Proof.
  intros Ht. unfold low_backtrace_increase.check.
  set (m := mask_end_date code_name date data).
  destruct (DF.len m <? threshold) eqn:E; [eexists; reflexivity|].
  apply Z.ltb_ge in E.
  pose proof (DF_tail_len threshold m Ht E) as Hw.
  destruct (DF_iloc_last_exists (DF.tail threshold m)) as (last & Hl); [lia|].
  destruct (DF_iloc_nonneg_exists 0 (DF.tail threshold m)) as (first & Hf); [lia|].
  rewrite Hl, Hf. cbn [rbind].
  destruct (NP.lt _ _); eexists; reflexivity.
Qed.

(** The highest row is the initial one or that of a bar of the
    window. *)
Lemma extremes_highest (w : list (bar * Q)) :
  (backtrace_ma250.extremes w).1 = (0%Q, 0%Q, None)
  \/ exists r, r ∈ w
       /\ (backtrace_ma250.extremes w).1
          = (bar_close r.1, bar_volume r.1, Some (bar_date r.1)).
Proof.
  unfold backtrace_ma250.extremes.
  set (step := fun '(highest_row, lowest_row) (r : bar * Q) => _).
  assert (H : forall (l : list (bar * Q)) (acc : backtrace_ma250.row * backtrace_ma250.row),
             (acc.1 = (0%Q, 0%Q, None)
              \/ exists r, r ∈ w
                   /\ acc.1 = (bar_close r.1, bar_volume r.1, Some (bar_date r.1))) ->
             (forall r, r ∈ l -> r ∈ w) ->
             (fold_left step l acc).1 = (0%Q, 0%Q, None)
             \/ exists r, r ∈ w
                  /\ (fold_left step l acc).1
                     = (bar_close r.1, bar_volume r.1, Some (bar_date r.1))).
  { induction l as [|r l IH]; intros acc Hacc Hl; [exact Hacc|].
    cbn [fold_left]. apply IH.
    - destruct acc as [hr lr]. unfold step. cbn [fst snd] in *.
      destruct (Qltb hr.1.1 (bar_close r.1)).
      + right. exists r. split; [apply Hl, list_elem_of_here|reflexivity].
      + destruct (Qltb (bar_close r.1) lr.1.1); exact Hacc.
    - intros x Hx. apply Hl. apply elem_of_cons. right. exact Hx. }
  apply H; [left; reflexivity|intros r Hr; exact Hr].
Qed.

Lemma recent_low_keeps_date (rows : list (bar * Q)) :
  forall (acc r : backtrace_ma250.row) d0,
    acc.2 = Some d0 ->
    backtrace_ma250.recent_low acc rows = Some r ->
    exists d, r.2 = Some d.
Proof.
  induction rows as [|[b m] rows IH]; intros acc r d0 Hacc H.
  - cbn in H. inversion H; subst. exists d0. exact Hacc.
  - cbn [backtrace_ma250.recent_low] in H.
    destruct (Qltb (bar_close b) m); [discriminate|].
    destruct (Qltb (bar_close b) acc.1.1).
    + exact (IH (bar_close b, bar_volume b, Some (bar_date b)) r (bar_date b) eq_refl H).
    + exact (IH _ _ d0 Hacc H).
Qed.

Lemma DF_tail_subseteq {A} (n : Z) (l : list A) (a : A) :
  a ∈ DF.tail n l -> a ∈ l.
Proof.
  unfold DF.tail. destruct (n =? 0); [intros H; inversion H|].
  destruct (0 <? n); exact (subseteq_drop _ _ _).
Qed.

Lemma backtrace_ma250_returns (code_name : stock) (data : list bar) (date : option Z)
    (threshold : Z) :
  (forall b, b ∈ data -> (bar_close b < 1000000)%Q) ->
  exists b, backtrace_ma250.check code_name data date threshold = Ok b.
Proof.
  intros Hc. unfold backtrace_ma250.check.
  set (m := mask_end_date code_name date data).
  destruct (DF.len m <? 250); [eexists; reflexivity|].
  set (w := DF.tail threshold (zip m (MA (map bar_close m) 250))).
  assert (Hw : forall r, r ∈ w -> (bar_close r.1 < 1000000)%Q).
  { intros [b q] Hr. apply Hc. apply DF_tail_subseteq in Hr.
    apply elem_of_zip_l in Hr. unfold m, mask_end_date in Hr.
    apply list_elem_of_filter in Hr. apply Hr. }
  pose proof (extremes_highest w) as Hh.
  destruct (backtrace_ma250.extremes w) as [hr lr]. cbn [fst] in Hh.
  destruct (Qeq_bool lr.1.2 0 || Qeq_bool hr.1.2 0) eqn:Ev; [eexists; reflexivity|].
  apply orb_false_iff in Ev. destruct Ev as [_ Ev].
  destruct Hh as [Hh|(rh & Hin & Hh)]; [rewrite Hh in Ev; discriminate|].
  rewrite Hh. cbn [snd default from_option id].
  set (front := filter (fun r : bar * Q => bar_date r.1 <? bar_date rh.1) w).
  set (rear := filter (fun r : bar * Q => bar_date rh.1 <=? bar_date r.1) w).
  destruct front as [|f0 front'] eqn:Ef; [eexists; reflexivity|].
  rewrite DF_iloc_first.
  destruct (DF_iloc_last_exists (f0 :: front')) as (f1 & Hf1);
    [unfold DF.len; cbn [length]; lia|].
  rewrite Hf1. cbn [rbind].
  destruct (negb _); [eexists; reflexivity|].
  assert (Hrear : rh ∈ rear).
  { unfold rear. apply list_elem_of_filter. split; [|exact Hin].
    apply Is_true_true, Z.leb_le. lia. }
  destruct rear as [|[b0 m0] rear'] eqn:Er; [inversion Hrear|].
  assert (Hb0 : (bar_close b0 < 1000000)%Q).
  { apply (Hw (b0, m0)).
    assert (Hin0 : (b0, m0) ∈ filter (fun r : bar * Q => bar_date rh.1 <=? bar_date r.1) w)
      by (fold rear; rewrite Er; apply list_elem_of_here).
    apply list_elem_of_filter in Hin0. apply Hin0. }
  cbn [backtrace_ma250.recent_low fst snd].
  destruct (Qltb (bar_close b0) m0); [eexists; reflexivity|].
  replace (Qltb (bar_close b0) 1000000) with true
    by (symmetry; apply Qltb_lt; exact Hb0).
  destruct (backtrace_ma250.recent_low (bar_close b0, bar_volume b0, Some (bar_date b0))
              rear') as [r|] eqn:El; [|eexists; reflexivity].
  destruct (recent_low_keeps_date rear' (bar_close b0, bar_volume b0, Some (bar_date b0))
              r (bar_date b0) eq_refl El) as (d & Hd).
  rewrite Hd. cbn [backtrace_ma250.parse_date rbind].
  destruct (negb _); [eexists; reflexivity|].
  destruct (negb _); eexists; reflexivity.
Qed.

(** X26.  With the registered default parameters none of the ten
    predicates raises on a series whose closes are all below 1,000,000,
    whatever its length and the as-of date: each returns True or False,
    so the batch never has a predicate exception to log for such
    series. *)
Theorem strategies_never_raise
    (S : strategy) (code_name : stock) (data : list bar) (date : option Z)
    (istop : bool) :
  (forall b, b ∈ data -> (bar_close b < 1000000)%Q) ->
  exists b, strategy_fun S code_name data date istop = Ok b.
Proof.
  intros Hc. destruct S; cbn [strategy_fun].
  - apply turtle_returns. lia.
  - apply enter_returns. lia.
  - apply breakthrough_returns. lia.
  - apply backtrace_ma250_returns. exact Hc.
  - apply keep_increasing_returns.
  - apply parking_apron_returns. lia.
  - apply high_tight_returns.
  - apply low_atr_returns. lia.
  - apply low_backtrace_returns. lia.
  - apply climax_returns. lia.
Qed.

Lemma strategies_never_raise_witness :
  (forall b, b ∈ rising_series 10 300 -> (bar_close b < 1000000)%Q)
  /\ exists b,
       strategy_fun BacktraceMa250 (738299, "000001", "PAB") (rising_series 10 300)
         None false = Ok b.
Proof.
  assert (H : forall b, b ∈ rising_series 10 300 -> (bar_close b < 1000000)%Q).
  { intros b Hb. unfold rising_series in Hb.
    apply list_elem_of_In, in_map_iff in Hb. destruct Hb as (i & <- & Hi).
    apply list_elem_of_In, elem_of_seqZ in Hi. cbn [bar_close].
    unfold Qlt. cbn [Qnum Qden inject_Z]. lia. }
  split; [exact H|].
  exact (strategies_never_raise BacktraceMa250 (738299, "000001", "PAB")%string
           (rising_series 10 300) None false H).
Defined.

(* ------------------------------------------------------------------ *)
(** ** The effective minimum length of the rising-average predicate     *)
(* ------------------------------------------------------------------ *)

(** Row [j] of the last [n] rows of the frame with its moving average:
    the bar and the average at position [length m - n + j]. *)
Lemma window_row (m : list bar) (f : bar -> Q) (p : nat) (n j : Z) :
  0 < n <= DF.len m -> 0 <= j < n ->
  exists b,
    DF.iloc j (DF.tail n (zip m (MA (map f m) p)))
    = Ok (b, ma_at (map f m) p (length m - Z.to_nat n + Z.to_nat j)).
Proof.
  intros [Hn Hl] [Hj0 Hj]. unfold DF.len in Hl.
  destruct (lookup_lt_is_Some_2 m (length m - Z.to_nat n + Z.to_nat j)) as [b Hb];
    [lia|].
  exists b. unfold DF.iloc.
  rewrite DF_tail_pos by lia.
  rewrite length_drop, zip_MA_length.
  replace (j <? 0) with false by (symmetry; apply Z.ltb_ge; lia).
  replace ((0 <=? j) && (j <? Z.of_nat (length m - (length m - Z.to_nat n))))
    with true
    by (symmetry; apply andb_true_iff; split; [apply Z.leb_le|apply Z.ltb_lt]; lia).
  rewrite lookup_drop, (zip_MA_lookup m f p _ b Hb). reflexivity.
Qed.

(** X27.  The rising-average predicate (30-bar average, window of 30)
    returns False on every series with fewer than 49 bars up to the
    as-of date, although its length test only asks for 30: with fewer
    than 49 bars the averages at the first two checkpoints are both
    undefined and read as 0, and 0 < 0 fails. *)
Theorem keep_increasing_needs_49_bars
    (code_name : stock) (data : list bar) (date : option Z) :
  DF.len (mask_end_date code_name date data) < 49 ->
  keep_increasing.check code_name data date 30 = Ok false.
Proof.
  intros H49. unfold keep_increasing.check.
  set (m := mask_end_date code_name date data) in *.
  destruct (DF.len m <? 30) eqn:E; [reflexivity|].
  apply Z.ltb_ge in E.
  change (NP.rint (inject_Z 30 / 3)) with 10.
  destruct (window_row m bar_close 30 30 0) as (b0 & H0); [lia|lia|].
  destruct (window_row m bar_close 30 30 10) as (b1 & H1); [lia|lia|].
  rewrite H0, H1. cbn [rbind snd].
  unfold DF.len in *.
  assert (Z0 : forall i, (i < 29)%nat -> ma_at (map bar_close m) 30 i = 0%Q).
  { intros i Hi. unfold ma_at.
    replace (30 <=? S i)%nat with false by (symmetry; apply Nat.leb_gt; lia).
    reflexivity. }
  rewrite !Z0 by lia. reflexivity.
Qed.

Lemma keep_increasing_needs_49_bars_witness :
  DF.len (mask_end_date (738047, "000001", "PAB") None (rising_series 10 48)) < 49
  /\ keep_increasing.check (738047, "000001", "PAB") (rising_series 10 48) None 30
     = Ok false.
Proof.
  assert (H : DF.len (mask_end_date (738047, "000001", "PAB")%string None
                        (rising_series 10 48)) < 49) by (vm_compute; reflexivity).
  split; [exact H|].
  exact (keep_increasing_needs_49_bars (738047, "000001", "PAB")%string
           (rising_series 10 48) None H).
Defined.

(** From the 49th bar on, a steadily rising series is selected. *)
Example keep_increasing_at_49_bars :
  keep_increasing.check (738048, "000001", "PAB") (rising_series 10 49) None 30
  = Ok true.
Proof. vm_compute. reflexivity. Qed.
